(** * gritmaw-api-server: the backtesting engine, the optimizer route and the
    risk sizer

    A shallow embedding of

    - [src/lib/backtesting-engine.ts]  (class [BacktestingEngine]),
    - [src/lib/risk-management.ts]     (class [RiskManager]:
      [calculatePositionSize], [calculateStopLossRecommendations],
      [validateOrderRisk], [calculateMaxDrawdown]),
    - [src/app/api/backtest/optimize/route.ts] (the [POST] handler),

    followed by the properties established about them.

    ** Numbers

    A JavaScript [number] is an IEEE-754 binary64 value.  The code is
    embedded once, over an interface [JSNumber] of the operations it uses,
    and the interface is instantiated twice:

    - [Binary64.float_number]: Rocq's primitive binary64 floats, the
      arithmetic the program really runs on; every concrete run below is
      evaluated there;
    - [Exact.exact_number]: rationals extended with [Infinity], [-Infinity]
      and [NaN], that is binary64 without rounding and overflow; inequalities
      that hold "up to rounding" are proved there.

    Properties that only follow the control flow of the code are proved for
    every instance of the interface.

    ** Other conventions

    - A [Date] is its time value, an integer number of milliseconds ([Z]);
      differences and quotients of dates are computed in [Z].
    - [Math.random()] reads a stream [nat -> N] at a cursor that each call
      advances.
    - A JavaScript object used as a record with string keys is an
      association list in [Object.keys] order.
    - A call either returns, throws, or does not come back within the fuel
      given to its loops ([outcome]). *)

From Stdlib Require Import ZArith QArith Qround Qabs Floats.
From Stdlib Require Import List String Ascii Bool Lia Lqa.
From Stdlib Require Import DecimalString Permutation Sorted.
Import ListNotations.

Set Implicit Arguments.

(* ================================================================== *)
(** * JavaScript numbers *)
(* ================================================================== *)

Declare Scope js_scope.
Delimit Scope js_scope with js.

(** The operations of [number] the embedded code uses.  [<], [<=] and [===]
    are boolean and false as soon as one side is [NaN]. *)
Class JSNumber (N : Type) : Type := {
  of_Z : Z -> N;
  js_add : N -> N -> N;
  js_sub : N -> N -> N;
  js_mul : N -> N -> N;
  js_div : N -> N -> N;
  js_opp : N -> N;
  js_ltb : N -> N -> bool;
  js_leb : N -> N -> bool;
  js_eqb : N -> N -> bool;
  js_isNaN : N -> bool;
  js_NaN : N;
  js_Infinity : N;
  Math_floor : N -> N;
  Math_ceil : N -> N;
  Math_abs : N -> N;
  (** [x.toFixed(d)] *)
  toFixed : N -> nat -> string
}.

(** [Math.sqrt] and [Math.pow].  ECMAScript leaves the accuracy of [Math.pow]
    to the implementation, so it stays a parameter of everything that calls
    it. *)
Class JSMath (N : Type) : Type := {
  Math_sqrt : N -> N;
  Math_pow : N -> N -> N
}.

Infix "+" := js_add : js_scope.
Infix "-" := js_sub : js_scope.
Infix "*" := js_mul : js_scope.
Infix "/" := js_div : js_scope.
Notation "- x" := (js_opp x) : js_scope.
Infix "<?" := js_ltb : js_scope.
Infix "<=?" := js_leb : js_scope.
Notation "a >? b" := (js_ltb b a) : js_scope.
Notation "a >=? b" := (js_leb b a) : js_scope.
Infix "===" := js_eqb (at level 70, no associativity) : js_scope.

Section NumberOps.
Context {N : Type} `{JSNumber N}.
Local Open Scope js_scope.

(** A decimal literal of the source, [lit 0.95]: the quotient of two
    integers, which binary64 division rounds to the double the literal
    denotes. *)
Definition lit (q : Q) : N := of_Z (Qnum q) / of_Z (Zpos (Qden q)).

(** An integer literal. *)
Definition int (z : Z) : N := of_Z z.

(** [array.length] as a number. *)
Definition len {A : Type} (l : list A) : N := of_Z (Z.of_nat (List.length l)).

(** [Math.max(a, b)] and [Math.min(a, b)]: [NaN] if either is. *)
Definition Math_max (a b : N) : N :=
  if js_isNaN a || js_isNaN b then js_NaN
  else if a <? b then b else a.

Definition Math_min (a b : N) : N :=
  if js_isNaN a || js_isNaN b then js_NaN
  else if b <? a then b else a.

(** [Math.max(...xs)] and [Math.min(...xs)]; [Math.max()] is [-Infinity]. *)
Definition Math_max_of (xs : list N) : N := fold_left Math_max xs (- js_Infinity).
Definition Math_min_of (xs : list N) : N := fold_left Math_min xs js_Infinity.

(** Truthiness of a number: neither [0] nor [NaN]. *)
Definition truthy (x : N) : bool := negb ((x === int 0) || js_isNaN x).

(** Truthiness of an optional number ([undefined] is falsy). *)
Definition truthy_opt (x : option N) : bool :=
  match x with Some v => truthy v | None => false end.

(** A destructuring default, [{ x = d } = input]: [d] when [x] is
    [undefined]. *)
Definition or_default {A : Type} (x : option A) (d : A) : A :=
  match x with Some v => v | None => d end.

(** [xs.reduce((sum, x) => sum + f(x), 0)] *)
Definition sum_by {A : Type} (f : A -> N) (xs : list A) : N :=
  fold_left (fun sum x => sum + f x) xs (int 0).

(** [xs.push(x)] *)
Definition push {A : Type} (xs : list A) (x : A) : list A := (xs ++ [x])%list.

(** [xs.slice(start, end)] and [xs.slice(start)]: a negative index counts
    from the end, and both are clamped to the array. *)
Definition slice_index {A : Type} (xs : list A) (i : Z) : nat :=
  let n := Z.of_nat (List.length xs) in
  Z.to_nat (if (i <? 0)%Z then Z.max (n + i) 0 else Z.min i n).

Definition slice {A : Type} (xs : list A) (start stop : Z) : list A :=
  let a := slice_index xs start in
  let b := slice_index xs stop in
  firstn (b - a) (skipn a xs).

Definition slice_from {A : Type} (xs : list A) (start : Z) : list A :=
  skipn (slice_index xs start) xs.

(** The pairs of neighbours of a list, combined by [f]:
    [f xs[0] xs[1]; f xs[1] xs[2]; ...]. *)
Fixpoint consecutive {A B : Type} (f : A -> A -> B) (xs : list A) : list B :=
  match xs with
  | a :: (b :: _) as rest => f a b :: consecutive f rest
  | _ => []
  end.

(** [xs.sort(cmp)] as a stable insertion sort: [x] goes after [y] when
    [cmp(x, y) > 0].  (ECMAScript fixes the result only for a consistent
    comparator, and then every stable sort returns this list.) *)
Fixpoint sort_insert {A : Type} (cmp : A -> A -> N) (x : A) (sorted : list A)
  : list A :=
  match sorted with
  | [] => [x]
  | y :: rest =>
      if cmp y x >? int 0 then x :: y :: rest
      else y :: sort_insert cmp x rest
  end.

Definition sort {A : Type} (cmp : A -> A -> N) (xs : list A) : list A :=
  fold_left (fun sorted x => sort_insert cmp x sorted) xs [].

End NumberOps.

(* ------------------------------------------------------------------ *)
(** ** Decimal rendering, shared by both instances *)

(** The [d] low decimal digits of [n], most significant first. *)
Fixpoint frac_digits (d : nat) (n : Z) (acc : string) : string :=
  match d with
  | O => acc
  | S d' =>
      frac_digits d' (n / 10)
        (String (ascii_of_nat (48 + Z.to_nat (n mod 10))) acc)
  end.

(** [x.toFixed(d)] for a finite [x] given exactly as a rational: the nearest
    multiple of [10^-d], the larger one on a tie, with the sign of [x].
    (For [|x| >= 1e21] JavaScript switches to exponent notation, which is
    not reproduced.) *)
Definition toFixed_Q (x : Q) (d : nat) : string :=
  let scale := (10 ^ Z.of_nat d)%Z in
  let n := Qfloor (Qabs x * inject_Z scale + (1 # 2)) in
  let whole := NilZero.string_of_uint (N.to_uint (Z.to_N (n / scale))) in
  let body :=
    match d with
    | O => whole
    | _ => (whole ++ "." ++ frac_digits d (n mod scale) EmptyString)%string
    end in
  if Qlt_le_dec x 0 then ("-" ++ body)%string else body.

(* ------------------------------------------------------------------ *)
(** ** Exact numbers: rationals with [Infinity], [-Infinity] and [NaN] *)

Module Exact.

Inductive number : Type :=
| Fin (q : Q)
| PosInf
| NegInf
| NaN.

Definition opp (a : number) : number :=
  match a with
  | Fin x => Fin (- x)
  | PosInf => NegInf
  | NegInf => PosInf
  | NaN => NaN
  end.

Definition add (a b : number) : number :=
  match a, b with
  | NaN, _ | _, NaN => NaN
  | Fin x, Fin y => Fin (x + y)
  | PosInf, NegInf | NegInf, PosInf => NaN
  | PosInf, _ | _, PosInf => PosInf
  | NegInf, _ | _, NegInf => NegInf
  end.

Definition sub (a b : number) : number := add a (opp b).

Definition mul (a b : number) : number :=
  match a, b with
  | NaN, _ | _, NaN => NaN
  | Fin x, Fin y => Fin (x * y)
  | Fin x, PosInf | PosInf, Fin x =>
      match x ?= 0 with Eq => NaN | Gt => PosInf | Lt => NegInf end
  | Fin x, NegInf | NegInf, Fin x =>
      match x ?= 0 with Eq => NaN | Gt => NegInf | Lt => PosInf end
  | PosInf, PosInf | NegInf, NegInf => PosInf
  | PosInf, NegInf | NegInf, PosInf => NegInf
  end.

(** Division; a zero divisor is [+0] (zeros carry no sign here). *)
Definition div (a b : number) : number :=
  match a, b with
  | NaN, _ | _, NaN => NaN
  | Fin x, Fin y =>
      if Qeq_bool y 0 then
        match x ?= 0 with Eq => NaN | Gt => PosInf | Lt => NegInf end
      else Fin (x / y)
  | Fin _, PosInf | Fin _, NegInf => Fin 0
  | PosInf, Fin y => match y ?= 0 with Lt => NegInf | _ => PosInf end
  | NegInf, Fin y => match y ?= 0 with Lt => PosInf | _ => NegInf end
  | _, _ => NaN
  end.

Definition ltb (a b : number) : bool :=
  match a, b with
  | NaN, _ | _, NaN => false
  | Fin x, Fin y => negb (Qle_bool y x)
  | NegInf, NegInf | PosInf, _ | _, NegInf => false
  | NegInf, _ | _, PosInf => true
  end.

Definition leb (a b : number) : bool :=
  match a, b with
  | NaN, _ | _, NaN => false
  | Fin x, Fin y => Qle_bool x y
  | NegInf, _ | _, PosInf => true
  | PosInf, _ | _, NegInf => false
  end.

Definition eqb (a b : number) : bool :=
  match a, b with
  | Fin x, Fin y => Qeq_bool x y
  | PosInf, PosInf | NegInf, NegInf => true
  | _, _ => false
  end.

Definition isNaN (a : number) : bool :=
  match a with NaN => true | _ => false end.

Definition floor (a : number) : number :=
  match a with Fin x => Fin (inject_Z (Qfloor x)) | _ => a end.

Definition ceil (a : number) : number :=
  match a with Fin x => Fin (inject_Z (Qceiling x)) | _ => a end.

Definition abs (a : number) : number :=
  match a with Fin x => Fin (Qabs x) | NegInf => PosInf | _ => a end.

Definition to_fixed (a : number) (d : nat) : string :=
  match a with
  | Fin x => toFixed_Q x d
  | PosInf => "Infinity"
  | NegInf => "-Infinity"
  | NaN => "NaN"
  end.

#[export] Instance exact_number : JSNumber number := {
  of_Z z := Fin (inject_Z z);
  js_add := add;
  js_sub := sub;
  js_mul := mul;
  js_div := div;
  js_opp := opp;
  js_ltb := ltb;
  js_leb := leb;
  js_eqb := eqb;
  js_isNaN := isNaN;
  js_NaN := NaN;
  js_Infinity := PosInf;
  Math_floor := floor;
  Math_ceil := ceil;
  Math_abs := abs;
  toFixed := to_fixed
}.

End Exact.

(* ------------------------------------------------------------------ *)
(** ** Binary64: the primitive floats of the kernel *)

Module Binary64.

(** The integer [z] rounded to the nearest double. *)
Definition float_of_Z (z : Z) : float :=
  SF2Prim (binary_normalize prec emax z 0 false).

(** [Math.floor]: a double with a non-negative exponent is an integer; the
    others are [m * 2^e] with [e < 0], floored in [Z]. *)
Definition float_floor (x : float) : float :=
  match Prim2SF x with
  | S754_finite s m e =>
      if (0 <=? e)%Z then x
      else
        let v := if s then Z.neg m else Z.pos m in
        float_of_Z (v / 2 ^ (- e))%Z
  | _ => x
  end.

Definition float_ceil (x : float) : float :=
  match Prim2SF x with
  | S754_finite s m e =>
      if (0 <=? e)%Z then x
      else
        let v := if s then Z.neg m else Z.pos m in
        float_of_Z (- ((- v) / 2 ^ (- e)))%Z
  | _ => x
  end.

(** The exact rational value of a finite double. *)
Definition Q_of_float (x : float) : Q :=
  match Prim2SF x with
  | S754_finite s m e =>
      let v := if s then Z.neg m else Z.pos m in
      if (0 <=? e)%Z then inject_Z (v * 2 ^ e)
      else Qmake v (Z.to_pos (2 ^ (- e)))
  | _ => 0
  end.

Definition float_toFixed (x : float) (d : nat) : string :=
  if PrimFloat.is_nan x then "NaN"
  else if PrimFloat.is_infinity x then
    if PrimFloat.ltb x 0 then "-Infinity" else "Infinity"
  else toFixed_Q (Q_of_float x) d.

#[export] Instance float_number : JSNumber float := {
  of_Z := float_of_Z;
  js_add := PrimFloat.add;
  js_sub := PrimFloat.sub;
  js_mul := PrimFloat.mul;
  js_div := PrimFloat.div;
  js_opp := PrimFloat.opp;
  js_ltb := PrimFloat.ltb;
  js_leb := PrimFloat.leb;
  js_eqb := PrimFloat.eqb;
  js_isNaN := PrimFloat.is_nan;
  js_NaN := PrimFloat.nan;
  js_Infinity := PrimFloat.infinity;
  Math_floor := float_floor;
  Math_ceil := float_ceil;
  Math_abs := PrimFloat.abs;
  toFixed := float_toFixed
}.

(** [Math.sqrt] is the correctly rounded square root; [Math.pow] is given. *)
Definition float_math (pow : float -> float -> float) : JSMath float :=
  {| Math_sqrt := PrimFloat.sqrt; Math_pow := pow |}.

End Binary64.

(* ================================================================== *)
(** * [src/lib/risk-management.ts] *)
(* ================================================================== *)

Inductive RiskTolerance : Type := LOW | MEDIUM | HIGH.

Module RiskParameters.
Record t (N : Type) : Type := mk {
  maxPortfolioRisk : N;
  maxPositionSize : N;
  maxCorrelatedExposure : N;
  stopLossPercent : N;
  takeProfitPercent : option N;
  maxDrawdown : N;
  maxDailyLoss : N;
  riskFreeRate : N
}.
End RiskParameters.

Module PositionSizingInput.
Record t (N : Type) : Type := mk {
  symbol : string;
  entryPrice : N;
  stopLossPrice : N;
  portfolioValue : N;
  riskPerTrade : N;
  userRiskTolerance : RiskTolerance;
  volatility : option N;
  correlation : option N
}.
End PositionSizingInput.

Module PositionSizingResult.
Record t (N : Type) : Type := mk {
  recommendedShares : N;
  recommendedValue : N;
  riskAmount : N;
  riskPercent : N;
  positionSizePercent : N;
  stopLossDistance : N;
  warnings : list string;
  adjustments : list string
}.
End PositionSizingResult.

Module RiskManager.
Section RiskManager.
Context {N : Type} `{JSNumber N}.
Local Open Scope string_scope.
Local Open Scope js_scope.
Import PositionSizingInput.

Definition defaultParameters : RiskParameters.t N :=
  {| RiskParameters.maxPortfolioRisk := lit 2.0;
     RiskParameters.maxPositionSize := lit 20.0;
     RiskParameters.maxCorrelatedExposure := lit 40.0;
     RiskParameters.stopLossPercent := lit 5.0;
     RiskParameters.takeProfitPercent := Some (lit 15.0);
     RiskParameters.maxDrawdown := lit 20.0;
     RiskParameters.maxDailyLoss := lit 5.0;
     RiskParameters.riskFreeRate := lit 0.02 |}.

Definition toleranceMultipliers (t : RiskTolerance) : N :=
  match t with
  | LOW => lit 0.5
  | MEDIUM => lit 1.0
  | HIGH => lit 1.5
  end.

(** The [const]s of [calculatePositionSize] up to the position-size check,
    each under its name in the source. *)
Definition adjustedRiskPerTrade (input : PositionSizingInput.t N) : N :=
  riskPerTrade input * toleranceMultipliers (userRiskTolerance input).

Definition riskAmount (input : PositionSizingInput.t N) : N :=
  portfolioValue input * (adjustedRiskPerTrade input / int 100).

Definition priceRisk (input : PositionSizingInput.t N) : N :=
  Math_abs (entryPrice input - stopLossPrice input).

Definition baseShares (input : PositionSizingInput.t N) : N :=
  Math_floor (riskAmount input / priceRisk input).

Definition volatilityAdjustment (input : PositionSizingInput.t N) : N :=
  Math_max (lit 0.5)
    (Math_min (lit 1.5) (int 1 / or_default (volatility input) (lit 0.2))).

Definition adjustedShares (input : PositionSizingInput.t N) : N :=
  Math_floor (baseShares input * volatilityAdjustment input).

Definition adjustedValue (input : PositionSizingInput.t N) : N :=
  adjustedShares input * entryPrice input.

(** [positionSizePercent], the figure tested against [maxPositionSize]. *)
Definition positionSizePercent (input : PositionSizingInput.t N) : N :=
  (adjustedValue input / portfolioValue input) * int 100.

(** [finalShares] as the position-size branch assigns it. *)
Definition cappedShares (input : PositionSizingInput.t N) : N :=
  Math_floor (portfolioValue input
              * (RiskParameters.maxPositionSize defaultParameters / int 100)
              / entryPrice input).

(** The warning of the position-size branch.  Its template interpolates
    [this.defaultParameters.maxPositionSize], the constant [20.0], which
    prints as [20]. *)
Definition positionSizeWarning : string :=
  "Position size reduced to " ++ "20" ++ "% limit".

Definition calculatePositionSize (input : PositionSizingInput.t N)
  : PositionSizingResult.t N :=
  let volatility := or_default (volatility input) (lit 0.2) in
  let correlation := or_default (correlation input) (int 0) in
  let warnings : list string := [] in
  let adjustments : list string := [] in
  let stopLossDistance :=
    Math_abs (entryPrice input - stopLossPrice input) / entryPrice input * int 100 in
  let priceRisk := priceRisk input in
  (* Check position size limits *)
  let '(finalShares, finalValue, warnings, adjustments) :=
    if positionSizePercent input >? RiskParameters.maxPositionSize defaultParameters
    then
      let finalShares := cappedShares input in
      (finalShares, finalShares * entryPrice input,
       push warnings positionSizeWarning,
       push adjustments "Consider reducing position size or increasing stop-loss distance")
    else (adjustedShares input, adjustedValue input, warnings, adjustments) in
  (* Correlation adjustment *)
  let '(finalShares, finalValue, warnings, adjustments) :=
    if correlation >? lit 0.7 then
      let finalShares := Math_floor (finalShares * lit 0.7) in
      (finalShares, finalShares * entryPrice input,
       push warnings "Position size reduced due to high correlation with existing holdings",
       push adjustments "Consider diversifying into uncorrelated assets")
    else (finalShares, finalValue, warnings, adjustments) in
  (* Final risk calculations *)
  let finalRiskAmount := finalShares * priceRisk in
  let finalRiskPercent := (finalRiskAmount / portfolioValue input) * int 100 in
  let finalPositionPercent := (finalValue / portfolioValue input) * int 100 in
  (* Generate warnings and recommendations *)
  let warnings :=
    if stopLossDistance >? int 10
    then push warnings "Stop-loss distance is high (>10%), consider tighter risk management"
    else warnings in
  let warnings :=
    if finalRiskPercent >? RiskParameters.maxPortfolioRisk defaultParameters
    then push warnings ("Risk per trade (" ++ toFixed finalRiskPercent 2
                        ++ "%) exceeds recommended limit")
    else warnings in
  let '(warnings, adjustments) :=
    if volatility >? lit 0.4
    then (push warnings "High volatility asset - consider smaller position size",
          push adjustments "Monitor position closely and consider trailing stops")
    else (warnings, adjustments) in
  {| PositionSizingResult.recommendedShares := Math_max (int 0) finalShares;
     PositionSizingResult.recommendedValue := finalValue;
     PositionSizingResult.riskAmount := finalRiskAmount;
     PositionSizingResult.riskPercent := finalRiskPercent;
     PositionSizingResult.positionSizePercent := finalPositionPercent;
     PositionSizingResult.stopLossDistance := stopLossDistance;
     PositionSizingResult.warnings := warnings;
     PositionSizingResult.adjustments := adjustments |}.

End RiskManager.
End RiskManager.

(* ================================================================== *)
(** * [src/lib/backtesting-engine.ts]: data *)
(* ================================================================== *)

(** What a call does: it returns a value, throws, or is still looping when
    the fuel is spent. *)
Inductive outcome (A : Type) : Type :=
| Returns (a : A)
| Throws
| OutOfFuel.
Arguments Throws {A}.
Arguments OutOfFuel {A}.

Inductive ParameterType : Type := TNumber | TString | TBoolean | TArray.

Module IStrategyParameter.
Record t (N : Type) : Type := mk {
  name : string;
  type : ParameterType;
  value : N
}.
End IStrategyParameter.

(** [IStrategy], the fields the engine and the route read. *)
Module IStrategy.
Record t (N : Type) : Type := mk {
  strategyId : string;
  userId : string;
  parameters : list (IStrategyParameter.t N)
}.
End IStrategy.

Module BacktestData.
Record t (N : Type) : Type := mk {
  timestamp : Z;
  symbol : string;
  open : N;
  high : N;
  low : N;
  close : N;
  volume : N
}.
End BacktestData.

Module BacktestParameters.
Record t (N : Type) : Type := mk {
  strategy : IStrategy.t N;
  startDate : Z;
  endDate : Z;
  initialCapital : N;
  symbols : list string;
  commission : N;
  slippage : N;
  maxPositions : N
}.
End BacktestParameters.

Inductive Side : Type := LONG | SHORT.

Module BacktestPosition.
Record t (N : Type) : Type := mk {
  symbol : string;
  side : Side;
  entryPrice : N;
  entryDate : Z;
  quantity : N;
  stopLoss : option N;
  takeProfit : option N;
  value : N
}.
End BacktestPosition.

Inductive ExitReason : Type := STOP_LOSS | TAKE_PROFIT | SIGNAL_EXIT | END_OF_PERIOD.

Module BacktestTrade.
Record t (N : Type) : Type := mk {
  symbol : string;
  side : Side;
  entryPrice : N;
  exitPrice : N;
  entryDate : Z;
  exitDate : Z;
  quantity : N;
  profit : N;
  profitPercent : N;
  commission : N;
  holdingPeriod : N;
  reason : ExitReason
}.
End BacktestTrade.

Module BacktestMetrics.
Record t (N : Type) : Type := mk {
  totalReturn : N;
  totalReturnPercent : N;
  annualizedReturn : N;
  sharpeRatio : N;
  maxDrawdown : N;
  maxDrawdownPercent : N;
  volatility : N;
  totalTrades : N;
  winningTrades : N;
  losingTrades : N;
  winRate : N;
  averageWin : N;
  averageLoss : N;
  profitFactor : N;
  largestWin : N;
  largestLoss : N;
  averageHoldingPeriod : N;
  totalCommissions : N;
  calmarRatio : N;
  sortinoRatio : N
}.
End BacktestMetrics.

(** An element of [BacktestResult['equityCurve']]. *)
Module EquityPoint.
Record t (N : Type) : Type := mk {
  date : Z;
  equity : N;
  drawdown : N;
  drawdownPercent : N
}.
End EquityPoint.

(** [BacktestResult] without [monthlyReturns] and [performanceStats], which
    are computed from the equity curve and the trades after everything
    below and feed nothing back. *)
Module BacktestResult.
Record t (N : Type) : Type := mk {
  strategy : IStrategy.t N;
  parameters : BacktestParameters.t N;
  metrics : BacktestMetrics.t N;
  trades : list (BacktestTrade.t N);
  equityCurve : list (EquityPoint.t N)
}.
End BacktestResult.

Inductive SignalType : Type := BUY | SELL | HOLD.

Module TradingSignal.
Record t (N : Type) : Type := mk {
  type : SignalType;
  strength : N;
  price : N;
  timestamp : Z;
  reasoning : string
}.
End TradingSignal.

(** [{ min, max, step }], the range of one optimized parameter. *)
Module Range.
Record t (N : Type) : Type := mk {
  min : N;
  max : N;
  step : N
}.
End Range.

(** [Omit<BacktestParameters, 'strategy'>] *)
Module BacktestConfig.
Record t (N : Type) : Type := mk {
  startDate : Z;
  endDate : Z;
  initialCapital : N;
  symbols : list string;
  commission : N;
  slippage : N;
  maxPositions : N
}.
End BacktestConfig.

(** An element of [optimizationResults]. *)
Module OptimizationEntry.
Record t (N : Type) : Type := mk {
  parameters : list (string * N);
  metrics : BacktestMetrics.t N
}.
End OptimizationEntry.

(** What [optimizeStrategy] resolves to; [bestMetrics] is [null] ([None])
    when no combination was run. *)
Module Optimization.
Record t (N : Type) : Type := mk {
  bestStrategy : IStrategy.t N;
  bestMetrics : option (BacktestMetrics.t N);
  optimizationResults : list (OptimizationEntry.t N)
}.
End Optimization.

(* ================================================================== *)
(** * [src/lib/backtesting-engine.ts]: class [BacktestingEngine] *)
(* ================================================================== *)

Definition SignalType_eqb (a b : SignalType) : bool :=
  match a, b with
  | BUY, BUY | SELL, SELL | HOLD, HOLD => true
  | _, _ => false
  end.

(** [Math.ceil(a / b)] for integers [a] and [b > 0]. *)
Definition ceil_div (a b : Z) : Z := (- ((- a) / b))%Z.

(** [Object.keys(dataByDate).sort()]: the keys in increasing order. *)
Fixpoint insert_key (k : Z) (sorted : list Z) : list Z :=
  match sorted with
  | [] => [k]
  | k' :: rest =>
      if (k <=? k')%Z then k :: k' :: rest else k' :: insert_key k rest
  end.

Definition sort_keys (keys : list Z) : list Z :=
  fold_left (fun sorted k => insert_key k sorted) keys [].

Module BacktestingEngine.
Section BacktestingEngine.
Context {N : Type} `{JSNumber N}.
Local Open Scope string_scope.
Local Open Scope js_scope.

(** [private riskFreeRate = 0.02] *)
Definition riskFreeRate : N := lit 0.02.

(* ------------------------------------------------------------------ *)
(** ** [Math.random] *)

(** The values [Math.random()] returns, in call order. *)
Variable random : nat -> N.

(** A computation that draws from [random]: from the cursor before to the
    result and the cursor after. *)
Definition M (A : Type) : Type := nat -> A * nat.

Definition ret {A : Type} (a : A) : M A := fun k => (a, k).

Definition bind {A B : Type} (c : M A) (f : A -> M B) : M B :=
  fun k => let (a, k') := c k in f a k'.

Definition Math_random : M N := fun k => (random k, S k).

Local Notation "x <- c ;; f" := (bind c (fun x => f))
  (at level 61, c at next level, right associativity).

(* ------------------------------------------------------------------ *)
(** ** [generateHistoricalData] *)

(** One turn of the inner loop: the bar of day [i] and the price carried to
    the next day. *)
Definition generateBar (symbol : string) (startDate i : Z) (currentPrice : N)
  : M (BacktestData.t N * N) :=
  let date := (startDate + i * 24 * 60 * 60 * 1000)%Z in
  let trend := lit 0.0002 in
  let volatility := lit 0.02 in
  r <- Math_random ;;
  let randomChange := (r - lit 0.5) * int 2 * volatility in
  let currentPrice := currentPrice * (int 1 + trend + randomChange) in
  let dayVolatility := volatility * lit 0.5 in
  r <- Math_random ;;
  let high := currentPrice * (int 1 + r * dayVolatility) in
  r <- Math_random ;;
  let low := currentPrice * (int 1 - r * dayVolatility) in
  r <- Math_random ;;
  let open := low + r * (high - low) in
  let close := currentPrice in
  r <- Math_random ;;
  let volume := Math_floor (int 1000000 + r * int 5000000) in
  ret ({| BacktestData.timestamp := date;
          BacktestData.symbol := symbol;
          BacktestData.open := open;
          BacktestData.high := high;
          BacktestData.low := low;
          BacktestData.close := close;
          BacktestData.volume := volume |}, currentPrice).

(** [for (let i = 0; i <= days; i++)], with [n] turns left. *)
Fixpoint generateBars (symbol : string) (startDate i : Z) (n : nat)
    (currentPrice : N) (data : list (BacktestData.t N))
  : M (list (BacktestData.t N)) :=
  match n with
  | O => ret data
  | S n' =>
      b <- generateBar symbol startDate i currentPrice ;;
      generateBars symbol startDate (i + 1) n' (snd b) (push data (fst b))
  end.

(** [for (const symbol of symbols)] *)
Fixpoint generateSymbols (symbols : list string) (startDate days : Z)
    (data : list (BacktestData.t N)) : M (list (BacktestData.t N)) :=
  match symbols with
  | [] => ret data
  | symbol :: rest =>
      r <- Math_random ;;
      let currentPrice := int 100 + r * int 200 in
      data <- generateBars symbol startDate 0 (Z.to_nat (days + 1))
                currentPrice data ;;
      generateSymbols rest startDate days data
  end.

Definition generateHistoricalData (symbols : list string) (startDate endDate : Z)
  : M (list (BacktestData.t N)) :=
  let days := ceil_div (endDate - startDate) (1000 * 60 * 60 * 24) in
  generateSymbols symbols startDate days [].

(* ------------------------------------------------------------------ *)
(** ** [groupDataByDate] *)

(** [item.timestamp.toISOString().split('T')[0]], the UTC calendar day of a
    date, stands as its day number; between the years 0000 and 9999 the
    strings sort as the day numbers do. *)
Definition dateKey (time : Z) : Z := (time / (1000 * 60 * 60 * 24))%Z.

(** [new Date(dateStr)] for such a key: midnight UTC of that day. *)
Definition Date_of_key (key : Z) : Z := (key * (1000 * 60 * 60 * 24))%Z.

(** [if (!acc[dateKey]) acc[dateKey] = []; acc[dateKey].push(item)] *)
Fixpoint group_push (key : Z) (item : BacktestData.t N)
    (acc : list (Z * list (BacktestData.t N))) : list (Z * list (BacktestData.t N)) :=
  match acc with
  | [] => [(key, [item])]
  | (k, items) :: rest =>
      if (k =? key)%Z then (k, push items item) :: rest
      else (k, items) :: group_push key item rest
  end.

Definition groupDataByDate (data : list (BacktestData.t N))
  : list (Z * list (BacktestData.t N)) :=
  fold_left
    (fun acc item => group_push (dateKey (BacktestData.timestamp item)) item acc)
    data [].

(** [dataByDate[dateStr]] *)
Definition lookup_date (dataByDate : list (Z * list (BacktestData.t N))) (key : Z)
  : list (BacktestData.t N) :=
  match find (fun e => (fst e =? key)%Z) dataByDate with
  | Some e => snd e
  | None => []
  end.

(* ------------------------------------------------------------------ *)
(** ** [calculateRSI] and [generateTradingSignal] *)

Definition sum_close (data : list (BacktestData.t N)) : N :=
  sum_by (fun d => BacktestData.close d) data.

Definition sum_all (xs : list N) : N := sum_by (fun x => x) xs.

Definition calculateRSI (data : list (BacktestData.t N)) (period : Z) : N :=
  if len data <? int (period + 1) then int 50
  else
    let changes :=
      consecutive (fun prev cur => BacktestData.close cur - BacktestData.close prev)
        data in
    let gains := map (fun change => Math_max (int 0) change) changes in
    let losses := map (fun change => Math_max (int 0) (- change)) changes in
    let avgGain := sum_all (slice_from gains (- period)) / int period in
    let avgLoss := sum_all (slice_from losses (- period)) / int period in
    if avgLoss === int 0 then int 100
    else
      let rs := avgGain / avgLoss in
      int 100 - (int 100 / (int 1 + rs)).

Definition generateTradingSignal (currentData : BacktestData.t N)
    (strategy : IStrategy.t N) (historicalData : list (BacktestData.t N))
  : TradingSignal.t N :=
  if len historicalData <? int 20 then
    {| TradingSignal.type := HOLD;
       TradingSignal.strength := int 0;
       TradingSignal.price := BacktestData.close currentData;
       TradingSignal.timestamp := BacktestData.timestamp currentData;
       TradingSignal.reasoning := "Insufficient historical data" |}
  else
    (* Simple moving average crossover strategy *)
    let shortPeriod := 10%Z in
    let longPeriod := 20%Z in
    let recentData := slice_from historicalData (- longPeriod) in
    let shortMA := sum_close (slice_from recentData (- shortPeriod)) / int shortPeriod in
    let longMA := sum_close recentData / int longPeriod in
    let prevShortMA :=
      sum_close (slice recentData (- shortPeriod - 1) (-1)) / int shortPeriod in
    let prevLongMA :=
      match slice_from recentData (-1) with
      | _ :: _ => sum_close (slice recentData 0 (-1)) / int (longPeriod - 1)
      | [] => longMA
      end in
    (* RSI calculation for additional confirmation *)
    let rsi := calculateRSI recentData 14 in
    (* Determine signal *)
    if (shortMA >? longMA) && (prevShortMA <=? prevLongMA) && (rsi <? int 70) then
      {| TradingSignal.type := BUY;
         TradingSignal.strength :=
           Math_min (int 1) ((shortMA - longMA) / longMA + (int 70 - rsi) / int 100);
         TradingSignal.price := BacktestData.close currentData;
         TradingSignal.timestamp := BacktestData.timestamp currentData;
         TradingSignal.reasoning := "MA crossover bullish, RSI: " ++ toFixed rsi 1 |}
    else if (shortMA <? longMA) && (prevShortMA >=? prevLongMA) && (rsi >? int 30) then
      {| TradingSignal.type := SELL;
         TradingSignal.strength :=
           Math_min (int 1) ((longMA - shortMA) / longMA + (rsi - int 30) / int 100);
         TradingSignal.price := BacktestData.close currentData;
         TradingSignal.timestamp := BacktestData.timestamp currentData;
         TradingSignal.reasoning := "MA crossover bearish, RSI: " ++ toFixed rsi 1 |}
    else
      {| TradingSignal.type := HOLD;
         TradingSignal.strength := int 0;
         TradingSignal.price := BacktestData.close currentData;
         TradingSignal.timestamp := BacktestData.timestamp currentData;
         TradingSignal.reasoning := "No clear signal" |}.

(* ------------------------------------------------------------------ *)
(** ** [executeEntry], [closePosition] and [processExistingPositions] *)

Definition executeEntry (signal : TradingSignal.t N) (data : BacktestData.t N)
    (availableCapital : N) (parameters : BacktestParameters.t N)
  : option (BacktestPosition.t N) :=
  let positionSize :=
    Math_min (availableCapital * lit 0.1)
             (BacktestParameters.initialCapital parameters * lit 0.2) in
  if positionSize <? int 1000 then None
  else
    let entryPrice :=
      BacktestData.close data
      * (int 1 + BacktestParameters.slippage parameters / int 100) in
    let quantity := Math_floor (positionSize / entryPrice) in
    let actualValue := quantity * entryPrice + BacktestParameters.commission parameters in
    if actualValue >? availableCapital then None
    else
      let stopLoss := entryPrice * lit 0.95 in
      let takeProfit := entryPrice * lit 1.15 in
      Some {| BacktestPosition.symbol := BacktestData.symbol data;
              BacktestPosition.side := LONG;
              BacktestPosition.entryPrice := entryPrice;
              BacktestPosition.entryDate := BacktestData.timestamp data;
              BacktestPosition.quantity := quantity;
              BacktestPosition.stopLoss := Some stopLoss;
              BacktestPosition.takeProfit := Some takeProfit;
              BacktestPosition.value := actualValue |}.

Definition closePosition (position : BacktestPosition.t N) (exitPrice : N)
    (exitDate : Z) (reason : ExitReason) (parameters : BacktestParameters.t N)
  : BacktestTrade.t N :=
  let adjustedExitPrice :=
    exitPrice * (int 1 - BacktestParameters.slippage parameters / int 100) in
  let profit :=
    (adjustedExitPrice - BacktestPosition.entryPrice position)
    * BacktestPosition.quantity position
    - (BacktestParameters.commission parameters * int 2) in
  let profitPercent :=
    (profit / (BacktestPosition.entryPrice position * BacktestPosition.quantity position))
    * int 100 in
  let holdingPeriod :=
    int (ceil_div (exitDate - BacktestPosition.entryDate position)
           (1000 * 60 * 60 * 24)) in
  {| BacktestTrade.symbol := BacktestPosition.symbol position;
     BacktestTrade.side := BacktestPosition.side position;
     BacktestTrade.entryPrice := BacktestPosition.entryPrice position;
     BacktestTrade.exitPrice := adjustedExitPrice;
     BacktestTrade.entryDate := BacktestPosition.entryDate position;
     BacktestTrade.exitDate := exitDate;
     BacktestTrade.quantity := BacktestPosition.quantity position;
     BacktestTrade.profit := profit;
     BacktestTrade.profitPercent := profitPercent;
     BacktestTrade.commission := BacktestParameters.commission parameters * int 2;
     BacktestTrade.holdingPeriod := holdingPeriod;
     BacktestTrade.reason := reason |}.

(** The bar of a position's symbol in the day's data:
    [dayData.find(d => d.symbol === position.symbol)]. *)
Definition find_symbol (dayData : list (BacktestData.t N)) (symbol : string)
  : option (BacktestData.t N) :=
  find (fun d => String.eqb (BacktestData.symbol d) symbol) dayData.

(** [position.takeProfit && symbolData.high >= position.takeProfit] *)
Definition takeProfitHit (position : BacktestPosition.t N)
    (symbolData : BacktestData.t N) : option (ExitReason * N) :=
  match BacktestPosition.takeProfit position with
  | Some takeProfit =>
      if truthy takeProfit && (BacktestData.high symbolData >=? takeProfit)
      then Some (TAKE_PROFIT, takeProfit)
      else None
  | None => None
  end.

(** The exit test of one position against its bar, stop-loss first:
    [exitReason] and [exitPrice] when the position leaves, [None] while
    [exitReason] stays [null]. *)
Definition exitDecision (position : BacktestPosition.t N)
    (symbolData : BacktestData.t N) : option (ExitReason * N) :=
  match BacktestPosition.stopLoss position with
  | Some stopLoss =>
      if truthy stopLoss && (BacktestData.low symbolData <=? stopLoss)
      then Some (STOP_LOSS, stopLoss)
      else takeProfitHit position symbolData
  | None => takeProfitHit position symbolData
  end.

(** The three results of [processExistingPositions]. *)
Record Processed : Type := {
  closedTrades : list (BacktestTrade.t N);
  remainingPositions : list (BacktestPosition.t N);
  capitalFromClosedTrades : N
}.

(** The body of [for (const position of positions)]. *)
Definition processPosition (dayData : list (BacktestData.t N))
    (parameters : BacktestParameters.t N) (acc : Processed)
    (position : BacktestPosition.t N) : Processed :=
  match find_symbol dayData (BacktestPosition.symbol position) with
  | None =>
      {| closedTrades := closedTrades acc;
         remainingPositions := push (remainingPositions acc) position;
         capitalFromClosedTrades := capitalFromClosedTrades acc |}
  | Some symbolData =>
      match exitDecision position symbolData with
      | Some (exitReason, exitPrice) =>
          let trade :=
            closePosition position exitPrice (BacktestData.timestamp symbolData)
              exitReason parameters in
          {| closedTrades := push (closedTrades acc) trade;
             remainingPositions := remainingPositions acc;
             capitalFromClosedTrades :=
               capitalFromClosedTrades acc
               + ((BacktestTrade.quantity trade * exitPrice)
                  - BacktestParameters.commission parameters) |}
      | None =>
          {| closedTrades := closedTrades acc;
             remainingPositions := push (remainingPositions acc) position;
             capitalFromClosedTrades := capitalFromClosedTrades acc |}
      end
  end.

Definition processExistingPositions (positions : list (BacktestPosition.t N))
    (dayData : list (BacktestData.t N)) (parameters : BacktestParameters.t N)
  : Processed :=
  fold_left (processPosition dayData parameters) positions
    {| closedTrades := []; remainingPositions := []; capitalFromClosedTrades := int 0 |}.

(* ------------------------------------------------------------------ *)
(** ** [calculateVolatility], [calculateMetrics] and [getEmptyMetrics] *)

Context `{JSMath N}.

Definition calculateVolatility (returns : list N) : N :=
  if len returns <? int 2 then int 0
  else
    let mean := sum_all returns / len returns in
    let variance :=
      sum_by (fun r => Math_pow (r - mean) (int 2)) returns
      / (len returns - int 1) in
    Math_sqrt variance.

Definition getEmptyMetrics : BacktestMetrics.t N :=
  {| BacktestMetrics.totalReturn := int 0;
     BacktestMetrics.totalReturnPercent := int 0;
     BacktestMetrics.annualizedReturn := int 0;
     BacktestMetrics.sharpeRatio := int 0;
     BacktestMetrics.maxDrawdown := int 0;
     BacktestMetrics.maxDrawdownPercent := int 0;
     BacktestMetrics.volatility := int 0;
     BacktestMetrics.totalTrades := int 0;
     BacktestMetrics.winningTrades := int 0;
     BacktestMetrics.losingTrades := int 0;
     BacktestMetrics.winRate := int 0;
     BacktestMetrics.averageWin := int 0;
     BacktestMetrics.averageLoss := int 0;
     BacktestMetrics.profitFactor := int 0;
     BacktestMetrics.largestWin := int 0;
     BacktestMetrics.largestLoss := int 0;
     BacktestMetrics.averageHoldingPeriod := int 0;
     BacktestMetrics.totalCommissions := int 0;
     BacktestMetrics.calmarRatio := int 0;
     BacktestMetrics.sortinoRatio := int 0 |}.

(** The daily returns of an equity curve:
    [equityCurve.slice(1).map((current, index) => ...)]. *)
Definition dailyReturnsOf (equityCurve : list (EquityPoint.t N)) : list N :=
  consecutive
    (fun previous current =>
       (EquityPoint.equity current - EquityPoint.equity previous)
       / EquityPoint.equity previous)
    equityCurve.

(** [avgDailyReturn - dailyRiskFreeRate] *)
Definition excessReturnOf (dailyReturns : list N) : N :=
  let avgDailyReturn := sum_all dailyReturns / len dailyReturns in
  let dailyRiskFreeRate := riskFreeRate / int 365 in
  avgDailyReturn - dailyRiskFreeRate.

Definition calculateMetrics (trades : list (BacktestTrade.t N))
    (equityCurve : list (EquityPoint.t N)) (parameters : BacktestParameters.t N)
  : BacktestMetrics.t N :=
  match trades, rev equityCurve with
  | [], _ | _, [] => getEmptyMetrics
  | _ :: _, lastPoint :: _ =>
      let initialCapital := BacktestParameters.initialCapital parameters in
      let finalEquity := EquityPoint.equity lastPoint in
      let totalReturn := finalEquity - initialCapital in
      let totalReturnPercent := (totalReturn / initialCapital) * int 100 in
      (* Calculate annualized return *)
      let days := len equityCurve in
      let years := days / int 365 in
      let annualizedReturn :=
        if years >? int 0
        then (Math_pow (finalEquity / initialCapital) (int 1 / years) - int 1) * int 100
        else int 0 in
      (* Calculate returns for Sharpe ratio *)
      let dailyReturns := dailyReturnsOf equityCurve in
      let excessReturn := excessReturnOf dailyReturns in
      let volatility := calculateVolatility dailyReturns in
      let sharpeRatio :=
        if volatility >? int 0
        then (excessReturn / volatility) * Math_sqrt (int 365)
        else int 0 in
      (* Calculate drawdowns *)
      let maxDrawdown := Math_max_of (map (fun e => EquityPoint.drawdown e) equityCurve) in
      let maxDrawdownPercent :=
        Math_max_of (map (fun e => EquityPoint.drawdownPercent e) equityCurve) in
      (* Trade statistics *)
      let winningTrades := filter (fun t => BacktestTrade.profit t >? int 0) trades in
      let losingTrades := filter (fun t => BacktestTrade.profit t <? int 0) trades in
      let winRate := (len winningTrades / len trades) * int 100 in
      let averageWin :=
        if len winningTrades >? int 0
        then sum_by (fun t => BacktestTrade.profit t) winningTrades / len winningTrades
        else int 0 in
      let averageLoss :=
        if len losingTrades >? int 0
        then Math_abs (sum_by (fun t => BacktestTrade.profit t) losingTrades
                       / len losingTrades)
        else int 0 in
      let profitFactor :=
        if averageLoss >? int 0 then averageWin / averageLoss else int 0 in
      let largestWin :=
        Math_max_of (int 0 :: map (fun t => BacktestTrade.profit t) trades) in
      let largestLoss :=
        Math_min_of (int 0 :: map (fun t => BacktestTrade.profit t) trades) in
      let averageHoldingPeriod :=
        sum_by (fun t => BacktestTrade.holdingPeriod t) trades / len trades in
      let totalCommissions := sum_by (fun t => BacktestTrade.commission t) trades in
      (* Advanced ratios *)
      let calmarRatio :=
        if maxDrawdownPercent >? int 0
        then annualizedReturn / maxDrawdownPercent
        else int 0 in
      let downsideReturns := filter (fun r => r <? int 0) dailyReturns in
      let downsideVolatility :=
        if len downsideReturns >? int 0
        then calculateVolatility downsideReturns
        else int 0 in
      let sortinoRatio :=
        if downsideVolatility >? int 0
        then (excessReturn / downsideVolatility) * Math_sqrt (int 365)
        else int 0 in
      {| BacktestMetrics.totalReturn := totalReturn;
         BacktestMetrics.totalReturnPercent := totalReturnPercent;
         BacktestMetrics.annualizedReturn := annualizedReturn;
         BacktestMetrics.sharpeRatio := sharpeRatio;
         BacktestMetrics.maxDrawdown := maxDrawdown;
         BacktestMetrics.maxDrawdownPercent := maxDrawdownPercent;
         BacktestMetrics.volatility := volatility * Math_sqrt (int 365) * int 100;
         BacktestMetrics.totalTrades := len trades;
         BacktestMetrics.winningTrades := len winningTrades;
         BacktestMetrics.losingTrades := len losingTrades;
         BacktestMetrics.winRate := winRate;
         BacktestMetrics.averageWin := averageWin;
         BacktestMetrics.averageLoss := averageLoss;
         BacktestMetrics.profitFactor := profitFactor;
         BacktestMetrics.largestWin := largestWin;
         BacktestMetrics.largestLoss := largestLoss;
         BacktestMetrics.averageHoldingPeriod := averageHoldingPeriod;
         BacktestMetrics.totalCommissions := totalCommissions;
         BacktestMetrics.calmarRatio := calmarRatio;
         BacktestMetrics.sortinoRatio := sortinoRatio |}
  end.

(* ------------------------------------------------------------------ *)
(** ** [runBacktest] *)

(** The [let] variables of [runBacktest]. *)
Record LoopState : Type := {
  currentCapital : N;
  positions : list (BacktestPosition.t N);
  trades : list (BacktestTrade.t N);
  equityCurve : list (EquityPoint.t N)
}.

(** The body of [for (const symbolData of dayData)], on [currentCapital] and
    [positions]. *)
Definition signalStep (parameters : BacktestParameters.t N)
    (historicalData : list (BacktestData.t N)) (date : Z)
    (st : N * list (BacktestPosition.t N)) (symbolData : BacktestData.t N)
  : N * list (BacktestPosition.t N) :=
  let '(currentCapital, positions) := st in
  let signal :=
    generateTradingSignal symbolData (BacktestParameters.strategy parameters)
      (filter (fun d =>
                 String.eqb (BacktestData.symbol d) (BacktestData.symbol symbolData)
                 && (BacktestData.timestamp d <=? date)%Z)
         historicalData) in
  if SignalType_eqb (TradingSignal.type signal) BUY
     && (len positions <? BacktestParameters.maxPositions parameters)
  then
    match executeEntry signal symbolData currentCapital parameters with
    | Some newPosition =>
        (currentCapital - BacktestPosition.value newPosition,
         push positions newPosition)
    | None => (currentCapital, positions)
    end
  else (currentCapital, positions).

(** [dayData.find(d => d.symbol === pos.symbol)?.close || pos.entryPrice] *)
Definition currentPriceOf (dayData : list (BacktestData.t N))
    (pos : BacktestPosition.t N) : N :=
  match find_symbol dayData (BacktestPosition.symbol pos) with
  | Some d =>
      if truthy (BacktestData.close d) then BacktestData.close d
      else BacktestPosition.entryPrice pos
  | None => BacktestPosition.entryPrice pos
  end.

Definition positionValueOf (positions : list (BacktestPosition.t N))
    (dayData : list (BacktestData.t N)) : N :=
  fold_left
    (fun sum pos =>
       let currentPrice := currentPriceOf dayData pos in
       sum + (BacktestPosition.quantity pos * currentPrice))
    positions (int 0).

(** The equity point of a day, from the cash and the open positions. *)
Definition equityPoint (parameters : BacktestParameters.t N) (date : Z)
    (currentCapital : N) (positions : list (BacktestPosition.t N))
    (dayData : list (BacktestData.t N)) : EquityPoint.t N :=
  let positionValue := positionValueOf positions dayData in
  let currentEquity := currentCapital + positionValue in
  let drawdown :=
    Math_max (int 0) (BacktestParameters.initialCapital parameters - currentEquity) in
  let drawdownPercent :=
    (drawdown / BacktestParameters.initialCapital parameters) * int 100 in
  {| EquityPoint.date := date;
     EquityPoint.equity := currentEquity;
     EquityPoint.drawdown := drawdown;
     EquityPoint.drawdownPercent := drawdownPercent |}.

(** The body of [for (const dateStr of dates)]. *)
Definition dayStep (parameters : BacktestParameters.t N)
    (historicalData : list (BacktestData.t N))
    (dataByDate : list (Z * list (BacktestData.t N)))
    (st : LoopState) (dateStr : Z) : LoopState :=
  let date := Date_of_key dateStr in
  let dayData := lookup_date dataByDate dateStr in
  (* Process existing positions *)
  let processed := processExistingPositions (positions st) dayData parameters in
  let trades := (trades st ++ closedTrades processed)%list in
  let positions := remainingPositions processed in
  let currentCapital := currentCapital st + capitalFromClosedTrades processed in
  (* Generate trading signals for each symbol *)
  let '(currentCapital, positions) :=
    fold_left (signalStep parameters historicalData date) dayData
      (currentCapital, positions) in
  (* Calculate current equity *)
  {| currentCapital := currentCapital;
     positions := positions;
     trades := trades;
     equityCurve :=
       push (equityCurve st)
         (equityPoint parameters date currentCapital positions dayData) |}.

(** [historicalData.filter(d => d.symbol === pos.symbol)
      .sort((a, b) => b.timestamp.getTime() - a.timestamp.getTime())[0]] *)
Definition finalDataOf (historicalData : list (BacktestData.t N))
    (pos : BacktestPosition.t N) : option (BacktestData.t N) :=
  hd_error
    (sort (fun a b => int (BacktestData.timestamp b) - int (BacktestData.timestamp a))
       (filter (fun d => String.eqb (BacktestData.symbol d) (BacktestPosition.symbol pos))
          historicalData)).

(** [positions.map(pos => ...)] at the end of the run; reading [.close] of a
    missing [finalData] throws. *)
Fixpoint closeRemaining (parameters : BacktestParameters.t N)
    (historicalData : list (BacktestData.t N))
    (positions : list (BacktestPosition.t N)) : outcome (list (BacktestTrade.t N)) :=
  match positions with
  | [] => Returns []
  | pos :: rest =>
      match finalDataOf historicalData pos with
      | None => Throws
      | Some finalData =>
          match closeRemaining parameters historicalData rest with
          | Returns closed =>
              Returns
                (closePosition pos (BacktestData.close finalData)
                   (BacktestParameters.endDate parameters) END_OF_PERIOD parameters
                 :: closed)
          | Throws => Throws
          | OutOfFuel => OutOfFuel
          end
      end
  end.

(** The state after the loop over the sorted dates. *)
Definition simulate (parameters : BacktestParameters.t N)
    (historicalData : list (BacktestData.t N)) : LoopState :=
  let dataByDate := groupDataByDate historicalData in
  let dates := sort_keys (map fst dataByDate) in
  fold_left (dayStep parameters historicalData dataByDate) dates
    {| currentCapital := BacktestParameters.initialCapital parameters;
       positions := [];
       trades := [];
       equityCurve := [] |}.

(** [runBacktest] from the generated data on. *)
Definition runBacktestOn (parameters : BacktestParameters.t N)
    (historicalData : list (BacktestData.t N)) : outcome (BacktestResult.t N) :=
  let st := simulate parameters historicalData in
  (* Close remaining positions at the end *)
  match closeRemaining parameters historicalData (positions st) with
  | Returns finalClosedTrades =>
      let trades := (trades st ++ finalClosedTrades)%list in
      let metrics := calculateMetrics trades (equityCurve st) parameters in
      Returns {| BacktestResult.strategy := BacktestParameters.strategy parameters;
                 BacktestResult.parameters := parameters;
                 BacktestResult.metrics := metrics;
                 BacktestResult.trades := trades;
                 BacktestResult.equityCurve := equityCurve st |}
  | Throws => Throws
  | OutOfFuel => OutOfFuel
  end.

Definition runBacktest (parameters : BacktestParameters.t N)
  : M (outcome (BacktestResult.t N)) :=
  historicalData <-
    generateHistoricalData (BacktestParameters.symbols parameters)
      (BacktestParameters.startDate parameters)
      (BacktestParameters.endDate parameters) ;;
  ret (runBacktestOn parameters historicalData).

(* ------------------------------------------------------------------ *)
(** ** [generateParameterCombinations] and [optimizeStrategy] *)

(** [current[paramName] = value]: the key keeps its place if it is there. *)
Fixpoint assign (current : list (string * N)) (paramName : string) (value : N)
  : list (string * N) :=
  match current with
  | [] => [(paramName, value)]
  | (k, v) :: rest =>
      if String.eqb k paramName then (k, value) :: rest
      else (k, v) :: assign rest paramName value
  end.

(** [generateCombinations(index, current)] on the ranges from [index] on.
    [current] and [combinations] are shared by all calls and come back
    updated; every [for] loop may take [fuel] turns. *)
Fixpoint generateCombinations (fuel : nat) (ranges : list (string * Range.t N))
    (st : list (string * N) * list (list (string * N)))
  : outcome (list (string * N) * list (list (string * N))) :=
  match ranges with
  | [] =>
      let '(current, combinations) := st in
      Returns (current, push combinations current)
  | (paramName, range) :: rest =>
      (fix loop (n : nat) (value : N)
           (st : list (string * N) * list (list (string * N))) {struct n}
         : outcome (list (string * N) * list (list (string * N))) :=
         if value <=? Range.max range then
           match n with
           | O => OutOfFuel
           | S n' =>
               let '(current, combinations) := st in
               match generateCombinations fuel rest
                       (assign current paramName value, combinations) with
               | Returns st' => loop n' (value + Range.step range) st'
               | Throws => Throws
               | OutOfFuel => OutOfFuel
               end
           end
         else Returns st) fuel (Range.min range) st
  end.

Definition generateParameterCombinations (fuel : nat)
    (ranges : list (string * Range.t N)) : outcome (list (list (string * N))) :=
  match generateCombinations fuel ranges ([], []) with
  | Returns st => Returns (snd st)
  | Throws => Throws
  | OutOfFuel => OutOfFuel
  end.

(** [{ ...backtestParams, strategy: testStrategy }] *)
Definition withStrategy (backtestParams : BacktestConfig.t N)
    (strategy : IStrategy.t N) : BacktestParameters.t N :=
  {| BacktestParameters.strategy := strategy;
     BacktestParameters.startDate := BacktestConfig.startDate backtestParams;
     BacktestParameters.endDate := BacktestConfig.endDate backtestParams;
     BacktestParameters.initialCapital := BacktestConfig.initialCapital backtestParams;
     BacktestParameters.symbols := BacktestConfig.symbols backtestParams;
     BacktestParameters.commission := BacktestConfig.commission backtestParams;
     BacktestParameters.slippage := BacktestConfig.slippage backtestParams;
     BacktestParameters.maxPositions := BacktestConfig.maxPositions backtestParams |}.

(** [{ ...baseStrategy, parameters: [...baseStrategy.parameters, ...] }] *)
Definition testStrategyOf (baseStrategy : IStrategy.t N)
    (params : list (string * N)) : IStrategy.t N :=
  {| IStrategy.strategyId := IStrategy.strategyId baseStrategy;
     IStrategy.userId := IStrategy.userId baseStrategy;
     IStrategy.parameters :=
       (IStrategy.parameters baseStrategy
        ++ map (fun kv => {| IStrategyParameter.name := fst kv;
                             IStrategyParameter.type := TNumber;
                             IStrategyParameter.value := snd kv |}) params)%list |}.

(** [!bestMetrics || result.metrics.sharpeRatio > bestMetrics.sharpeRatio] *)
Definition isBetter (metrics : BacktestMetrics.t N)
    (bestMetrics : option (BacktestMetrics.t N)) : bool :=
  match bestMetrics with
  | None => true
  | Some best => BacktestMetrics.sharpeRatio metrics >? BacktestMetrics.sharpeRatio best
  end.

(** [for (const params of parameterCombinations)] *)
Fixpoint optimizeLoop (baseStrategy : IStrategy.t N)
    (backtestParams : BacktestConfig.t N)
    (parameterCombinations : list (list (string * N)))
    (acc : Optimization.t N) : M (outcome (Optimization.t N)) :=
  match parameterCombinations with
  | [] => ret (Returns acc)
  | params :: rest =>
      (* Create modified strategy with new parameters *)
      let testStrategy := testStrategyOf baseStrategy params in
      (* Run backtest *)
      r <- runBacktest (withStrategy backtestParams testStrategy) ;;
      match r with
      | Returns result =>
          let optimizationResults :=
            push (Optimization.optimizationResults acc)
              {| OptimizationEntry.parameters := params;
                 OptimizationEntry.metrics := BacktestResult.metrics result |} in
          (* Check if this is the best result (using Sharpe ratio as primary metric) *)
          let acc :=
            if isBetter (BacktestResult.metrics result) (Optimization.bestMetrics acc)
            then {| Optimization.bestStrategy := testStrategy;
                    Optimization.bestMetrics := Some (BacktestResult.metrics result);
                    Optimization.optimizationResults := optimizationResults |}
            else {| Optimization.bestStrategy := Optimization.bestStrategy acc;
                    Optimization.bestMetrics := Optimization.bestMetrics acc;
                    Optimization.optimizationResults := optimizationResults |} in
          optimizeLoop baseStrategy backtestParams rest acc
      | Throws => ret Throws
      | OutOfFuel => ret OutOfFuel
      end
  end.

Definition optimizeStrategy (fuel : nat) (baseStrategy : IStrategy.t N)
    (parameterRanges : list (string * Range.t N))
    (backtestParams : BacktestConfig.t N) : M (outcome (Optimization.t N)) :=
  (* Generate parameter combinations *)
  match generateParameterCombinations fuel parameterRanges with
  | Returns parameterCombinations =>
      optimizeLoop baseStrategy backtestParams parameterCombinations
        {| Optimization.bestStrategy := baseStrategy;
           Optimization.bestMetrics := None;
           Optimization.optimizationResults := [] |}
  | Throws => ret Throws
  | OutOfFuel => ret OutOfFuel
  end.

End BacktestingEngine.
End BacktestingEngine.

(* ================================================================== *)
(** * [src/app/api/backtest/optimize/route.ts] *)
(* ================================================================== *)

(** [z.enum(['sharpeRatio', 'totalReturn', 'profitFactor', 'calmarRatio'])] *)
Module OptimizationMetric.
Inductive t : Type := sharpeRatio | totalReturn | profitFactor | calmarRatio.
End OptimizationMetric.

(** The request body, in the shape [optimizeSchema] parses. *)
Module OptimizeRequest.
Record t (N : Type) : Type := mk {
  strategyId : string;
  startDate : Z;
  endDate : Z;
  initialCapital : N;
  symbols : list string;
  commission : option N;
  slippage : option N;
  maxPositions : option N;
  parameterRanges : list (string * Range.t N);
  optimizationMetric : option OptimizationMetric.t
}.
End OptimizeRequest.

(** [data] of the success response: the count, the metric, the best
    combination and the top of the ranking.  The response also rounds each
    figure for display ([toFixed]) and adds [improvement],
    [recommendations], [parameterSensitivity] and [timestamp]; these are
    computed after the ranking and are left out. *)
Module OptimizeData.
Record t (N : Type) : Type := mk {
  totalCombinationsTested : N;
  optimizationMetric : OptimizationMetric.t;
  bestParameters : list (IStrategyParameter.t N);
  bestMetrics : BacktestMetrics.t N;
  topResults : list (OptimizationEntry.t N)
}.
End OptimizeData.

(** [NextResponse.json({ success: false, error }, { status })] and
    [NextResponse.json({ success: true, data })]. *)
Inductive Response (N : Type) : Type :=
| Failure (status : Z) (error : string)
| Success (data : OptimizeData.t N).
Arguments Failure {N}.

Module OptimizeRoute.
Section OptimizeRoute.
Context {N : Type} `{JSNumber N} `{JSMath N}.
Local Open Scope string_scope.
Local Open Scope js_scope.
Import BacktestingEngine.

Variable random : nat -> N.

Local Notation "x <- c ;; f" := (bind c (fun x => f))
  (at level 61, c at next level, right associativity).

(** [a.metrics[optimizationMetric]] *)
Definition metricOf (optimizationMetric : OptimizationMetric.t)
    (metrics : BacktestMetrics.t N) : N :=
  match optimizationMetric with
  | OptimizationMetric.sharpeRatio => BacktestMetrics.sharpeRatio metrics
  | OptimizationMetric.totalReturn => BacktestMetrics.totalReturn metrics
  | OptimizationMetric.profitFactor => BacktestMetrics.profitFactor metrics
  | OptimizationMetric.calmarRatio => BacktestMetrics.calmarRatio metrics
  end.

(** The numeric constraints of [optimizeSchema]; an absent optional field
    passes. *)
Definition within (lo hi : N) (x : option N) : bool :=
  match x with
  | Some v => (lo <=? v) && (v <=? hi)
  | None => true
  end.

Definition isInteger (x : option N) : bool :=
  match x with
  | Some v => Math_floor v === v
  | None => true
  end.

Definition validRange (range : Range.t N) : bool :=
  negb (js_isNaN (Range.min range))
  && negb (js_isNaN (Range.max range))
  && (Range.step range >? int 0).

Definition optimizeSchema (body : OptimizeRequest.t N) : bool :=
  (OptimizeRequest.initialCapital body >? int 0)
  && (OptimizeRequest.initialCapital body <=? int 10000000)
  && (1 <=? List.length (OptimizeRequest.symbols body))%nat
  && (List.length (OptimizeRequest.symbols body) <=? 10)%nat
  && within (int 0) (int 100) (OptimizeRequest.commission body)
  && within (int 0) (int 5) (OptimizeRequest.slippage body)
  && isInteger (OptimizeRequest.maxPositions body)
  && within (int 1) (int 20) (OptimizeRequest.maxPositions body)
  && forallb (fun kv => validRange (snd kv)) (OptimizeRequest.parameterRanges body).

(** [Object.values(parameterRanges).reduce(...)] *)
Definition totalCombinations (parameterRanges : list (string * Range.t N)) : N :=
  fold_left
    (fun total kv =>
       let range := snd kv in
       let steps :=
         Math_floor ((Range.max range - Range.min range) / Range.step range)
         + int 1 in
       total * steps)
    parameterRanges (int 1).

(** [optimizationResults.sort((a, b) => bValue - aValue)] *)
Definition sortResults (optimizationMetric : OptimizationMetric.t)
    (optimizationResults : list (OptimizationEntry.t N))
  : list (OptimizationEntry.t N) :=
  sort
    (fun a b =>
       let aValue := metricOf optimizationMetric (OptimizationEntry.metrics a) in
       let bValue := metricOf optimizationMetric (OptimizationEntry.metrics b) in
       bValue - aValue)
    optimizationResults.

(** The third argument of [optimizeStrategy], with the defaults of the
    destructuring. *)
Definition backtestParamsOf (body : OptimizeRequest.t N) : BacktestConfig.t N :=
  let commission := or_default (OptimizeRequest.commission body) (int 5) in
  let slippage := or_default (OptimizeRequest.slippage body) (lit 0.1) in
  let maxPositions := or_default (OptimizeRequest.maxPositions body) (int 10) in
  {| BacktestConfig.startDate := OptimizeRequest.startDate body;
     BacktestConfig.endDate := OptimizeRequest.endDate body;
     BacktestConfig.initialCapital := OptimizeRequest.initialCapital body;
     BacktestConfig.symbols := OptimizeRequest.symbols body;
     BacktestConfig.commission := commission;
     BacktestConfig.slippage := slippage;
     BacktestConfig.maxPositions := maxPositions |}.

(** The handler after [optimizeStrategy] resolved or threw: the ranking and
    the response.  Whatever throws inside [try] ends in the 500 response;
    reading [bestMetrics.totalReturn] when [bestMetrics] is [null] does. *)
Definition respond (optimizationMetric : OptimizationMetric.t)
    (r : outcome (Optimization.t N)) : outcome (Response N) :=
  match r with
  | Returns optimizationResult =>
      (* Sort results by chosen metric *)
      let sortedResults :=
        sortResults optimizationMetric
          (Optimization.optimizationResults optimizationResult) in
      (* Take top 20 results for response *)
      let topResults := slice sortedResults 0 20 in
      match Optimization.bestMetrics optimizationResult with
      | None => Returns (Failure 500 "Failed to optimize strategy")
      | Some bestMetrics =>
          Returns (Success
            {| OptimizeData.totalCombinationsTested := len sortedResults;
               OptimizeData.optimizationMetric := optimizationMetric;
               OptimizeData.bestParameters :=
                 IStrategy.parameters (Optimization.bestStrategy optimizationResult);
               OptimizeData.bestMetrics := bestMetrics;
               OptimizeData.topResults := topResults |})
      end
  | Throws => Returns (Failure 500 "Failed to optimize strategy")
  | OutOfFuel => OutOfFuel
  end.

(** The handler, from the session and the strategy [Strategy.findById]
    found. *)
Definition POST (fuel : nat) (session : option string)
    (found : option (IStrategy.t N)) (body : OptimizeRequest.t N)
  : M (outcome (Response N)) :=
  match session with
  | None => ret (Returns (Failure 401 "Unauthorized"))
  | Some user =>
  if negb (optimizeSchema body) then ret (Returns (Failure 400 "Invalid request"))
  else
  let parameterRanges := OptimizeRequest.parameterRanges body in
  let optimizationMetric :=
    or_default (OptimizeRequest.optimizationMetric body)
      OptimizationMetric.sharpeRatio in
  match found with
  | None => ret (Returns (Failure 404 "Strategy not found"))
  | Some strategy =>
  if negb (String.eqb (IStrategy.userId strategy) user)
  then ret (Returns (Failure 403 "Access denied"))
  else
  (* Validate optimization parameters *)
  if totalCombinations parameterRanges >? int 100
  then ret (Returns (Failure 400
         "Too many parameter combinations. Maximum 100 combinations allowed."))
  else
  (* Validate date range *)
  let start := OptimizeRequest.startDate body in
  let end_ := OptimizeRequest.endDate body in
  if (start >=? end_)%Z
  then ret (Returns (Failure 400 "Start date must be before end date"))
  else
  let daysDifference := (int end_ - int start) / int (1000 * 60 * 60 * 24) in
  if daysDifference >? int 730
  then ret (Returns (Failure 400 "Maximum optimization period is 2 years"))
  else
  if daysDifference <? int 60
  then ret (Returns (Failure 400 "Minimum optimization period is 60 days"))
  else
  (* Run optimization *)
  r <- optimizeStrategy random fuel strategy parameterRanges (backtestParamsOf body) ;;
  ret (respond optimizationMetric r)
  end
  end.

End OptimizeRoute.
End OptimizeRoute.

(* ================================================================== *)
(** * [src/lib/backtesting-engine.ts]: the monthly returns and the
      performance statistics of a result *)
(* ================================================================== *)

(** An element of [BacktestResult['monthlyReturns']]. *)
Module MonthlyReturn.
Record t (N : Type) : Type := mk {
  month : string;
  return_ : N;
  returnPercent : N
}.
End MonthlyReturn.

(** [BacktestResult['performanceStats']] *)
Module PerformanceStats.
Record t (N : Type) : Type := mk {
  bestMonth : N;
  worstMonth : N;
  positiveMonths : N;
  negativeMonths : N;
  maxConsecutiveWins : N;
  maxConsecutiveLosses : N
}.
End PerformanceStats.

Module BacktestReports.
Section BacktestReports.
Context {N : Type} `{JSNumber N}.
Local Open Scope js_scope.

(** [`${point.date.getFullYear()}-${String(point.date.getMonth() + 1).padStart(2, '0')}`]:
    the year and the month of a date in the local time zone of the process,
    which the engine does not fix. *)
Variable monthKey : Z -> string.

(** [monthlyData], the entries in insertion order: [if (!monthlyData[monthKey])
    monthlyData[monthKey] = { start, end } else monthlyData[monthKey].end = ...]. *)
Fixpoint recordMonth (key : string) (equity : N)
    (monthlyData : list (string * (N * N))) : list (string * (N * N)) :=
  match monthlyData with
  | [] => [(key, (equity, equity))]
  | (k, (start, end_)) :: rest =>
      if String.eqb k key then (k, (start, equity)) :: rest
      else (k, (start, end_)) :: recordMonth key equity rest
  end.

Definition monthlyDataOf (equityCurve : list (EquityPoint.t N))
  : list (string * (N * N)) :=
  fold_left
    (fun monthlyData point =>
       recordMonth (monthKey (EquityPoint.date point)) (EquityPoint.equity point)
         monthlyData)
    equityCurve [].

Definition calculateMonthlyReturns (equityCurve : list (EquityPoint.t N))
  : list (MonthlyReturn.t N) :=
  map (fun entry =>
         let '(month, (start, end_)) := entry in
         let returnAmount := end_ - start in
         let returnPercent :=
           if start >? int 0 then (returnAmount / start) * int 100 else int 0 in
         {| MonthlyReturn.month := month;
            MonthlyReturn.return_ := returnAmount;
            MonthlyReturn.returnPercent := returnPercent |})
    (monthlyDataOf equityCurve).

(** The four counters of [calculatePerformanceStats]. *)
Record Streaks : Type := {
  maxConsecutiveWins : N;
  maxConsecutiveLosses : N;
  currentWinStreak : N;
  currentLossStreak : N
}.

(** The body of [for (const trade of trades)]. *)
Definition streakStep (st : Streaks) (trade : BacktestTrade.t N) : Streaks :=
  if BacktestTrade.profit trade >? int 0 then
    let currentWinStreak := currentWinStreak st + int 1 in
    {| maxConsecutiveWins := Math_max (maxConsecutiveWins st) currentWinStreak;
       maxConsecutiveLosses := maxConsecutiveLosses st;
       currentWinStreak := currentWinStreak;
       currentLossStreak := int 0 |}
  else if BacktestTrade.profit trade <? int 0 then
    let currentLossStreak := currentLossStreak st + int 1 in
    {| maxConsecutiveWins := maxConsecutiveWins st;
       maxConsecutiveLosses := Math_max (maxConsecutiveLosses st) currentLossStreak;
       currentWinStreak := int 0;
       currentLossStreak := currentLossStreak |}
  else st.

Definition calculatePerformanceStats (trades : list (BacktestTrade.t N))
    (monthlyReturns : list (MonthlyReturn.t N)) : PerformanceStats.t N :=
  let monthlyReturnPercentages :=
    map (fun m => MonthlyReturn.returnPercent m) monthlyReturns in
  let streaks :=
    fold_left streakStep trades
      {| maxConsecutiveWins := int 0; maxConsecutiveLosses := int 0;
         currentWinStreak := int 0; currentLossStreak := int 0 |} in
  {| PerformanceStats.bestMonth := Math_max_of (int 0 :: monthlyReturnPercentages);
     PerformanceStats.worstMonth := Math_min_of (int 0 :: monthlyReturnPercentages);
     PerformanceStats.positiveMonths :=
       len (filter (fun r => r >? int 0) monthlyReturnPercentages);
     PerformanceStats.negativeMonths :=
       len (filter (fun r => r <? int 0) monthlyReturnPercentages);
     PerformanceStats.maxConsecutiveWins := maxConsecutiveWins streaks;
     PerformanceStats.maxConsecutiveLosses := maxConsecutiveLosses streaks |}.

End BacktestReports.
End BacktestReports.

(* ================================================================== *)
(** * [src/lib/risk-management.ts]: the other methods of [RiskManager] *)
(* ================================================================== *)

Inductive PositionStatus : Type := OPEN | CLOSED.

(** [IPosition], the fields [RiskManager] reads. *)
Module IPosition.
Record t (N : Type) : Type := mk {
  symbol : string;
  quantity : N;
  avgCost : N;
  currentPrice : N;
  marketValue : N;
  status : option PositionStatus;
  unrealizedPnLPercent : option N
}.
End IPosition.

(** ['LOW' | 'MEDIUM' | 'HIGH' | 'CRITICAL'], the urgency of a stop-loss
    recommendation and the severity of a risk recommendation. *)
Module Urgency.
Inductive t : Type := LOW | MEDIUM | HIGH | CRITICAL.
End Urgency.

Module StopLossRecommendation.
Record t (N : Type) : Type := mk {
  symbol : string;
  currentPrice : N;
  suggestedStopLoss : N;
  stopLossPercent : N;
  riskAmount : N;
  reason : string;
  urgency : Urgency.t
}.
End StopLossRecommendation.

(** [record[key]] on a [Record<string, number>] given by its entries; a
    missing key reads [undefined]. *)
Fixpoint lookup {N : Type} (entries : list (string * N)) (key : string) : option N :=
  match entries with
  | [] => None
  | (k, v) :: rest => if String.eqb k key then Some v else lookup rest key
  end.

Module StopLoss.
Section StopLoss.
Context {N : Type} `{JSNumber N}.
Local Open Scope string_scope.
Local Open Scope js_scope.

(** [position.status === 'OPEN' && position.quantity > 0] *)
Definition isOpen (position : IPosition.t N) : bool :=
  match IPosition.status position with
  | Some OPEN => IPosition.quantity position >? int 0
  | _ => false
  end.

(** [{ 'CRITICAL': 4, 'HIGH': 3, 'MEDIUM': 2, 'LOW': 1 }] *)
Definition urgencyOrder (urgency : Urgency.t) : Z :=
  match urgency with
  | Urgency.CRITICAL => 4
  | Urgency.HIGH => 3
  | Urgency.MEDIUM => 2
  | Urgency.LOW => 1
  end.

(** [currentPrices[position.symbol] || position.currentPrice || position.avgCost] *)
Definition currentPriceOf (currentPrices : list (string * N))
    (position : IPosition.t N) : N :=
  let fallback :=
    if truthy (IPosition.currentPrice position)
    then IPosition.currentPrice position
    else IPosition.avgCost position in
  match lookup currentPrices (IPosition.symbol position) with
  | Some price => if truthy price then price else fallback
  | None => fallback
  end.

(** [marketVolatility[position.symbol] || 0.2] *)
Definition volatilityOf (marketVolatility : list (string * N))
    (position : IPosition.t N) : N :=
  match lookup marketVolatility (IPosition.symbol position) with
  | Some volatility => if truthy volatility then volatility else lit 0.2
  | None => lit 0.2
  end.

(** The stop-loss strategy chosen from the unrealized P&L percentage:
    [suggestedStopLoss], [reason] and [urgency] as the [if] chain assigns
    them. *)
Definition strategyFor (position : IPosition.t N) (currentPrice volatility : N)
  : N * string * Urgency.t :=
  let pnlPercent :=
    ((currentPrice - IPosition.avgCost position) / IPosition.avgCost position)
    * int 100 in
  if pnlPercent >? int 20 then
    (currentPrice * (int 1 - Math_max (lit 0.05) (volatility * lit 0.5)),
     "Trailing stop to protect profits", Urgency.LOW)
  else if pnlPercent >? int 0 then
    (IPosition.avgCost position * lit 1.01,
     "Breakeven stop to protect against losses", Urgency.MEDIUM)
  else if pnlPercent >? - int 5 then
    (IPosition.avgCost position * (int 1 - Math_min (lit 0.08) volatility),
     "Tight stop-loss to limit further losses", Urgency.MEDIUM)
  else if pnlPercent >? - int 15 then
    (currentPrice * (int 1 - lit 0.03),
     "Consider immediate exit - position showing significant loss", Urgency.HIGH)
  else
    (currentPrice * (int 1 - lit 0.01),
     "Urgent exit recommended - major loss protection", Urgency.CRITICAL).

(** The body of [.map(position => ...)]. *)
Definition recommend (currentPrices marketVolatility : list (string * N))
    (position : IPosition.t N) : StopLossRecommendation.t N :=
  let currentPrice := currentPriceOf currentPrices position in
  let volatility := volatilityOf marketVolatility position in
  let '(suggestedStopLoss, reason, urgency) :=
    strategyFor position currentPrice volatility in
  (* Ensure stop-loss is below current price for long positions *)
  let suggestedStopLoss := Math_min suggestedStopLoss (currentPrice * lit 0.99) in
  let stopLossPercent := ((currentPrice - suggestedStopLoss) / currentPrice) * int 100 in
  let riskAmount := IPosition.quantity position * (currentPrice - suggestedStopLoss) in
  {| StopLossRecommendation.symbol := IPosition.symbol position;
     StopLossRecommendation.currentPrice := currentPrice;
     StopLossRecommendation.suggestedStopLoss := suggestedStopLoss;
     StopLossRecommendation.stopLossPercent := stopLossPercent;
     StopLossRecommendation.riskAmount := riskAmount;
     StopLossRecommendation.reason := reason;
     StopLossRecommendation.urgency := urgency |}.

(** [marketVolatility] defaults to [{}], the empty list here. *)
Definition calculateStopLossRecommendations (positions : list (IPosition.t N))
    (currentPrices marketVolatility : list (string * N))
  : list (StopLossRecommendation.t N) :=
  sort
    (fun a b =>
       int (urgencyOrder (StopLossRecommendation.urgency b))
       - int (urgencyOrder (StopLossRecommendation.urgency a)))
    (map (recommend currentPrices marketVolatility) (filter isOpen positions)).

End StopLoss.
End StopLoss.

(** [Partial<IOrder>], the fields [validateOrderRisk] reads; a missing field
    is [None]. *)
Module OrderSide.
Inductive t : Type := BUY | SELL.
End OrderSide.

Module OrderType.
Inductive t : Type := MARKET | LIMIT | STOP | STOP_LIMIT.
End OrderType.

Module PartialOrder.
Record t (N : Type) : Type := mk {
  symbol : option string;
  side : option OrderSide.t;
  quantity : option N;
  price : option N;
  type : option OrderType.t
}.
End PartialOrder.

(** [IUser], as far as [user.tradingProfile?.riskTolerance]. *)
Module IUser.
Record t : Type := mk {
  riskTolerance : option RiskTolerance
}.
End IUser.

(** [{ isValid, warnings, errors }] *)
Module OrderValidation.
Record t : Type := mk {
  isValid : bool;
  warnings : list string;
  errors : list string
}.
End OrderValidation.

Module OrderRisk.
Section OrderRisk.
Context {N : Type} `{JSNumber N}.
Local Open Scope string_scope.
Local Open Scope js_scope.

(** [{ 'LOW': 15000, 'MEDIUM': 50000, 'HIGH': 100000 }] *)
Definition maxRiskByTolerance (t : RiskTolerance) : N :=
  match t with
  | LOW => int 15000
  | MEDIUM => int 50000
  | HIGH => int 100000
  end.

Definition toleranceName (t : RiskTolerance) : string :=
  match t with
  | LOW => "LOW"
  | MEDIUM => "MEDIUM"
  | HIGH => "HIGH"
  end.

(** [positions.find(p => p.symbol === order.symbol && p.status === 'OPEN')] *)
Definition existingPositionOf (positions : list (IPosition.t N)) (symbol : string)
  : option (IPosition.t N) :=
  find (fun p =>
          String.eqb (IPosition.symbol p) symbol
          && match IPosition.status p with Some OPEN => true | _ => false end)
    positions.

Definition isBuy (side : option OrderSide.t) : bool :=
  match side with Some OrderSide.BUY => true | _ => false end.

Definition isMarket (type : option OrderType.t) : bool :=
  match type with Some OrderType.MARKET => true | _ => false end.

(** [existingPosition.marketValue || 0] *)
Definition marketValueOf (p : IPosition.t N) : N :=
  if truthy (IPosition.marketValue p) then IPosition.marketValue p else int 0.

(** The limit printed in the messages: [this.defaultParameters.maxPositionSize],
    the constant [20.0], which prints as [20]. *)
Definition maxPositionSize : N := RiskParameters.maxPositionSize RiskManager.defaultParameters.

(** [validateOrderRisk] once the order has its symbol, quantity and price. *)
Definition validateComplete (side : option OrderSide.t) (type : option OrderType.t)
    (symbol : string) (quantity price : N)
    (positions : list (IPosition.t N)) (portfolioValue : N) (user : IUser.t)
  : OrderValidation.t :=
  let warnings : list string := [] in
  let errors : list string := [] in
  let orderValue := quantity * price in
  let positionSizePercent := (orderValue / portfolioValue) * int 100 in
  (* Check position size limits *)
  let errors :=
    if positionSizePercent >? maxPositionSize
    then push errors ("Position size (" ++ toFixed positionSizePercent 1
                      ++ "%) exceeds limit (" ++ "20" ++ "%)")
    else errors in
  (* Check existing position concentration *)
  let '(warnings, errors) :=
    match existingPositionOf positions symbol with
    | Some existingPosition =>
        if isBuy side then
          let totalValue := marketValueOf existingPosition + orderValue in
          let totalPercent := (totalValue / portfolioValue) * int 100 in
          if totalPercent >? maxPositionSize
          then (warnings,
                push errors ("Combined position size would exceed " ++ "20" ++ "% limit"))
          else if totalPercent >? maxPositionSize * lit 0.8
               then (push warnings
                       ("Combined position approaching size limit ("
                        ++ toFixed totalPercent 1 ++ "%)"),
                     errors)
               else (warnings, errors)
        else (warnings, errors)
    | None => (warnings, errors)
    end in
  (* Check portfolio risk based on user risk tolerance *)
  let userRiskTolerance := or_default (IUser.riskTolerance user) MEDIUM in
  let maxRisk := maxRiskByTolerance userRiskTolerance in
  let warnings :=
    if orderValue >? maxRisk
    then push warnings ("Order value exceeds risk tolerance for "
                        ++ toleranceName userRiskTolerance ++ " risk profile")
    else warnings in
  (* Check if stop-loss is set for significant positions *)
  let warnings :=
    if (orderValue >? portfolioValue * lit 0.05) && isBuy side && isMarket type
    then push warnings "Consider setting stop-loss for large market orders"
    else warnings in
  {| OrderValidation.isValid := match errors with [] => true | _ :: _ => false end;
     OrderValidation.warnings := warnings;
     OrderValidation.errors := errors |}.

(** A string or a number of the order that is there and truthy. *)
Definition present_string (s : option string) : option string :=
  match s with
  | Some EmptyString | None => None
  | Some v => Some v
  end.

Definition present (x : option N) : option N :=
  match x with
  | Some v => if truthy v then Some v else None
  | None => None
  end.

Definition validateOrderRisk (order : PartialOrder.t N)
    (positions : list (IPosition.t N)) (portfolioValue : N) (user : IUser.t)
  : OrderValidation.t :=
  match present_string (PartialOrder.symbol order),
        present (PartialOrder.quantity order),
        present (PartialOrder.price order) with
  | Some symbol, Some quantity, Some price =>
      validateComplete (PartialOrder.side order) (PartialOrder.type order)
        symbol quantity price positions portfolioValue user
  | _, _, _ =>
      (* !order.symbol || !order.quantity || !order.price *)
      {| OrderValidation.isValid := false;
         OrderValidation.warnings := [];
         OrderValidation.errors := ["Missing required order details"] |}
  end.

End OrderRisk.
End OrderRisk.

(** [ITrade], the fields [RiskManager] reads: [executedAt] and
    [performance?.profit], [None] when [performance] or [profit] is missing. *)
Module ITrade.
Record t (N : Type) : Type := mk {
  executedAt : Z;
  profit : option N
}.
End ITrade.

Module PortfolioRisk.
Section PortfolioRisk.
Context {N : Type} `{JSNumber N}.
Local Open Scope js_scope.

(** [trade.performance?.profit || 0] *)
Definition profitOf (trade : ITrade.t N) : N :=
  match ITrade.profit trade with
  | Some profit => if truthy profit then profit else int 0
  | None => int 0
  end.

(** The [let] variables of [calculateMaxDrawdown]. *)
Record Drawdown : Type := {
  maxDrawdown : N;
  peak : N;
  runningTotal : N
}.

(** The body of [trades.forEach(trade => ...)]. *)
Definition drawdownStep (st : Drawdown) (trade : ITrade.t N) : Drawdown :=
  let runningTotal := runningTotal st + profitOf trade in
  let peak := if runningTotal >? peak st then runningTotal else peak st in
  let drawdown := (peak - runningTotal) / peak * int 100 in
  let maxDrawdown := if drawdown >? maxDrawdown st then drawdown else maxDrawdown st in
  {| maxDrawdown := maxDrawdown; peak := peak; runningTotal := runningTotal |}.

Definition calculateMaxDrawdown (trades : list (ITrade.t N)) : N :=
  maxDrawdown
    (fold_left drawdownStep trades
       {| maxDrawdown := int 0; peak := int 0; runningTotal := int 0 |}).

End PortfolioRisk.
End PortfolioRisk.

(* ================================================================== *)
(** * Properties *)
(* ================================================================== *)

(** ** Lists, sorting and grouping (any number instance) *)

Section ListFacts.
Context {N : Type} `{JSNumber N}.
Local Open Scope js_scope.

Lemma push_length {A : Type} (xs : list A) (x : A) :
  List.length (push xs x) = S (List.length xs).
Proof. unfold push. rewrite length_app. simpl. lia. Qed.

Lemma In_push {A : Type} (xs : list A) (x y : A) :
  In y (push xs x) <-> In y xs \/ y = x.
Proof.
  unfold push. rewrite in_app_iff. simpl. intuition congruence.
Qed.

Lemma sort_insert_length {A : Type} (cmp : A -> A -> N) (x : A) (l : list A) :
  List.length (sort_insert cmp x l) = S (List.length l).
Proof.
  induction l as [|y l IH]; simpl; [reflexivity|].
  destruct (cmp y x >? int 0); simpl; congruence.
Qed.

Lemma sort_insert_perm {A : Type} (cmp : A -> A -> N) (x : A) (l : list A) :
  Permutation (sort_insert cmp x l) (x :: l).
Proof.
  induction l as [|y l IH]; simpl; [reflexivity|].
  destruct (cmp y x >? int 0); [reflexivity|].
  rewrite IH. apply perm_swap.
Qed.

Lemma sort_fold_perm {A : Type} (cmp : A -> A -> N) (xs acc : list A) :
  Permutation (fold_left (fun sorted x => sort_insert cmp x sorted) xs acc)
              (xs ++ acc).
Proof.
  revert acc. induction xs as [|x xs IH]; intro acc; simpl; [reflexivity|].
  rewrite IH, sort_insert_perm. symmetry. apply Permutation_middle.
Qed.

Lemma sort_perm {A : Type} (cmp : A -> A -> N) (xs : list A) :
  Permutation (sort cmp xs) xs.
Proof. unfold sort. rewrite sort_fold_perm, app_nil_r. reflexivity. Qed.

Lemma sort_length {A : Type} (cmp : A -> A -> N) (xs : list A) :
  List.length (sort cmp xs) = List.length xs.
Proof. apply Permutation_length, sort_perm. Qed.

Lemma sort_In {A : Type} (cmp : A -> A -> N) (xs : list A) (x : A) :
  In x (sort cmp xs) <-> In x xs.
Proof.
  split; apply Permutation_in; [ | symmetry ]; apply sort_perm.
Qed.

End ListFacts.

(** ** The simulation loop (any number instance) *)

Section EngineFacts.
Context {N : Type} `{JSNumber N}.
Local Open Scope js_scope.
Import BacktestingEngine.

Lemma sort_insert_not_nil {A : Type} (cmp : A -> A -> N) (x : A) (l : list A) :
  sort_insert cmp x l <> [].
Proof.
  intro E. apply (f_equal (@List.length A)) in E.
  rewrite sort_insert_length in E. discriminate.
Qed.

Lemma hd_error_sort {A : Type} (cmp : A -> A -> N) (xs : list A) :
  xs <> [] -> exists x, hd_error (sort cmp xs) = Some x /\ In x xs.
Proof.
  intro Hne.
  destruct (sort cmp xs) as [|x l] eqn:E.
  - apply (f_equal (@List.length A)) in E. rewrite sort_length in E.
    destruct xs; [congruence | discriminate].
  - exists x. split; [reflexivity|].
    apply (sort_In cmp). rewrite E. left. reflexivity.
Qed.

(** *** Grouping keeps the bars it was given *)

Lemma group_push_In (key : Z) (item d : BacktestData.t N)
    (acc : list (Z * list (BacktestData.t N))) (k : Z) (items : list (BacktestData.t N)) :
  In (k, items) (group_push key item acc) -> In d items ->
  d = item \/ exists items', In (k, items') acc /\ In d items'.
Proof.
  induction acc as [|[k0 items0] acc IH]; simpl; intros HIn Hd.
  - destruct HIn as [E|[]]. inversion E; subst. destruct Hd as [E'|[]]. auto.
  - destruct (k0 =? key)%Z.
    + destruct HIn as [E|HIn].
      * inversion E; subst. apply In_push in Hd. destruct Hd as [Hd|Hd]; eauto.
      * right. eauto.
    + destruct HIn as [E|HIn].
      * inversion E; subst. right. eauto.
      * destruct (IH HIn Hd) as [E|(items' & Hi & Hd')]; [auto|]. right. eauto.
Qed.

Lemma groupDataByDate_In (data : list (BacktestData.t N)) (k : Z)
    (items : list (BacktestData.t N)) (d : BacktestData.t N) :
  In (k, items) (groupDataByDate data) -> In d items -> In d data.
Proof.
  unfold groupDataByDate.
  assert (G : forall (acc : list (Z * list (BacktestData.t N))) k items d,
             In (k, items)
                (fold_left (fun acc item =>
                              group_push (dateKey (BacktestData.timestamp item)) item acc)
                   data acc) ->
             In d items ->
             In d data \/ exists items', In (k, items') acc /\ In d items').
  { induction data as [|item data IH]; simpl; intros acc k0 items0 d0 HIn Hd.
    - right. eauto.
    - destruct (IH _ _ _ _ HIn Hd) as [Hdata|(items' & Hi & Hd')]; [auto|].
      eapply group_push_In in Hi; [|exact Hd'].
      destruct Hi as [E|Hacc]; subst; auto. }
  intros HIn Hd. destruct (G [] k items d HIn Hd) as [Hdata|(items' & [] & _)].
  exact Hdata.
Qed.

Lemma lookup_date_In (data : list (BacktestData.t N)) (key : Z) (d : BacktestData.t N) :
  In d (lookup_date (groupDataByDate data) key) -> In d data.
Proof.
  unfold lookup_date.
  destruct (find _ _) as [[k items]|] eqn:E; simpl; [|intros []].
  apply find_some in E. destruct E as [E _].
  intro Hd. eapply groupDataByDate_In; eauto.
Qed.

(** *** Every open position trades a symbol of the data *)

Definition knownSymbol (historicalData : list (BacktestData.t N))
    (pos : BacktestPosition.t N) : Prop :=
  exists d, In d historicalData
            /\ BacktestData.symbol d = BacktestPosition.symbol pos.

Lemma executeEntry_symbol signal (data : BacktestData.t N) availableCapital parameters pos :
  executeEntry signal data availableCapital parameters = Some pos ->
  BacktestPosition.symbol pos = BacktestData.symbol data.
Proof.
  unfold executeEntry.
  destruct (_ <? int 1000); [discriminate|].
  destruct (_ >? availableCapital); [discriminate|].
  intro E. inversion E. reflexivity.
Qed.

Lemma signalStep_known parameters historicalData date st (symbolData : BacktestData.t N) :
  In symbolData historicalData ->
  Forall (knownSymbol historicalData) (snd st) ->
  Forall (knownSymbol historicalData)
    (snd (signalStep parameters historicalData date st symbolData)).
Proof.
  intros Hin Hall. destruct st as [capital positions]. unfold signalStep.
  destruct (_ && _); [|exact Hall].
  destruct (executeEntry _ _ _ _) as [pos|] eqn:E; [|exact Hall].
  simpl in *. unfold push. apply Forall_app. split; [exact Hall|].
  constructor; [|constructor].
  exists symbolData. split; [exact Hin|]. symmetry. eapply executeEntry_symbol; eauto.
Qed.

Lemma signalSteps_known parameters historicalData date (dayData : list (BacktestData.t N)) st :
  (forall d, In d dayData -> In d historicalData) ->
  Forall (knownSymbol historicalData) (snd st) ->
  Forall (knownSymbol historicalData)
    (snd (fold_left (signalStep parameters historicalData date) dayData st)).
Proof.
  revert st. induction dayData as [|d dayData IH]; intros st Hsub Hall; simpl.
  - exact Hall.
  - apply IH.
    + intros d' Hd'. apply Hsub. right. exact Hd'.
    + apply signalStep_known; [apply Hsub; left; reflexivity | exact Hall].
Qed.

Lemma processPosition_remaining dayData parameters acc (position : BacktestPosition.t N) p :
  In p (remainingPositions (processPosition dayData parameters acc position)) ->
  In p (remainingPositions acc) \/ p = position.
Proof.
  unfold processPosition.
  destruct (find_symbol _ _) as [symbolData|]; simpl.
  - destruct (exitDecision _ _) as [[reason price]|]; simpl.
    + auto.
    + apply In_push.
  - apply In_push.
Qed.

Lemma processExistingPositions_remaining (positions : list (BacktestPosition.t N))
    dayData parameters p :
  In p (remainingPositions (processExistingPositions positions dayData parameters)) ->
  In p positions.
Proof.
  unfold processExistingPositions.
  assert (G : forall acc,
             In p (remainingPositions
                     (fold_left (processPosition dayData parameters) positions acc)) ->
             In p (remainingPositions acc) \/ In p positions).
  { induction positions as [|q positions IH]; simpl; intros acc Hp; [auto|].
    destruct (IH _ Hp) as [Hacc|Hin]; [|auto].
    apply processPosition_remaining in Hacc. destruct Hacc; subst; auto. }
  intro Hp. destruct (G _ Hp) as [[]|Hin]. exact Hin.
Qed.

Lemma dayStep_known parameters (historicalData : list (BacktestData.t N)) st dateStr :
  Forall (knownSymbol historicalData) (positions st) ->
  Forall (knownSymbol historicalData)
    (positions (dayStep parameters historicalData (groupDataByDate historicalData)
                  st dateStr)).
Proof.
  intro Hall. unfold dayStep.
  set (dayData := lookup_date (groupDataByDate historicalData) dateStr).
  set (processed := processExistingPositions (positions st) dayData parameters).
  pose proof (@signalSteps_known parameters historicalData (Date_of_key dateStr)
                dayData
                (currentCapital st + capitalFromClosedTrades processed,
                 remainingPositions processed)) as K.
  destruct (fold_left _ dayData _) as [capital positions'] eqn:E. simpl in *.
  apply K.
  - intros d Hd. eapply lookup_date_In. exact Hd.
  - apply Forall_forall. intros p Hp.
    apply processExistingPositions_remaining in Hp.
    revert p Hp. apply Forall_forall. exact Hall.
Qed.

Lemma simulate_known parameters (historicalData : list (BacktestData.t N)) :
  Forall (knownSymbol historicalData) (positions (simulate parameters historicalData)).
Proof.
  unfold simulate.
  generalize (sort_keys (map fst (groupDataByDate historicalData))) as dates.
  assert (G : forall dates st,
             Forall (knownSymbol historicalData) (positions st) ->
             Forall (knownSymbol historicalData)
               (positions (fold_left
                             (dayStep parameters historicalData
                                (groupDataByDate historicalData)) dates st))).
  { induction dates as [|k dates IH]; intros st Hst; simpl; [exact Hst|].
    apply IH. apply dayStep_known. exact Hst. }
  intro dates. apply G. constructor.
Qed.

(** *** The final close never fails *)

Lemma finalDataOf_known (historicalData : list (BacktestData.t N)) pos :
  knownSymbol historicalData pos ->
  exists finalData,
    finalDataOf historicalData pos = Some finalData
    /\ In finalData historicalData
    /\ BacktestData.symbol finalData = BacktestPosition.symbol pos.
Proof.
  intros (d & Hd & Hs). unfold finalDataOf.
  destruct (hd_error_sort
              (fun a b => int (BacktestData.timestamp b) - int (BacktestData.timestamp a))
              (xs := filter (fun d => String.eqb (BacktestData.symbol d)
                                        (BacktestPosition.symbol pos)) historicalData))
    as (x & Hx & Hin).
  - intro E. assert (Hf : In d (filter (fun d => String.eqb (BacktestData.symbol d)
                                        (BacktestPosition.symbol pos)) historicalData)).
    { apply filter_In. split; [exact Hd|]. apply String.eqb_eq. exact Hs. }
    rewrite E in Hf. destruct Hf.
  - exists x. split; [exact Hx|]. apply filter_In in Hin.
    destruct Hin as [Hin He]. split; [exact Hin|]. apply String.eqb_eq. exact He.
Qed.

(** The trade that closes [pos] at the end of the period. *)
Definition forceClose (parameters : BacktestParameters.t N)
    (historicalData : list (BacktestData.t N)) (pos : BacktestPosition.t N)
    (trade : BacktestTrade.t N) : Prop :=
  exists finalData,
    finalDataOf historicalData pos = Some finalData
    /\ trade = closePosition pos (BacktestData.close finalData)
                 (BacktestParameters.endDate parameters) END_OF_PERIOD parameters.

Lemma closeRemaining_returns parameters (historicalData : list (BacktestData.t N))
    positions :
  Forall (knownSymbol historicalData) positions ->
  exists closed,
    closeRemaining parameters historicalData positions = Returns closed
    /\ Forall2 (forceClose parameters historicalData) positions closed.
Proof.
  induction 1 as [|pos positions Hpos Hall IH]; simpl.
  - exists []. split; [reflexivity|constructor].
  - destruct (finalDataOf_known Hpos) as (fd & Hfd & _).
    destruct IH as (closed & Hc & Hf2).
    rewrite Hfd, Hc. eexists. split; [reflexivity|].
    constructor; [|exact Hf2]. exists fd. split; [exact Hfd|reflexivity].
Qed.

End EngineFacts.

(** ** What a run returns (any number instance) *)

Section RunFacts.
Context {N : Type} `{JSNumber N} `{JSMath N}.
Local Open Scope js_scope.
Import BacktestingEngine.

(** A point whose drawdown is measured from the initial capital. *)
Definition fromInitialCapital (parameters : BacktestParameters.t N)
    (pt : EquityPoint.t N) : Prop :=
  EquityPoint.drawdown pt
  = Math_max (int 0) (BacktestParameters.initialCapital parameters - EquityPoint.equity pt)
  /\ EquityPoint.drawdownPercent pt
     = (EquityPoint.drawdown pt / BacktestParameters.initialCapital parameters) * int 100.

Lemma equityPoint_fromInitialCapital parameters date currentCapital positions dayData :
  fromInitialCapital parameters
    (equityPoint parameters date currentCapital positions dayData).
Proof. split; reflexivity. Qed.

Lemma dayStep_equityCurve parameters historicalData dataByDate st dateStr :
  exists pt,
    equityCurve (dayStep parameters historicalData dataByDate st dateStr)
    = push (equityCurve st) pt
    /\ fromInitialCapital parameters pt.
Proof.
  unfold dayStep. destruct (fold_left _ _ _) as [capital positions']. simpl.
  eexists. split; [reflexivity|]. apply equityPoint_fromInitialCapital.
Qed.

Lemma simulate_equityCurve parameters historicalData :
  Forall (fromInitialCapital parameters)
    (equityCurve (simulate parameters historicalData)).
Proof.
  unfold simulate.
  generalize (sort_keys (map fst (groupDataByDate historicalData))) as dates.
  assert (G : forall dates st,
             Forall (fromInitialCapital parameters) (equityCurve st) ->
             Forall (fromInitialCapital parameters)
               (equityCurve (fold_left
                               (dayStep parameters historicalData
                                  (groupDataByDate historicalData)) dates st))).
  { induction dates as [|k dates IH]; intros st Hst; simpl; [exact Hst|].
    apply IH.
    destruct (dayStep_equityCurve parameters historicalData
                (groupDataByDate historicalData) st k) as (pt & E & Hpt).
    rewrite E. unfold push. apply Forall_app. split; [exact Hst|].
    constructor; [exact Hpt|constructor]. }
  intro dates. apply G. constructor.
Qed.

(** [runBacktest] is the data generation followed by [runBacktestOn]. *)
Lemma runBacktest_unfold (random : nat -> N) parameters k :
  runBacktest random parameters k
  = (runBacktestOn parameters
       (fst (generateHistoricalData random
               (BacktestParameters.symbols parameters)
               (BacktestParameters.startDate parameters)
               (BacktestParameters.endDate parameters) k)),
     snd (generateHistoricalData random
            (BacktestParameters.symbols parameters)
            (BacktestParameters.startDate parameters)
            (BacktestParameters.endDate parameters) k)).
Proof.
  unfold runBacktest, bind, ret.
  destruct (generateHistoricalData _ _ _ _ _). reflexivity.
Qed.

(** A run always returns: the trades of the loop followed by the forced
    closes of the positions still open, and the equity curve of the loop. *)
Lemma runBacktestOn_returns parameters historicalData :
  exists closed,
    Forall2 (forceClose parameters historicalData)
      (positions (simulate parameters historicalData)) closed
    /\ runBacktestOn parameters historicalData
       = Returns
           {| BacktestResult.strategy := BacktestParameters.strategy parameters;
              BacktestResult.parameters := parameters;
              BacktestResult.metrics :=
                calculateMetrics
                  (trades (simulate parameters historicalData) ++ closed)
                  (equityCurve (simulate parameters historicalData)) parameters;
              BacktestResult.trades :=
                trades (simulate parameters historicalData) ++ closed;
              BacktestResult.equityCurve :=
                equityCurve (simulate parameters historicalData) |}.
Proof.
  destruct (closeRemaining_returns parameters (simulate_known parameters historicalData))
    as (closed & Hc & Hf2).
  exists closed. split; [exact Hf2|].
  unfold runBacktestOn. rewrite Hc. reflexivity.
Qed.

Lemma runBacktest_returns (random : nat -> N) parameters k :
  exists result, fst (runBacktest random parameters k) = Returns result.
Proof.
  rewrite runBacktest_unfold. simpl.
  destruct (runBacktestOn_returns parameters
              (fst (generateHistoricalData random
                      (BacktestParameters.symbols parameters)
                      (BacktestParameters.startDate parameters)
                      (BacktestParameters.endDate parameters) k)))
    as (closed & _ & E).
  rewrite E. eauto.
Qed.

(** The curve and the trades of a run are those of the loop. *)
Lemma runBacktest_equityCurve (random : nat -> N) parameters k :
  exists result,
    fst (runBacktest random parameters k) = Returns result
    /\ BacktestResult.equityCurve result
       = equityCurve
           (simulate parameters
              (fst (generateHistoricalData random
                      (BacktestParameters.symbols parameters)
                      (BacktestParameters.startDate parameters)
                      (BacktestParameters.endDate parameters) k))).
Proof.
  rewrite runBacktest_unfold. cbn [fst].
  destruct (runBacktestOn_returns parameters
              (fst (generateHistoricalData random
                      (BacktestParameters.symbols parameters)
                      (BacktestParameters.startDate parameters)
                      (BacktestParameters.endDate parameters) k)))
    as (closed & _ & E).
  rewrite E. eexists. split; reflexivity.
Qed.

End RunFacts.

(** ** Facts about binary64 *)

Section Binary64Facts.
Import Binary64.
Local Open Scope js_scope.

(** A zero, of either sign, is not greater than zero. *)
Lemma float_zero_not_positive (v : float) :
  (v === int 0) = true -> (v >? int 0) = false.
Proof.
  change ((v =? 0)%float = true -> (0 <? v)%float = false).
  rewrite FloatAxioms.eqb_spec, ltb_spec.
  change (Prim2SF 0) with (S754_zero false).
  destruct (Prim2SF v) as [s|s| |s m e]; try destruct s; cbn; congruence.
Qed.

(** An array of fewer than 20 elements has a [length] below 20. *)
Lemma float_len_lt_20 {A : Type} (l : list A) :
  (List.length l < 20)%nat -> (len l <? (int 20 : float)) = true.
Proof.
  intro Hlen.
  do 20 (destruct l as [|? l]; [vm_compute; reflexivity|]).
  simpl in Hlen. lia.
Qed.

End Binary64Facts.

(** ** Metrics, field by field (any number instance) *)

Section MetricsFacts.
Context {N : Type} `{JSNumber N} `{JSMath N}.
Local Open Scope js_scope.
Import BacktestingEngine.

Lemma rev_not_nil {A : Type} (l : list A) : l <> [] -> rev l <> [].
Proof.
  intros Hne E. apply (f_equal (@rev A)) in E. rewrite rev_involutive in E.
  simpl in E. contradiction.
Qed.

Lemma calculateMetrics_empty equityCurve parameters :
  calculateMetrics [] equityCurve parameters = getEmptyMetrics.
Proof. reflexivity. Qed.

Lemma calculateMetrics_sharpeRatio t trades equityCurve parameters :
  equityCurve <> [] ->
  BacktestMetrics.sharpeRatio (calculateMetrics (t :: trades) equityCurve parameters)
  = let dailyReturns := dailyReturnsOf equityCurve in
    let volatility := calculateVolatility dailyReturns in
    if volatility >? int 0
    then (excessReturnOf dailyReturns / volatility) * Math_sqrt (int 365)
    else int 0.
Proof.
  intro Hne. unfold calculateMetrics.
  destruct (rev equityCurve) eqn:E; [apply rev_not_nil in Hne; contradiction|].
  reflexivity.
Qed.

Lemma calculateMetrics_sortinoRatio t trades equityCurve parameters :
  equityCurve <> [] ->
  BacktestMetrics.sortinoRatio (calculateMetrics (t :: trades) equityCurve parameters)
  = let dailyReturns := dailyReturnsOf equityCurve in
    let downsideReturns := filter (fun r => r <? int 0) dailyReturns in
    let downsideVolatility :=
      if len downsideReturns >? int 0
      then calculateVolatility downsideReturns
      else int 0 in
    if downsideVolatility >? int 0
    then (excessReturnOf dailyReturns / downsideVolatility) * Math_sqrt (int 365)
    else int 0.
Proof.
  intro Hne. unfold calculateMetrics.
  destruct (rev equityCurve) eqn:E; [apply rev_not_nil in Hne; contradiction|].
  reflexivity.
Qed.

Lemma calculateMetrics_calmarRatio t trades equityCurve parameters :
  equityCurve <> [] ->
  let metrics := calculateMetrics (t :: trades) equityCurve parameters in
  BacktestMetrics.calmarRatio metrics
  = if BacktestMetrics.maxDrawdownPercent metrics >? int 0
    then BacktestMetrics.annualizedReturn metrics
         / BacktestMetrics.maxDrawdownPercent metrics
    else int 0.
Proof.
  intro Hne. unfold calculateMetrics.
  destruct (rev equityCurve) eqn:E; [apply rev_not_nil in Hne; contradiction|].
  reflexivity.
Qed.

Lemma calculateMetrics_totalReturn t trades equityCurve parameters pt :
  hd_error (rev equityCurve) = Some pt ->
  BacktestMetrics.totalReturn (calculateMetrics (t :: trades) equityCurve parameters)
  = EquityPoint.equity pt - BacktestParameters.initialCapital parameters.
Proof.
  intro Hpt. unfold calculateMetrics.
  destruct (rev equityCurve) eqn:E; [discriminate|].
  simpl in Hpt. inversion Hpt. reflexivity.
Qed.

End MetricsFacts.

(* ================================================================== *)
(** * The sizing scenario (C9) *)
(* ================================================================== *)

Section SizingScenario.
Import Binary64 RiskManager.
Local Open Scope js_scope.

(** [entryPrice = 100], [stopLossPrice = 95], [portfolioValue = 100000],
    [riskPerTrade = 2], tolerance [MEDIUM], volatility and correlation left
    to their defaults. *)
Definition scenarioInput (symbol : string) : PositionSizingInput.t float :=
  {| PositionSizingInput.symbol := symbol;
     PositionSizingInput.entryPrice := int 100;
     PositionSizingInput.stopLossPrice := int 95;
     PositionSizingInput.portfolioValue := int 100000;
     PositionSizingInput.riskPerTrade := int 2;
     PositionSizingInput.userRiskTolerance := MEDIUM;
     PositionSizingInput.volatility := None;
     PositionSizingInput.correlation := None |}.

(** C9.  On binary64, for entry 100, stop 95, portfolio 100000, risk 2% and
    tolerance MEDIUM under the default volatility, [calculatePositionSize]
    computes a risk amount of exactly 2000 and a base share count of exactly
    400; the volatility factor 1.5 then gives 600 shares worth 60000, 60% of
    the portfolio, which the position cap cuts to 200 shares, and the result
    returned is the one these adjustments give: 200 shares worth 20000, 1000
    at risk (1% of the portfolio), 20% position size, 5% stop distance, the
    position-size warning and its adjustment. *)
Theorem calculatePositionSize_scenario (symbol : string) :
  riskAmount (scenarioInput symbol) = 2000%float
  /\ baseShares (scenarioInput symbol) = 400%float
  /\ volatilityAdjustment (scenarioInput symbol) = 1.5%float
  /\ adjustedShares (scenarioInput symbol) = 600%float
  /\ positionSizePercent (scenarioInput symbol) = 60%float
  /\ cappedShares (scenarioInput symbol) = 200%float
  /\ calculatePositionSize (scenarioInput symbol)
     = {| PositionSizingResult.recommendedShares := 200%float;
          PositionSizingResult.recommendedValue := 20000%float;
          PositionSizingResult.riskAmount := 1000%float;
          PositionSizingResult.riskPercent := 1%float;
          PositionSizingResult.positionSizePercent := 20%float;
          PositionSizingResult.stopLossDistance := 5%float;
          PositionSizingResult.warnings := ["Position size reduced to 20% limit"%string];
          PositionSizingResult.adjustments :=
            ["Consider reducing position size or increasing stop-loss distance"%string] |}.
Proof.
  repeat split; vm_compute; reflexivity.
Qed.

End SizingScenario.

(* ================================================================== *)
(** * Too little history (C7) *)
(* ================================================================== *)

Section InsufficientData.
Import Binary64 BacktestingEngine.
Local Open Scope js_scope.

(** C7.  With fewer than 20 bars of history, [generateTradingSignal] returns
    the [HOLD] signal of strength 0 at the current close and timestamp, with
    the reasoning "Insufficient historical data".  (It is a total function:
    there is no error to raise.) *)
Theorem generateTradingSignal_insufficient_data
    (currentData : BacktestData.t float) (strategy : IStrategy.t float)
    (historicalData : list (BacktestData.t float)) :
  (List.length historicalData < 20)%nat ->
  generateTradingSignal currentData strategy historicalData
  = {| TradingSignal.type := HOLD;
       TradingSignal.strength := 0%float;
       TradingSignal.price := BacktestData.close currentData;
       TradingSignal.timestamp := BacktestData.timestamp currentData;
       TradingSignal.reasoning := "Insufficient historical data" |}.
Proof.
  intro Hlen. unfold generateTradingSignal.
  rewrite (float_len_lt_20 historicalData Hlen). reflexivity.
Qed.

Definition sampleBar (time : Z) (close : float) : BacktestData.t float :=
  {| BacktestData.timestamp := time;
     BacktestData.symbol := "AAPL";
     BacktestData.open := close;
     BacktestData.high := close;
     BacktestData.low := close;
     BacktestData.close := close;
     BacktestData.volume := int 1000000 |}.

Definition sampleStrategy : IStrategy.t float :=
  {| IStrategy.strategyId := "strategy-1";
     IStrategy.userId := "user-1";
     IStrategy.parameters := [] |}.

Lemma generateTradingSignal_insufficient_data_witness :
  TradingSignal.type
    (generateTradingSignal (sampleBar 172800000 (int 102)) sampleStrategy
       [sampleBar 0 (int 100); sampleBar 86400000 (int 101);
        sampleBar 172800000 (int 102)])
  = HOLD.
Proof.
  rewrite (@generateTradingSignal_insufficient_data
             (sampleBar 172800000 (int 102)) sampleStrategy
             [sampleBar 0 (int 100); sampleBar 86400000 (int 101);
              sampleBar 172800000 (int 102)]).
  - reflexivity.
  - simpl. lia.
Defined.

End InsufficientData.

(* ================================================================== *)
(** * Marking to market without a quote (C10) *)
(* ================================================================== *)

Section MarkToMarket.
Context {N : Type} `{JSNumber N}.
Local Open Scope js_scope.
Import BacktestingEngine.

(** The day has no usable quote for the position: no bar of its symbol, or a
    bar whose close is 0. *)
Definition noQuote (dayData : list (BacktestData.t N)) (pos : BacktestPosition.t N)
  : Prop :=
  find_symbol dayData (BacktestPosition.symbol pos) = None
  \/ exists d, find_symbol dayData (BacktestPosition.symbol pos) = Some d
               /\ (BacktestData.close d === int 0) = true.

Lemma positionValueOf_app (before after : list (BacktestPosition.t N)) dayData :
  positionValueOf (before ++ after) dayData
  = fold_left
      (fun sum p => sum + (BacktestPosition.quantity p * currentPriceOf dayData p))
      after (positionValueOf before dayData).
Proof. unfold positionValueOf. apply fold_left_app. Qed.

(** C10.  In the daily equity computation, for any number instance: an open
    position with no bar of its symbol that day, or with a bar whose close
    is 0, is priced at its entry price, and the day's equity is the cash plus
    the position values summed in order, in which this position counts for
    [quantity * entryPrice]. *)
Theorem missing_quote_marked_at_entry
    (parameters : BacktestParameters.t N) (date : Z) (currentCapital : N)
    (dayData : list (BacktestData.t N))
    (before after : list (BacktestPosition.t N)) (pos : BacktestPosition.t N) :
  noQuote dayData pos ->
  currentPriceOf dayData pos = BacktestPosition.entryPrice pos
  /\ EquityPoint.equity
       (equityPoint parameters date currentCapital (before ++ pos :: after) dayData)
     = currentCapital
       + fold_left
           (fun sum p => sum + (BacktestPosition.quantity p * currentPriceOf dayData p))
           after
           (positionValueOf before dayData
            + (BacktestPosition.quantity pos * BacktestPosition.entryPrice pos)).
Proof.
  intro Hq.
  assert (E : currentPriceOf dayData pos = BacktestPosition.entryPrice pos).
  { unfold currentPriceOf.
    destruct Hq as [Hnone|(d & Hd & Hzero)].
    - rewrite Hnone. reflexivity.
    - rewrite Hd. unfold truthy. rewrite Hzero. reflexivity. }
  split; [exact E|].
  unfold equityPoint. cbn [EquityPoint.equity].
  rewrite positionValueOf_app. simpl. rewrite E. reflexivity.
Qed.

End MarkToMarket.

Section MarkToMarketWitness.
Import Binary64 BacktestingEngine.
Local Open Scope js_scope.

Definition samplePosition : BacktestPosition.t float :=
  {| BacktestPosition.symbol := "AAPL";
     BacktestPosition.side := LONG;
     BacktestPosition.entryPrice := int 200;
     BacktestPosition.entryDate := 0;
     BacktestPosition.quantity := int 49;
     BacktestPosition.stopLoss := Some (int 190);
     BacktestPosition.takeProfit := Some (int 230);
     BacktestPosition.value := int 9805 |}.

Definition sampleParameters : BacktestParameters.t float :=
  {| BacktestParameters.strategy := sampleStrategy;
     BacktestParameters.startDate := 0;
     BacktestParameters.endDate := 2592000000;
     BacktestParameters.initialCapital := int 100000;
     BacktestParameters.symbols := ["AAPL"%string];
     BacktestParameters.commission := int 5;
     BacktestParameters.slippage := lit 0.1;
     BacktestParameters.maxPositions := int 10 |}.

(** A day with no bar at all, and one whose only bar closes at 0: the
    position of 49 shares entered at 200 counts for 9800 either way. *)
Lemma missing_quote_marked_at_entry_witness :
  EquityPoint.equity
    (equityPoint sampleParameters 86400000 (int 90195) ([] ++ samplePosition :: []) [])
  = 99995%float
  /\ EquityPoint.equity
       (equityPoint sampleParameters 86400000 (int 90195)
          ([] ++ samplePosition :: []) [sampleBar 86400000 (int 0)])
     = 99995%float.
Proof.
  assert (H1 : noQuote [] samplePosition) by (left; reflexivity).
  assert (H2 : noQuote [sampleBar 86400000 (int 0)] samplePosition)
    by (right; eexists; split; reflexivity).
  split.
  - rewrite (proj2 (@missing_quote_marked_at_entry float _ sampleParameters 86400000
                      (int 90195) [] [] [] samplePosition H1)).
    vm_compute. reflexivity.
  - rewrite (proj2 (@missing_quote_marked_at_entry float _ sampleParameters 86400000
                      (int 90195) [sampleBar 86400000 (int 0)] [] [] samplePosition H2)).
    vm_compute. reflexivity.
Defined.

End MarkToMarketWitness.

(* ================================================================== *)
(** * Ratios with a zero denominator (C8) *)
(* ================================================================== *)

Section ZeroDenominators.
Import Binary64 BacktestingEngine.
Local Open Scope js_scope.

(** C8.  On binary64, for every implementation of [Math.sqrt] and
    [Math.pow]: in the report computed from a non-empty trade list and a
    non-empty equity curve, the Sharpe ratio is the number 0 when the
    volatility of the daily returns is zero; the Sortino ratio is 0 when no
    daily return is negative, and also when the downside deviation is zero;
    the Calmar ratio is 0 when the maximum drawdown percent is zero. *)
Theorem ratios_zero_on_zero_denominator (M : JSMath float)
    (trades : list (BacktestTrade.t float))
    (equityCurve : list (EquityPoint.t float))
    (parameters : BacktestParameters.t float) :
  trades <> [] -> equityCurve <> [] ->
  let metrics := calculateMetrics trades equityCurve parameters in
  let dailyReturns := dailyReturnsOf equityCurve in
  let downsideReturns := filter (fun r => r <? int 0) dailyReturns in
  ((calculateVolatility dailyReturns === int 0) = true ->
   BacktestMetrics.sharpeRatio metrics = 0%float)
  /\ (downsideReturns = [] -> BacktestMetrics.sortinoRatio metrics = 0%float)
  /\ ((calculateVolatility downsideReturns === int 0) = true ->
      BacktestMetrics.sortinoRatio metrics = 0%float)
  /\ ((BacktestMetrics.maxDrawdownPercent metrics === int 0) = true ->
      BacktestMetrics.calmarRatio metrics = 0%float).
Proof.
  intros Htrades Hcurve. destruct trades as [|t trades]; [contradiction|].
  cbv zeta. repeat split.
  - intro Hzero. rewrite calculateMetrics_sharpeRatio by exact Hcurve. cbv zeta.
    rewrite (float_zero_not_positive Hzero). reflexivity.
  - intro Hnone. rewrite calculateMetrics_sortinoRatio by exact Hcurve. cbv zeta.
    rewrite Hnone. reflexivity.
  - intro Hzero. rewrite calculateMetrics_sortinoRatio by exact Hcurve. cbv zeta.
    destruct (len _ >? int 0).
    + rewrite (float_zero_not_positive Hzero). reflexivity.
    + reflexivity.
  - intro Hzero.
    rewrite (calculateMetrics_calmarRatio t trades parameters Hcurve).
    rewrite (float_zero_not_positive Hzero). reflexivity.
Qed.

Definition sampleTrade : BacktestTrade.t float :=
  closePosition samplePosition (int 210) 172800000 END_OF_PERIOD sampleParameters.

Definition flatPoint (date : Z) : EquityPoint.t float :=
  {| EquityPoint.date := date;
     EquityPoint.equity := int 100000;
     EquityPoint.drawdown := int 0;
     EquityPoint.drawdownPercent := int 0 |}.

(** One trade and two days of unchanged equity: a single daily return, so a
    volatility of 0 whatever [Math.pow] is, no negative return and no
    drawdown; the three ratios are 0. *)
Lemma ratios_zero_on_zero_denominator_witness :
  [sampleTrade] <> [] /\ [flatPoint 0; flatPoint 86400000] <> []
  /\ forall M : JSMath float,
       let metrics :=
         calculateMetrics [sampleTrade] [flatPoint 0; flatPoint 86400000]
           sampleParameters in
       BacktestMetrics.sharpeRatio metrics = 0%float
       /\ BacktestMetrics.sortinoRatio metrics = 0%float
       /\ BacktestMetrics.calmarRatio metrics = 0%float.
Proof.
  assert (Ht : [sampleTrade] <> []) by discriminate.
  assert (Hc : [flatPoint 0; flatPoint 86400000] <> []) by discriminate.
  split; [exact Ht|]. split; [exact Hc|].
  intro M.
  destruct (@ratios_zero_on_zero_denominator M [sampleTrade]
              [flatPoint 0; flatPoint 86400000] sampleParameters Ht Hc)
    as (Hsharpe & Hsortino & _ & Hcalmar).
  cbv zeta. split; [|split].
  - apply Hsharpe. vm_compute. reflexivity.
  - apply Hsortino. vm_compute. reflexivity.
  - apply Hcalmar. vm_compute. reflexivity.
Defined.

End ZeroDenominators.

(* ================================================================== *)
(** * Exits (C6) *)
(* ================================================================== *)

(** ** The latest bar of a symbol, on exact numbers *)

Section LatestBar.
Import Exact BacktestingEngine.
Local Open Scope js_scope.

Lemma exact_later (a b : Z) :
  ((int b - int a : number) >? int 0) = (a <? b)%Z.
Proof.
  cbn. unfold Qle_bool, Qplus, Qopp, inject_Z. cbn.
  destruct (Z.ltb_spec a b) as [Hlt|Hge];
    destruct (Z.leb_spec ((b * 1 + - a * 1) * 1) 0); simpl; lia.
Qed.

(** The comparator of the final sort: later bars first. *)
Definition latestFirst (a b : BacktestData.t number) : number :=
  int (BacktestData.timestamp b) - int (BacktestData.timestamp a).

(** The head of the list is one of its latest bars. *)
Definition headIsLatest (l : list (BacktestData.t number)) : Prop :=
  match l with
  | [] => True
  | y :: _ =>
      forall z, In z l ->
                (BacktestData.timestamp z <= BacktestData.timestamp y)%Z
  end.

Lemma sort_insert_headIsLatest (x : BacktestData.t number) l :
  headIsLatest l -> headIsLatest (sort_insert latestFirst x l).
Proof.
  destruct l as [|y l].
  - intros _ z [E|[]]. subst. lia.
  - intro Hy. unfold headIsLatest in Hy. cbn [sort_insert].
    unfold latestFirst at 1. rewrite exact_later.
    destruct (Z.ltb_spec (BacktestData.timestamp y) (BacktestData.timestamp x))
      as [Hlt|Hge]; unfold headIsLatest.
    + intros z [E|Hz]; [subst; lia|]. specialize (Hy z Hz). lia.
    + intros z [E|Hz]; [subst; lia|].
      apply (Permutation_in z (sort_insert_perm latestFirst x l)) in Hz.
      destruct Hz as [E|Hz]; [subst; lia|]. apply Hy. right. exact Hz.
Qed.

Lemma sort_headIsLatest (l : list (BacktestData.t number)) :
  headIsLatest (sort latestFirst l).
Proof.
  unfold sort.
  assert (G : forall acc, headIsLatest acc ->
                          headIsLatest
                            (fold_left (fun sorted x => sort_insert latestFirst x sorted)
                               l acc)).
  { induction l as [|x l IH]; intros acc Hacc; simpl; [exact Hacc|].
    apply IH. apply sort_insert_headIsLatest. exact Hacc. }
  apply G. exact I.
Qed.

Lemma finalDataOf_latest historicalData (pos : BacktestPosition.t number) finalData :
  finalDataOf historicalData pos = Some finalData ->
  In finalData historicalData
  /\ BacktestData.symbol finalData = BacktestPosition.symbol pos
  /\ forall d, In d historicalData ->
               BacktestData.symbol d = BacktestPosition.symbol pos ->
               (BacktestData.timestamp d <= BacktestData.timestamp finalData)%Z.
Proof.
  unfold finalDataOf. fold latestFirst.
  set (bars := filter _ historicalData).
  pose proof (sort_headIsLatest bars) as Hhead.
  destruct (sort latestFirst bars) as [|y l] eqn:E; [discriminate|].
  simpl. intro Ey. inversion Ey; subst y.
  assert (Hin : In finalData bars).
  { apply (sort_In latestFirst). rewrite E. left. reflexivity. }
  apply filter_In in Hin. destruct Hin as [Hin Hsym].
  split; [exact Hin|]. split; [apply String.eqb_eq; exact Hsym|].
  intros d Hd Hs. apply Hhead. rewrite <- E. apply sort_In.
  apply filter_In. split; [exact Hd|]. apply String.eqb_eq. exact Hs.
Qed.

End LatestBar.

(** ** The exit test of one position (any number instance) *)

Section ExitTest.
Context {N : Type} `{JSNumber N}.
Local Open Scope js_scope.
Import BacktestingEngine.

(** [acc] after the position left at [exitPrice] for [reason]. *)
Definition exited (parameters : BacktestParameters.t N) (acc : Processed)
    (position : BacktestPosition.t N) (symbolData : BacktestData.t N)
    (reason : ExitReason) (exitPrice : N) : Processed :=
  {| closedTrades :=
       push (closedTrades acc)
         (closePosition position exitPrice (BacktestData.timestamp symbolData)
            reason parameters);
     remainingPositions := remainingPositions acc;
     capitalFromClosedTrades :=
       capitalFromClosedTrades acc
       + ((BacktestPosition.quantity position * exitPrice)
          - BacktestParameters.commission parameters) |}.

(** [acc] after the position stayed open. *)
Definition stayed (acc : Processed) (position : BacktestPosition.t N) : Processed :=
  {| closedTrades := closedTrades acc;
     remainingPositions := push (remainingPositions acc) position;
     capitalFromClosedTrades := capitalFromClosedTrades acc |}.

Lemma processPosition_priority parameters dayData acc position symbolData
    stopLoss takeProfit :
  find_symbol dayData (BacktestPosition.symbol position) = Some symbolData ->
  BacktestPosition.stopLoss position = Some stopLoss -> truthy stopLoss = true ->
  BacktestPosition.takeProfit position = Some takeProfit -> truthy takeProfit = true ->
  processPosition dayData parameters acc position
  = if BacktestData.low symbolData <=? stopLoss
    then exited parameters acc position symbolData STOP_LOSS stopLoss
    else if BacktestData.high symbolData >=? takeProfit
         then exited parameters acc position symbolData TAKE_PROFIT takeProfit
         else stayed acc position.
Proof.
  intros Hfind Hsl Hslt Htp Htpt.
  unfold processPosition, exitDecision, takeProfitHit.
  rewrite Hfind, Hsl, Htp, Hslt, Htpt. simpl.
  destruct (BacktestData.low symbolData <=? stopLoss); [reflexivity|].
  destruct (BacktestData.high symbolData >=? takeProfit); reflexivity.
Qed.

End ExitTest.

(** ** The claim, on exact numbers *)

Section ExitRules.
Import Exact BacktestingEngine.
Local Open Scope js_scope.

(** [trade] closes [pos] at the close of a latest bar of its symbol, on the
    end date, for [END_OF_PERIOD]. *)
Definition closedAtLatest (parameters : BacktestParameters.t number)
    (historicalData : list (BacktestData.t number))
    (pos : BacktestPosition.t number) (trade : BacktestTrade.t number) : Prop :=
  exists finalData,
    In finalData historicalData
    /\ BacktestData.symbol finalData = BacktestPosition.symbol pos
    /\ (forall d, In d historicalData ->
                  BacktestData.symbol d = BacktestPosition.symbol pos ->
                  (BacktestData.timestamp d <= BacktestData.timestamp finalData)%Z)
    /\ trade = closePosition pos (BacktestData.close finalData)
                 (BacktestParameters.endDate parameters) END_OF_PERIOD parameters.


Definition exactBar (low high close : Q) : BacktestData.t number :=
  {| BacktestData.timestamp := 86400000;
     BacktestData.symbol := "AAPL";
     BacktestData.open := Fin close;
     BacktestData.high := Fin high;
     BacktestData.low := Fin low;
     BacktestData.close := Fin close;
     BacktestData.volume := Fin 1000000 |}.

Definition exactPosition : BacktestPosition.t number :=
  {| BacktestPosition.symbol := "AAPL";
     BacktestPosition.side := LONG;
     BacktestPosition.entryPrice := Fin 200;
     BacktestPosition.entryDate := 0;
     BacktestPosition.quantity := Fin 49;
     BacktestPosition.stopLoss := Some (Fin 190);
     BacktestPosition.takeProfit := Some (Fin 230);
     BacktestPosition.value := Fin 9805 |}.

Definition exactParameters : BacktestParameters.t number :=
  {| BacktestParameters.strategy :=
       {| IStrategy.strategyId := "strategy-1";
          IStrategy.userId := "user-1";
          IStrategy.parameters := [] |};
     BacktestParameters.startDate := 0;
     BacktestParameters.endDate := 2592000000;
     BacktestParameters.initialCapital := Fin 100000;
     BacktestParameters.symbols := ["AAPL"%string];
     BacktestParameters.commission := Fin 5;
     BacktestParameters.slippage := Fin 0.1;
     BacktestParameters.maxPositions := Fin 10 |}.


End ExitRules.

(* ================================================================== *)
(** * The position cap (C5) *)
(* ================================================================== *)

(** ** Order and division on exact numbers *)

Section ExactFacts.
Import Exact.
Local Open Scope Q_scope.

Lemma ltb_Fin_true (x y : Q) : ltb (Fin x) (Fin y) = true <-> x < y.
Proof.
  simpl. rewrite negb_true_iff. split.
  - intro Hf. apply Qnot_le_lt. intro Hle. apply Qle_bool_iff in Hle. congruence.
  - intro Hlt. destruct (Qle_bool y x) eqn:E; [|reflexivity].
    apply Qle_bool_iff in E. apply Qle_not_lt in E. contradiction.
Qed.

Lemma ltb_Fin_false (x y : Q) : ltb (Fin x) (Fin y) = false <-> y <= x.
Proof.
  simpl. rewrite negb_false_iff. apply Qle_bool_iff.
Qed.

Lemma leb_Fin_true (x y : Q) : leb (Fin x) (Fin y) = true <-> x <= y.
Proof. simpl. apply Qle_bool_iff. Qed.

Lemma eqb_Fin_true (x y : Q) : eqb (Fin x) (Fin y) = true <-> x == y.
Proof. simpl. apply Qeq_bool_iff. Qed.

Lemma div_Fin (x y : Q) : ~ y == 0 -> div (Fin x) (Fin y) = Fin (x / y).
Proof.
  intro Hy. simpl. destruct (Qeq_bool y 0) eqn:E; [|reflexivity].
  apply Qeq_bool_iff in E. contradiction.
Qed.

End ExactFacts.

(** ** The shares and the value returned (any number instance) *)

Section SizingResult.
Context {N : Type} `{JSNumber N}.
Local Open Scope js_scope.
Import RiskManager.

(** [finalShares] after the position-size check. *)
Definition sharesAfterCap (input : PositionSizingInput.t N) : N :=
  if positionSizePercent input >? RiskParameters.maxPositionSize defaultParameters
  then cappedShares input else adjustedShares input.

(** [finalShares] after the correlation adjustment. *)
Definition finalSharesOf (input : PositionSizingInput.t N) : N :=
  if or_default (PositionSizingInput.correlation input) (int 0) >? lit 0.7
  then Math_floor (sharesAfterCap input * lit 0.7)
  else sharesAfterCap input.

Lemma calculatePositionSize_shares (input : PositionSizingInput.t N) :
  PositionSizingResult.recommendedShares (calculatePositionSize input)
  = Math_max (int 0) (finalSharesOf input)
  /\ PositionSizingResult.recommendedValue (calculatePositionSize input)
     = finalSharesOf input * PositionSizingInput.entryPrice input.
Proof.
  unfold calculatePositionSize, finalSharesOf, sharesAfterCap, adjustedValue.
  destruct (positionSizePercent input >? _);
    destruct (or_default (PositionSizingInput.correlation input) (int 0) >? lit 0.7);
    destruct (_ >? int 10); destruct (_ >? RiskParameters.maxPortfolioRisk _);
    destruct (_ >? lit 0.4); split; reflexivity.
Qed.

Lemma calculatePositionSize_warning (input : PositionSizingInput.t N) :
  (positionSizePercent input >? RiskParameters.maxPositionSize defaultParameters) = true ->
  In positionSizeWarning (PositionSizingResult.warnings (calculatePositionSize input)).
Proof.
  intro Hcap. unfold calculatePositionSize. rewrite Hcap.
  destruct (or_default (PositionSizingInput.correlation input) (int 0) >? lit 0.7);
    destruct (_ >? int 10); destruct (_ >? RiskParameters.maxPortfolioRisk _);
    destruct (_ >? lit 0.4); unfold push; simpl; tauto.
Qed.
End SizingResult.

(** ** The cap, on exact numbers *)

Section PositionCap.
Import Exact RiskManager.
Local Open Scope js_scope.
Local Opaque Qfloor.

Ltac floor_bound :=
  match goal with |- context [Qfloor ?x] => pose proof (Qfloor_le x) end.

(** 20% of a portfolio worth [p]. *)
Definition cap (p : Q) : number := Fin (p * (20 # 100)).

(** A share count whose value at the entry price [e] is within the cap;
    [-Infinity] and [NaN] exceed nothing. *)
Definition withinCap (e p : Q) (shares : number) : Prop :=
  match shares with
  | Fin a => (a * e <= p * (20 # 100))%Q
  | PosInf => False
  | NegInf | NaN => True
  end.

Lemma Qcompare_pos (e : Q) : (0 < e)%Q -> (e ?= 0)%Q = Gt.
Proof. intro He. apply Qgt_alt. exact He. Qed.

Lemma withinCap_value e p s : (0 < e)%Q -> (0 < p)%Q -> withinCap e p s ->
  (s * Fin e >? cap p) = false /\ (Math_max (int 0) s * Fin e >? cap p) = false.
Proof.
  intros He Hp Hs. destruct s as [a| | |]; simpl in Hs.
  - split.
    + apply ltb_Fin_false. exact Hs.
    + unfold Math_max. cbn [js_isNaN exact_number isNaN int of_Z orb js_ltb].
      destruct (ltb (Fin (inject_Z 0)) (Fin a)) eqn:E.
      * apply ltb_Fin_false. exact Hs.
      * apply ltb_Fin_false. apply ltb_Fin_false in E.
        change (inject_Z 0) with 0%Q in *. nra.
  - contradiction.
  - split.
    + cbn. rewrite (Qcompare_pos He). reflexivity.
    + cbn. apply negb_false_iff. apply Qle_bool_iff. 
      change (0 * e <= p * (20#100))%Q. nra.
  - split; reflexivity.
Qed.

Lemma withinCap_correlation e p s : (0 < e)%Q -> (0 < p)%Q -> withinCap e p s ->
  withinCap e p (Math_floor (s * lit 0.7)).
Proof.
  intros He Hp Hs. destruct s as [a| | |]; simpl in Hs; try contradiction; try exact I.
  - cbn. floor_bound. change (inject_Z 7 / inject_Z 10)%Q with (7 # 10)%Q in *.
    set (f := inject_Z (Qfloor _)) in *.
    destruct (Qlt_le_dec a 0) as [Hneg|Hpos].
    + assert (f <= 0)%Q by lra. nra.
    + assert (f <= a)%Q by lra. nra.
Qed.

Lemma cappedShares_within symbol e p stop risk tol vol corr : (0 < e)%Q -> (0 < p)%Q ->
  withinCap e p (cappedShares (PositionSizingInput.mk symbol (Fin e) stop (Fin p) risk tol vol corr)).
Proof.
  intros He Hp. unfold cappedShares. cbn.
  assert (Hne : ~ e == 0) by lra.
  destruct (Qeq_bool e 0) eqn:E; [apply Qeq_bool_iff in E; contradiction|].
  cbn. floor_bound.
  change (inject_Z 200 / inject_Z 10 / inject_Z 100)%Q with (200 # 1000)%Q in *.
  set (f := inject_Z (Qfloor _)) in *.
  assert (Hx : (p * (200 # 1000) / e * e == p * (20 # 100))%Q) by (field; exact Hne).
  assert (Hm : (f * e <= p * (200 # 1000) / e * e)%Q)
    by (apply Qmult_le_compat_r; [exact H | lra]).
  lra.
Qed.

Lemma adjusted_within symbol e p stop risk tol vol corr : (0 < e)%Q -> (0 < p)%Q ->
  let input := PositionSizingInput.mk symbol (Fin e) stop (Fin p) risk tol vol corr in
  (positionSizePercent input >? RiskParameters.maxPositionSize defaultParameters) = false ->
  withinCap e p (adjustedShares input).
Proof.
  intros He Hp input. unfold positionSizePercent, adjustedValue.
  cbn [PositionSizingInput.entryPrice PositionSizingInput.portfolioValue input].
  generalize (adjustedShares input) as s. intros s Hs.
  assert (Hne : ~ p == 0) by lra.
  destruct s as [a| | |]; simpl; try exact I.
  - cbn in Hs. destruct (Qeq_bool p 0) eqn:E; [apply Qeq_bool_iff in E; contradiction|].
    cbn in Hs. apply negb_false_iff in Hs. apply Qle_bool_iff in Hs.
    change (inject_Z 100) with (100 # 1)%Q in Hs.
    change (inject_Z 200 / inject_Z 10)%Q with (200 # 10)%Q in Hs.
    assert (Hx : (a * e / p * (100 # 1) * p == a * e * (100 # 1))%Q) by (field; exact Hne).
    assert (Hm : (a * e / p * (100 # 1) * p <= (200 # 10) * p)%Q)
      by (apply Qmult_le_compat_r; [exact Hs | lra]).
    lra.
  - cbn in Hs. rewrite (Qcompare_pos He) in Hs. cbn in Hs. rewrite (Qcompare_pos Hp) in Hs. cbn in Hs. discriminate.
Qed.

Lemma exceeds_cap_iff symbol e p stop risk tol vol corr : (0 < e)%Q -> (0 < p)%Q ->
  let input := PositionSizingInput.mk symbol (Fin e) stop (Fin p) risk tol vol corr in
  (adjustedValue input >? cap p)
  = (positionSizePercent input >? RiskParameters.maxPositionSize defaultParameters).
Proof.
  intros He Hp input. unfold positionSizePercent, adjustedValue.
  cbn [PositionSizingInput.entryPrice PositionSizingInput.portfolioValue input].
  generalize (adjustedShares input) as s. intros s.
  assert (Hne : ~ p == 0) by lra.
  destruct s as [a| | |].
  - cbn. destruct (Qeq_bool p 0) eqn:E; [apply Qeq_bool_iff in E; contradiction|].
    cbn. f_equal.
    change (inject_Z 100) with (100 # 1)%Q.
    change (inject_Z 200 / inject_Z 10)%Q with (200 # 10)%Q.
    assert (Hx : (a * e / p * (100 # 1) * p == a * e * (100 # 1))%Q) by (field; exact Hne).
    destruct (Qle_bool (a * e) (p * (20 # 100))) eqn:E1;
      destruct (Qle_bool (a * e / p * (100 # 1)) (200 # 10)) eqn:E2; try reflexivity; exfalso.
    + apply Qle_bool_iff in E1.
      assert (~ (a * e / p * (100 # 1) <= 200 # 10)%Q) as Hn
        by (intro Hle; apply Qle_bool_iff in Hle; congruence).
      apply Hn. apply Qnot_lt_le. intro Hlt.
      assert ((200 # 10) * p < a * e / p * (100 # 1) * p)%Q
        by (apply Qmult_lt_compat_r; assumption).
      lra.
    + apply Qle_bool_iff in E2.
      assert (~ (a * e <= p * (20 # 100))%Q) as Hn
        by (intro Hle; apply Qle_bool_iff in Hle; congruence).
      apply Hn.
      assert (Hm : (a * e / p * (100 # 1) * p <= (200 # 10) * p)%Q)
        by (apply Qmult_le_compat_r; [exact E2 | lra]).
      lra.
  - cbn. rewrite (Qcompare_pos He). cbn. rewrite (Qcompare_pos Hp). reflexivity.
  - cbn. rewrite (Qcompare_pos He). cbn. rewrite (Qcompare_pos Hp). reflexivity.
  - reflexivity.
Qed.



Definition exactInput : PositionSizingInput.t number :=
  {| PositionSizingInput.symbol := "AAPL";
     PositionSizingInput.entryPrice := Fin 100;
     PositionSizingInput.stopLossPrice := Fin 95;
     PositionSizingInput.portfolioValue := Fin 100000;
     PositionSizingInput.riskPerTrade := Fin 2;
     PositionSizingInput.userRiskTolerance := MEDIUM;
     PositionSizingInput.volatility := None;
     PositionSizingInput.correlation := None |}.


End PositionCap.

(* ================================================================== *)
(** * Drawdown (C1) *)
(* ================================================================== *)

(** ** The claim, and a run that breaks it *)

Section DrawdownClaim.
Context {N : Type} `{JSNumber N}.
Local Open Scope js_scope.

(** The highest equity among the points up to and including the [i]-th. *)
Definition runningPeak (curve : list (EquityPoint.t N)) (i : nat) : N :=
  Math_max_of (map (fun pt => EquityPoint.equity pt) (firstn (S i) curve)).

(** The drawdown of every point is measured from the running peak, and is 0
    exactly where the equity is the running peak. *)
Definition drawdownFromRunningPeak (curve : list (EquityPoint.t N)) : Prop :=
  forall i pt,
    nth_error curve i = Some pt ->
    let peak := runningPeak curve i in
    EquityPoint.drawdown pt = Math_max (int 0) (peak - EquityPoint.equity pt)
    /\ EquityPoint.drawdownPercent pt = (EquityPoint.drawdown pt / peak) * int 100
    /\ ((EquityPoint.drawdown pt === int 0) = true
        <-> (EquityPoint.equity pt === peak) = true).

End DrawdownClaim.

Section DrawdownCounterexample.
Import Binary64 BacktestingEngine.
Local Open Scope js_scope.

(** The daily price change drawn on day [i]: flat, a dip on day 12 undone on
    day 13, a rise on day 23 and a smaller fall on day 24. *)
Definition dipChange (i : nat) : float :=
  if Nat.eqb i 12 then lit 0.25
  else if Nat.eqb i 13 then lit 0.7424
  else if Nat.eqb i 23 then lit 0.99
  else if Nat.eqb i 24 then lit 0.25
  else lit 0.495.

(** A [Math.random] for one symbol: 0.5 for the starting price, then five
    draws a day, the first of which moves the price. *)
Definition dipRandom (k : nat) : float :=
  match k with
  | O => lit 0.5
  | S k' =>
      if Nat.eqb (Nat.modulo k' 5) 0 then dipChange (Nat.div k' 5) else lit 0.5
  end.

(** Thirty days of one symbol, 100000 of capital, commission 5, slippage
    0.1%, at most 10 positions. *)
Definition dipParameters : BacktestParameters.t float :=
  {| BacktestParameters.strategy := sampleStrategy;
     BacktestParameters.startDate := 0;
     BacktestParameters.endDate := 30 * 86400000;
     BacktestParameters.initialCapital := int 100000;
     BacktestParameters.symbols := ["AAPL"%string];
     BacktestParameters.commission := int 5;
     BacktestParameters.slippage := lit 0.1;
     BacktestParameters.maxPositions := int 10 |}.

Definition dipData : list (BacktestData.t float) :=
  fst (generateHistoricalData dipRandom (BacktestParameters.symbols dipParameters)
         (BacktestParameters.startDate dipParameters)
         (BacktestParameters.endDate dipParameters) 0%nat).

Definition dipCurve : list (EquityPoint.t float) :=
  equityCurve (simulate dipParameters dipData).

(** The 25th point of that curve, evaluated: equity 100081.30, drawdown 0. *)
Definition dipPoint : option (EquityPoint.t float) :=
  Eval vm_compute in nth_error dipCurve 24.

Lemma dipCurve_produced (M : JSMath float) :
  exists result,
    fst (runBacktest dipRandom dipParameters 0%nat) = Returns result
    /\ BacktestResult.equityCurve result = dipCurve.
Proof.
  unfold dipCurve, dipData. apply runBacktest_equityCurve.
Qed.

(** The run buys on day 22.  On day 23 the equity is 100179.24, its highest;
    on day 24 it is 100081.30, which is 97.94 below that peak, and the
    drawdown recorded is 0. *)
Lemma drawdown_not_from_running_peak :
  (forall M : JSMath float,
      exists result,
        fst (runBacktest dipRandom dipParameters 0%nat) = Returns result
        /\ BacktestResult.equityCurve result = dipCurve)
  /\ ~ drawdownFromRunningPeak dipCurve.
Proof.
  split; [exact dipCurve_produced|].
  intro Hclaim.
  assert (Hnth : nth_error dipCurve 24 = dipPoint) by (vm_compute; reflexivity).
  unfold dipPoint in Hnth.
  destruct (Hclaim 24%nat _ Hnth) as (Hdd & _).
  cbn [EquityPoint.drawdown EquityPoint.equity] in Hdd.
  apply (f_equal (fun x => PrimFloat.eqb x 0)) in Hdd.
  vm_compute in Hdd. discriminate.
Qed.

End DrawdownCounterexample.

(** ** What the code computes, on exact numbers *)

Section DrawdownFromInitialCapital.
Import Exact BacktestingEngine.
Local Open Scope js_scope.

Lemma exact_drawdown_zero_iff (c : Q) (x : number) :
  (Math_max (int 0) (Fin c - x) === int 0) = true <-> (Fin c <=? x) = true.
Proof.
  destruct x as [q| | |]; cbn; try (split; congruence).
  unfold Math_max. cbn. change (inject_Z 0) with 0%Q.
  destruct (Qle_bool (c + - q) 0) eqn:E; cbn.
  - apply Qle_bool_iff in E. split; [intros _|reflexivity].
    apply Qle_bool_iff. lra.
  - assert (Hn : ~ (c + - q <= 0)%Q)
      by (intro Hle; apply Qle_bool_iff in Hle; congruence).
    split; intro Hx.
    + apply Qeq_bool_iff in Hx. lra.
    + apply Qle_bool_iff in Hx. lra.
Qed.

(** C1, as the code has it.  On exact numbers, for every implementation of
    [Math.sqrt] and [Math.pow], every [Math.random] and every finite initial
    capital: the run returns, and at every point of its equity curve the
    drawdown is the initial capital minus the point's equity, floored at 0,
    the drawdown percent is the drawdown divided by the initial capital
    times 100, and the drawdown is 0 exactly where the equity is at least
    the initial capital. *)
Theorem drawdown_from_initial_capital (M : JSMath number) (random : nat -> number)
    (strategy : IStrategy.t number) (startDate endDate : Z) (initialCapital : Q)
    (symbols : list string) (commission slippage maxPositions : number) (k : nat) :
  let parameters :=
    {| BacktestParameters.strategy := strategy;
       BacktestParameters.startDate := startDate;
       BacktestParameters.endDate := endDate;
       BacktestParameters.initialCapital := Fin initialCapital;
       BacktestParameters.symbols := symbols;
       BacktestParameters.commission := commission;
       BacktestParameters.slippage := slippage;
       BacktestParameters.maxPositions := maxPositions |} in
  exists result,
    fst (runBacktest random parameters k) = Returns result
    /\ Forall
         (fun pt =>
            EquityPoint.drawdown pt
            = Math_max (int 0) (Fin initialCapital - EquityPoint.equity pt)
            /\ EquityPoint.drawdownPercent pt
               = (EquityPoint.drawdown pt / Fin initialCapital) * int 100
            /\ ((EquityPoint.drawdown pt === int 0) = true
                <-> (Fin initialCapital <=? EquityPoint.equity pt) = true))
         (BacktestResult.equityCurve result).
Proof.
  intro parameters.
  destruct (runBacktest_equityCurve random parameters k) as (result & Hrun & Hcurve).
  exists result. split; [exact Hrun|]. rewrite Hcurve.
  eapply Forall_impl; [|apply simulate_equityCurve].
  intros pt (Hdd & Hpct). cbn [BacktestParameters.initialCapital parameters] in Hdd, Hpct.
  split; [exact Hdd|]. split; [exact Hpct|].
  rewrite Hdd. apply exact_drawdown_zero_iff.
Qed.

End DrawdownFromInitialCapital.

(* ================================================================== *)
(** * Reproducibility (C2) *)
(* ================================================================== *)

(** ** Runs that draw the same values *)

Section Determinism.
Context {N : Type} `{JSNumber N} `{JSMath N}.
Local Open Scope js_scope.
Import BacktestingEngine.

(** The number of bars of each symbol: [days + 1], or none. *)
Definition barsPerSymbol (startDate endDate : Z) : nat :=
  Z.to_nat (ceil_div (endDate - startDate) (1000 * 60 * 60 * 24) + 1).

(** The number of values [generateHistoricalData] draws. *)
Definition draws (symbols : list string) (startDate endDate : Z) : nat :=
  (List.length symbols * (1 + 5 * barsPerSymbol startDate endDate))%nat.

(** Two sources that return the same [n] values from their cursors on. *)
Definition agree (random1 random2 : nat -> N) (k1 k2 n : nat) : Prop :=
  forall i, (i < n)%nat -> random1 (k1 + i)%nat = random2 (k2 + i)%nat.

Lemma agree_shift random1 random2 k1 k2 n m :
  agree random1 random2 k1 k2 (n + m) ->
  agree random1 random2 k1 k2 n /\ agree random1 random2 (k1 + n) (k2 + n) m.
Proof.
  intro Ha. split; intros i Hi.
  - apply Ha. lia.
  - rewrite <- !Nat.add_assoc. apply Ha. lia.
Qed.

Lemma generateBar_agree random1 random2 symbol startDate i currentPrice k1 k2 :
  agree random1 random2 k1 k2 5 ->
  generateBar random1 symbol startDate i currentPrice k1
  = (fst (generateBar random2 symbol startDate i currentPrice k2), (k1 + 5)%nat)
  /\ snd (generateBar random2 symbol startDate i currentPrice k2) = (k2 + 5)%nat.
Proof.
  intro Ha. unfold generateBar, bind, Math_random, ret. cbn [fst snd].
  pose proof (Ha 0%nat ltac:(lia)) as A0. pose proof (Ha 1%nat ltac:(lia)) as A1.
  pose proof (Ha 2%nat ltac:(lia)) as A2. pose proof (Ha 3%nat ltac:(lia)) as A3.
  pose proof (Ha 4%nat ltac:(lia)) as A4.
  rewrite !Nat.add_0_r in A0.
  replace (k1 + 1)%nat with (S k1) in A1 by lia. replace (k2 + 1)%nat with (S k2) in A1 by lia.
  replace (k1 + 2)%nat with (S (S k1)) in A2 by lia. replace (k2 + 2)%nat with (S (S k2)) in A2 by lia.
  replace (k1 + 3)%nat with (S (S (S k1))) in A3 by lia. replace (k2 + 3)%nat with (S (S (S k2))) in A3 by lia.
  replace (k1 + 4)%nat with (S (S (S (S k1)))) in A4 by lia. replace (k2 + 4)%nat with (S (S (S (S k2)))) in A4 by lia.
  rewrite A0, A1, A2, A3, A4.
  split; f_equal; lia.
Qed.

Lemma generateBars_agree random1 random2 symbol startDate n :
  forall i currentPrice data k1 k2,
    agree random1 random2 k1 k2 (5 * n) ->
    generateBars random1 symbol startDate i n currentPrice data k1
    = (fst (generateBars random2 symbol startDate i n currentPrice data k2),
       (k1 + 5 * n)%nat)
    /\ snd (generateBars random2 symbol startDate i n currentPrice data k2)
       = (k2 + 5 * n)%nat.
Proof.
  induction n as [|n IH]; intros i currentPrice data k1 k2 Ha.
  - cbn. unfold ret. cbn. split; f_equal; lia.
  - replace (5 * S n)%nat with (5 + 5 * n)%nat in * by lia.
    apply agree_shift in Ha. destruct Ha as [Ha5 Harest].
    destruct (generateBar_agree symbol startDate i currentPrice Ha5) as [E1 E2].
    destruct (generateBar random2 symbol startDate i currentPrice k2) as [b k2'] eqn:E.
    cbn [fst snd] in E1, E2. subst k2'.
    assert (R : generateBars random2 symbol startDate i (S n) currentPrice data k2
                = generateBars random2 symbol startDate (i + 1) n (snd b)
                    (push data (fst b)) (k2 + 5)%nat).
    { cbn [generateBars]. unfold bind. rewrite E. reflexivity. }
    assert (L : generateBars random1 symbol startDate i (S n) currentPrice data k1
                = generateBars random1 symbol startDate (i + 1) n (snd b)
                    (push data (fst b)) (k1 + 5)%nat).
    { cbn [generateBars]. unfold bind. rewrite E1. reflexivity. }
    rewrite R, L.
    destruct (IH (i + 1)%Z (snd b) (push data (fst b)) _ _ Harest) as [E3 E4].
    rewrite E3, E4. split; [f_equal|]; lia.
Qed.

Lemma generateSymbols_agree random1 random2 startDate days symbols :
  forall data k1 k2,
    agree random1 random2 k1 k2
      (List.length symbols * (1 + 5 * Z.to_nat (days + 1))) ->
    fst (generateSymbols random1 symbols startDate days data k1)
    = fst (generateSymbols random2 symbols startDate days data k2).
Proof.
  induction symbols as [|symbol symbols IH]; intros data k1 k2 Ha; [reflexivity|].
  set (n := Z.to_nat (days + 1)) in *.
  replace (List.length (symbol :: symbols) * (1 + 5 * n))%nat
    with ((1 + 5 * n) + List.length symbols * (1 + 5 * n))%nat in Ha
    by (cbn [List.length]; lia).
  apply agree_shift in Ha. destruct Ha as [Hfirst Hrest].
  apply agree_shift in Hfirst. destruct Hfirst as [H1 Hbars].
  pose proof (H1 0%nat ltac:(lia)) as E0. rewrite !Nat.add_0_r in E0.
  destruct (@generateBars_agree random1 random2 symbol startDate n 0%Z
              (int 100 + random2 k2 * int 200) data _ _ Hbars) as [E1 E2].
  assert (L : generateSymbols random1 (symbol :: symbols) startDate days data k1
              = generateSymbols random1 symbols startDate days
                  (fst (generateBars random2 symbol startDate 0%Z n
                          (int 100 + random2 k2 * int 200) data (k2 + 1)%nat))
                  (k1 + (1 + 5 * n))%nat).
  { cbn [generateSymbols]. unfold bind at 1, Math_random. rewrite E0.
    replace (S k1) with (k1 + 1)%nat by lia. unfold bind. fold n. rewrite E1.
    f_equal. lia. }
  assert (R : generateSymbols random2 (symbol :: symbols) startDate days data k2
              = generateSymbols random2 symbols startDate days
                  (fst (generateBars random2 symbol startDate 0%Z n
                          (int 100 + random2 k2 * int 200) data (k2 + 1)%nat))
                  (k2 + (1 + 5 * n))%nat).
  { cbn [generateSymbols]. unfold bind at 1, Math_random.
    replace (S k2) with (k2 + 1)%nat by lia. unfold bind. fold n.
    destruct (generateBars random2 symbol startDate 0%Z n
                (int 100 + random2 k2 * int 200) data (k2 + 1)%nat) as [d k2'] eqn:E.
    cbn [fst snd] in *. subst k2'. f_equal. lia. }
  rewrite L, R. apply IH. exact Hrest.
Qed.

(** C2, as the code has it.  For any number instance: two invocations with
    the same parameters, during which [Math.random] returns the same values
    ([draws] of them: one per symbol for the starting price and five per
    symbol and day), return the same result: the same trades, the same
    equity curve and the same metrics. *)
Theorem same_draws_same_result (random1 random2 : nat -> N)
    (parameters : BacktestParameters.t N) (k1 k2 : nat) :
  agree random1 random2 k1 k2
    (draws (BacktestParameters.symbols parameters)
       (BacktestParameters.startDate parameters)
       (BacktestParameters.endDate parameters)) ->
  fst (runBacktest random1 parameters k1) = fst (runBacktest random2 parameters k2).
Proof.
  intro Ha. rewrite !runBacktest_unfold. cbn [fst]. f_equal.
  unfold generateHistoricalData. apply generateSymbols_agree. exact Ha.
Qed.

(** Two invocations one after the other, on the same [Math.random]. *)
Definition runTwice (random : nat -> N) (parameters : BacktestParameters.t N)
  : M (outcome (BacktestResult.t N) * outcome (BacktestResult.t N)) :=
  bind (runBacktest random parameters) (fun first =>
  bind (runBacktest random parameters) (fun second =>
  ret (first, second))).

Lemma runTwice_unfold (random : nat -> N) parameters k :
  fst (runTwice random parameters k)
  = (fst (runBacktest random parameters k),
     fst (runBacktest random parameters
            (snd (generateHistoricalData random
                    (BacktestParameters.symbols parameters)
                    (BacktestParameters.startDate parameters)
                    (BacktestParameters.endDate parameters) k)))).
Proof.
  unfold runTwice, bind, ret.
  rewrite (runBacktest_unfold random parameters k).
  destruct (runBacktest random parameters _). reflexivity.
Qed.

End Determinism.

Section Reproducibility.
Import Binary64 BacktestingEngine.
Local Open Scope js_scope.

(** A [Math.random] whose first 156 values, those of one run over
    [dipParameters], are [dipRandom]'s, and which returns 0.5 from then on. *)
Definition dipThenCalm (k : nat) : float :=
  if (k <? 156)%nat then dipRandom k else lit 0.5.

Definition firstCurve : list (EquityPoint.t float) :=
  equityCurve
    (simulate dipParameters
       (fst (generateHistoricalData dipThenCalm
               (BacktestParameters.symbols dipParameters)
               (BacktestParameters.startDate dipParameters)
               (BacktestParameters.endDate dipParameters) 0%nat))).

Definition secondCurve : list (EquityPoint.t float) :=
  equityCurve
    (simulate dipParameters
       (fst (generateHistoricalData dipThenCalm
               (BacktestParameters.symbols dipParameters)
               (BacktestParameters.startDate dipParameters)
               (BacktestParameters.endDate dipParameters) 156%nat))).

(** The equity of the 24th point of a curve is the initial 100000. *)
Definition untouchedOnDay23 (curve : list (EquityPoint.t float)) : bool :=
  match nth_error curve 23 with
  | Some pt => EquityPoint.equity pt === int 100000
  | None => false
  end.

(** Two invocations with [dipParameters], one after the other: the first
    draws the dip and buys on day 22, the second draws a steady rise and
    never trades; the equity curves differ on day 23. *)
Lemma identical_parameters_different_results :
  (forall M : JSMath float,
      exists first second,
        fst (runTwice dipThenCalm dipParameters 0%nat)
        = (Returns first, Returns second)
        /\ BacktestResult.equityCurve first = firstCurve
        /\ BacktestResult.equityCurve second = secondCurve)
  /\ firstCurve <> secondCurve.
Proof.
  split.
  - intro M. rewrite runTwice_unfold.
    replace (snd (generateHistoricalData dipThenCalm
                    (BacktestParameters.symbols dipParameters)
                    (BacktestParameters.startDate dipParameters)
                    (BacktestParameters.endDate dipParameters) 0%nat))
      with 156%nat by (vm_compute; reflexivity).
    destruct (runBacktest_equityCurve dipThenCalm dipParameters 0%nat)
      as (first & E1 & C1).
    destruct (runBacktest_equityCurve dipThenCalm dipParameters 156%nat)
      as (second & E2 & C2).
    exists first, second. rewrite E1, E2. auto.
  - intro E. apply (f_equal untouchedOnDay23) in E.
    vm_compute in E. discriminate.
Qed.

(** [dipRandom] and [dipThenCalm] agree on the 156 values a run over
    [dipParameters] draws, and differ afterwards. *)
Lemma same_draws_same_result_witness :
  agree dipRandom dipThenCalm 0 0
    (draws (BacktestParameters.symbols dipParameters)
       (BacktestParameters.startDate dipParameters)
       (BacktestParameters.endDate dipParameters))
  /\ forall M : JSMath float,
       fst (runBacktest dipRandom dipParameters 0%nat)
       = fst (runBacktest dipThenCalm dipParameters 0%nat).
Proof.
  assert (Ha : agree dipRandom dipThenCalm 0 0
                 (draws (BacktestParameters.symbols dipParameters)
                    (BacktestParameters.startDate dipParameters)
                    (BacktestParameters.endDate dipParameters))).
  { intros i Hi. change (i < 156)%nat in Hi. unfold dipThenCalm. cbn [Nat.add].
    destruct (Nat.ltb_spec i 156); [reflexivity|lia]. }
  split; [exact Ha|].
  intro M.
  exact (@same_draws_same_result float _ M dipRandom dipThenCalm dipParameters
           0%nat 0%nat Ha).
Defined.

End Reproducibility.


(* ================================================================== *)
(** * The cap on combinations (C3) *)
(* ================================================================== *)

(** ** The handler and the optimization loop (any number instance) *)

Section OptimizerFacts.
Context {N : Type} `{JSNumber N} `{JSMath N}.
Local Open Scope js_scope.
Import BacktestingEngine OptimizeRoute.

(** The request passed every check of the handler before the optimization. *)
Definition accepted (user : string) (strategy : IStrategy.t N)
    (body : OptimizeRequest.t N) : Prop :=
  optimizeSchema body = true
  /\ String.eqb (IStrategy.userId strategy) user = true
  /\ (totalCombinations (OptimizeRequest.parameterRanges body) >? int 100) = false
  /\ (OptimizeRequest.startDate body >=? OptimizeRequest.endDate body)%Z = false
  /\ ((int (OptimizeRequest.endDate body) - int (OptimizeRequest.startDate body))
      / int (1000 * 60 * 60 * 24) >? int 730) = false
  /\ ((int (OptimizeRequest.endDate body) - int (OptimizeRequest.startDate body))
      / int (1000 * 60 * 60 * 24) <? int 60) = false.

Lemma POST_accepted (random : nat -> N) fuel user strategy body k :
  accepted user strategy body ->
  POST random fuel (Some user) (Some strategy) body k
  = (respond
       (or_default (OptimizeRequest.optimizationMetric body)
          OptimizationMetric.sharpeRatio)
       (fst (optimizeStrategy random fuel strategy
               (OptimizeRequest.parameterRanges body) (backtestParamsOf body) k)),
     snd (optimizeStrategy random fuel strategy
            (OptimizeRequest.parameterRanges body) (backtestParamsOf body) k)).
Proof.
  intros (Hschema & Huser & Htotal & Hdates & Hmax & Hmin).
  unfold POST. rewrite Hschema, Huser, Htotal, Hdates, Hmax, Hmin. cbn [negb].
  unfold bind, ret. destruct (optimizeStrategy _ _ _ _ _ _). reflexivity.
Qed.

(** The loop runs every combination it is given: it returns, with one more
    result per combination and, once a combination was run, a best one. *)
Lemma optimizeLoop_returns (random : nat -> N) baseStrategy backtestParams
    parameterCombinations :
  forall acc k,
  exists acc' k',
    optimizeLoop random baseStrategy backtestParams parameterCombinations acc k
    = (Returns acc', k')
    /\ List.length (Optimization.optimizationResults acc')
       = (List.length (Optimization.optimizationResults acc)
          + List.length parameterCombinations)%nat
    /\ (Optimization.bestMetrics acc <> None \/ parameterCombinations <> [] ->
        Optimization.bestMetrics acc' <> None).
Proof.
  induction parameterCombinations as [|params rest IH]; intros acc k.
  - exists acc, k. cbn. unfold ret. split; [reflexivity|]. split; [lia|].
    intros [Hb|Hne]; [exact Hb|contradiction].
  - cbn [optimizeLoop]. unfold bind.
    destruct (runBacktest_returns random
                (withStrategy backtestParams (testStrategyOf baseStrategy params)) k)
      as (result & Hrun).
    destruct (runBacktest random _ k) as [r k1] eqn:E. cbn [fst] in Hrun. subst r.
    match goal with |- context [optimizeLoop _ _ _ rest ?a k1] =>
      destruct (IH a k1) as (acc' & k' & Hloop & Hlen & Hbest) end.
    exists acc', k'. split; [exact Hloop|]. split.
    + rewrite Hlen. destruct (isBetter _ _); cbn [Optimization.optimizationResults];
        rewrite push_length; cbn [List.length]; lia.
    + intros _. apply Hbest. left.
      destruct (isBetter (BacktestResult.metrics result) (Optimization.bestMetrics acc))
        eqn:Eb; cbn [Optimization.bestMetrics]; [discriminate|].
      destruct (Optimization.bestMetrics acc); [discriminate|discriminate].
Qed.
End OptimizerFacts.

(** ** A grid that passes the cap with 112 combinations *)

Section CombinationCap.
Import Binary64 BacktestingEngine OptimizeRoute.
Local Open Scope js_scope.

(** [{ threshold: { min: 0, max: 0.7, step: 0.1 },
       period: { min: 1, max: 14, step: 1 } }] *)
Definition gridRanges : list (string * Range.t float) :=
  [("threshold"%string,
    {| Range.min := int 0; Range.max := lit 0.7; Range.step := lit 0.1 |});
   ("period"%string,
    {| Range.min := int 1; Range.max := int 14; Range.step := int 1 |})].

(** An optimization over sixty days of one symbol, every optional field
    left out. *)
Definition gridBody : OptimizeRequest.t float :=
  {| OptimizeRequest.strategyId := "strategy-1";
     OptimizeRequest.startDate := 0;
     OptimizeRequest.endDate := 60 * 86400000;
     OptimizeRequest.initialCapital := int 100000;
     OptimizeRequest.symbols := ["AAPL"%string];
     OptimizeRequest.commission := None;
     OptimizeRequest.slippage := None;
     OptimizeRequest.maxPositions := None;
     OptimizeRequest.parameterRanges := gridRanges;
     OptimizeRequest.optimizationMetric := None |}.

Lemma gridBody_accepted : accepted "user-1" sampleStrategy gridBody.
Proof. repeat split; vm_compute; reflexivity. Qed.

(** C3 at this request, on binary64, for every [Math.random] and every
    implementation of [Math.sqrt] and [Math.pow].  For [threshold] the
    handler counts [floor ((0.7 - 0) / 0.1) + 1 = 7] steps, the quotient
    being 6.999999999999999, while the loop of
    [generateParameterCombinations] visits 8 values, the sum reaching 0.7 on
    its eighth turn.  The handler's product is therefore 98, the request
    passes the cap of 100, and 112 combinations are backtested. *)
Theorem cap_check_undercounts (M : JSMath float) (random : nat -> float) :
  totalCombinations (firstn 1 gridRanges) = 7%float
  /\ (exists combinations,
         generateParameterCombinations 1000 (firstn 1 gridRanges) = Returns combinations
         /\ List.length combinations = 8%nat)
  /\ totalCombinations gridRanges = 98%float
  /\ (exists combinations,
         generateParameterCombinations 1000 gridRanges = Returns combinations
         /\ List.length combinations = 112%nat)
  /\ (exists data,
         fst (POST random 1000 (Some "user-1"%string) (Some sampleStrategy) gridBody 0%nat)
         = Returns (Success data)
         /\ OptimizeData.totalCombinationsTested data = 112%float).
Proof.
  split; [vm_compute; reflexivity|].
  split; [eexists; split; [vm_compute; reflexivity|reflexivity]|].
  split; [vm_compute; reflexivity|].
  assert (Hgen : exists combinations,
             generateParameterCombinations 1000 gridRanges = Returns combinations
             /\ List.length combinations = 112%nat).
  { eexists. split; [vm_compute; reflexivity|]. reflexivity. }
  split; [exact Hgen|].
  destruct Hgen as (combinations & Hgen & Hlen).
  rewrite (POST_accepted random 1000 0%nat gridBody_accepted). cbn [fst].
  unfold optimizeStrategy.
  change (OptimizeRequest.parameterRanges gridBody) with gridRanges.
  rewrite Hgen.
  match goal with |- context [optimizeLoop random ?b ?c combinations ?a 0%nat] =>
    destruct (optimizeLoop_returns random b c combinations a 0%nat)
      as (acc' & k' & Hloop & Hres & Hbest) end.
  rewrite Hloop. cbn [fst]. unfold respond.
  destruct (Optimization.bestMetrics acc') as [best|] eqn:Eb.
  - eexists. split; [reflexivity|]. cbn [OptimizeData.totalCombinationsTested].
    unfold len, sortResults. rewrite sort_length, Hres, Hlen. vm_compute. reflexivity.
  - exfalso. apply Hbest; [|reflexivity]. right. intro E. rewrite E in Hlen. discriminate.
Qed.
End CombinationCap.

(* ================================================================== *)
(** * The ranking and the best combination (C4) *)
(* ================================================================== *)

(** ** One turn of the optimization loop (any number instance) *)

Section OptimizerSteps.
Context {N : Type} `{JSNumber N} `{JSMath N}.
Local Open Scope js_scope.
Import BacktestingEngine OptimizeRoute.

(** [acc] after one more combination was run. *)
Definition recorded (acc : Optimization.t N) (params : list (string * N))
    (testStrategy : IStrategy.t N) (metrics : BacktestMetrics.t N) : Optimization.t N :=
  let optimizationResults :=
    push (Optimization.optimizationResults acc)
      {| OptimizationEntry.parameters := params;
         OptimizationEntry.metrics := metrics |} in
  if isBetter metrics (Optimization.bestMetrics acc)
  then {| Optimization.bestStrategy := testStrategy;
          Optimization.bestMetrics := Some metrics;
          Optimization.optimizationResults := optimizationResults |}
  else {| Optimization.bestStrategy := Optimization.bestStrategy acc;
          Optimization.bestMetrics := Optimization.bestMetrics acc;
          Optimization.optimizationResults := optimizationResults |}.

(** A run whose forced close returned, field by field. *)
Lemma runBacktestOn_closed parameters historicalData closed :
  closeRemaining parameters historicalData
    (positions (simulate parameters historicalData)) = Returns closed ->
  runBacktestOn parameters historicalData
  = Returns
      {| BacktestResult.strategy := BacktestParameters.strategy parameters;
         BacktestResult.parameters := parameters;
         BacktestResult.metrics :=
           calculateMetrics (trades (simulate parameters historicalData) ++ closed)
             (equityCurve (simulate parameters historicalData)) parameters;
         BacktestResult.trades := trades (simulate parameters historicalData) ++ closed;
         BacktestResult.equityCurve := equityCurve (simulate parameters historicalData) |}.
Proof. intro Hc. unfold runBacktestOn. rewrite Hc. reflexivity. Qed.

(** One turn of the loop, from the data drawn and the forced close. *)
Lemma optimizeLoop_step (random : nat -> N) baseStrategy backtestParams params rest
    acc k parameters historicalData k' closed :
  parameters = withStrategy backtestParams (testStrategyOf baseStrategy params) ->
  generateHistoricalData random (BacktestParameters.symbols parameters)
    (BacktestParameters.startDate parameters) (BacktestParameters.endDate parameters) k
  = (historicalData, k') ->
  closeRemaining parameters historicalData
    (positions (simulate parameters historicalData)) = Returns closed ->
  optimizeLoop random baseStrategy backtestParams (params :: rest) acc k
  = optimizeLoop random baseStrategy backtestParams rest
      (recorded acc params (testStrategyOf baseStrategy params)
         (calculateMetrics (trades (simulate parameters historicalData) ++ closed)
            (equityCurve (simulate parameters historicalData)) parameters))
      k'.
Proof.
  intros Hparameters Hgen Hclosed. cbn [optimizeLoop]. unfold bind at 1.
  rewrite <- Hparameters.
  rewrite (runBacktest_unfold random parameters k), Hgen. cbn [fst snd].
  rewrite (runBacktestOn_closed _ _ Hclosed). cbn [BacktestResult.metrics].
  unfold recorded. destruct (isBetter _ _); reflexivity.
Qed.
End OptimizerSteps.

(** ** The sign of a quotient and a product on binary64 *)

Section FloatSign.
(** A float that is not above zero: [NaN], a zero, or negative. *)
Definition notAboveZero (x : spec_float) : Prop :=
  match x with
  | S754_nan | S754_zero _ => True
  | S754_infinity s | S754_finite s _ _ => s = true
  end.

Definition aboveZero (x : spec_float) : Prop :=
  match x with
  | S754_infinity s | S754_finite s _ _ => s = false
  | _ => False
  end.

Definition belowZero (x : spec_float) : Prop :=
  match x with
  | S754_infinity s | S754_finite s _ _ => s = true
  | _ => False
  end.

Lemma binary_round_aux_sign (s : bool) (m e : Z) (l : location) :
  match binary_round_aux prec emax s m e l with
  | S754_zero s' | S754_infinity s' | S754_finite s' _ _ => s' = s
  | S754_nan => True
  end.
Proof.
  unfold binary_round_aux.
  destruct (shr_fexp prec emax m e l) as [mrs' e'].
  destruct (shr_fexp prec emax _ e' loc_Exact) as [mrs'' e''].
  destruct (shr_m mrs''); [reflexivity| |exact I].
  destruct (e'' <=? emax - prec)%Z; reflexivity.
Qed.

Lemma SFltb_aboveZero x : SFltb (S754_zero false) x = true -> aboveZero x.
Proof. destruct x as [s|s| |s m e]; try destruct s; cbn; congruence. Qed.

Lemma SFltb_belowZero x : SFltb x (S754_zero false) = true -> belowZero x.
Proof. destruct x as [s|s| |s m e]; try destruct s; cbn; congruence. Qed.

Lemma notAboveZero_SFltb x : notAboveZero x -> SFltb (S754_zero false) x = false.
Proof. destruct x as [s|s| |s m e]; cbn; intro Hs; subst; reflexivity. Qed.

Lemma SF64div_sign x y : belowZero x -> aboveZero y -> notAboveZero (SF64div x y).
Proof.
  destruct x as [sx|sx| |sx mx ex]; cbn; try contradiction; intro; subst sx;
    destruct y as [sy|sy| |sy my ey]; cbn; try contradiction; intro; subst sy;
    try reflexivity; try exact I.
  unfold SF64div, SFdiv.
  destruct (SFdiv_core_binary prec emax (Z.pos mx) ex (Z.pos my) ey) as [[mz ez] lz].
  cbn [xorb].
  pose proof (binary_round_aux_sign true mz ez lz) as Hs.
  destruct (binary_round_aux prec emax true mz ez lz); cbn in *; auto.
Qed.

Lemma SF64mul_sign x y : notAboveZero x -> aboveZero y -> notAboveZero (SF64mul x y).
Proof.
  destruct x as [sx|sx| |sx mx ex]; cbn; try contradiction; intro Hx; try subst sx;
    destruct y as [sy|sy| |sy my ey]; cbn; try contradiction; intro; subst sy;
    try reflexivity; try exact I.
  unfold SF64mul, SFmul.
  cbn [xorb].
  pose proof (binary_round_aux_sign true (Z.pos (mx * my)) (ex + ey) loc_Exact) as Hs.
  destruct (binary_round_aux prec emax true _ _ _); cbn in *; auto.
Qed.

Open Scope float_scope.
Lemma float_negative_ratio (e v c : float) :
  (e <? 0) = true -> (0 <? c) = true -> (0 <? v) = true ->
  (0 <? (e / v) * c) = false.
Proof.
  rewrite !ltb_spec, mul_spec, div_spec.
  change (Prim2SF 0) with (S754_zero false).
  intros He Hc Hv.
  apply notAboveZero_SFltb. apply SF64mul_sign; [|apply SFltb_aboveZero; exact Hc].
  apply SF64div_sign; [apply SFltb_belowZero; exact He | apply SFltb_aboveZero; exact Hv].
Qed.
End FloatSign.

(** ** An optimization by total return whose best is not the top-ranked *)

Section RankingCounterexample.
Import Binary64 BacktestingEngine OptimizeRoute.
Local Open Scope js_scope.

(** [{ lookback: { min: 10, max: 20, step: 10 } }]: two combinations. *)
Definition rankingRanges : list (string * Range.t float) :=
  [("lookback"%string,
    {| Range.min := int 10; Range.max := int 20; Range.step := int 10 |})].

(** An optimization by total return over sixty days of one symbol. *)
Definition rankingBody : OptimizeRequest.t float :=
  {| OptimizeRequest.strategyId := "strategy-1";
     OptimizeRequest.startDate := 0;
     OptimizeRequest.endDate := 60 * 86400000;
     OptimizeRequest.initialCapital := int 100000;
     OptimizeRequest.symbols := ["AAPL"%string];
     OptimizeRequest.commission := None;
     OptimizeRequest.slippage := None;
     OptimizeRequest.maxPositions := None;
     OptimizeRequest.parameterRanges := rankingRanges;
     OptimizeRequest.optimizationMetric := Some OptimizationMetric.totalReturn |}.

(** A [Math.random] that returns 0.5 for the 306 draws of the first run, a
    steady rise, and [dipRandom] for the second. *)
Definition calmThenDip (k : nat) : float :=
  if (k <? 306)%nat then lit 0.5 else dipRandom (k - 306).

Definition firstParameters : BacktestParameters.t float :=
  withStrategy (backtestParamsOf rankingBody)
    (testStrategyOf sampleStrategy [("lookback"%string, int 10)]).

Definition secondParameters : BacktestParameters.t float :=
  withStrategy (backtestParamsOf rankingBody)
    (testStrategyOf sampleStrategy [("lookback"%string, int 20)]).

Definition firstData : list (BacktestData.t float) :=
  Eval vm_compute in
    fst (generateHistoricalData calmThenDip ["AAPL"%string] 0 (60 * 86400000) 0%nat).

Definition secondData : list (BacktestData.t float) :=
  Eval vm_compute in
    fst (generateHistoricalData calmThenDip ["AAPL"%string] 0 (60 * 86400000) 306%nat).

Definition secondClosed : list (BacktestTrade.t float) :=
  Eval vm_compute in
    match closeRemaining secondParameters secondData
            (positions (simulate secondParameters secondData)) with
    | Returns closed => closed
    | _ => []
    end.

Definition secondCurveEnd : option (EquityPoint.t float) :=
  Eval vm_compute in hd_error (rev (equityCurve (simulate secondParameters secondData))).

Lemma rankingBody_accepted : accepted "user-1" sampleStrategy rankingBody.
Proof. repeat split; vm_compute; reflexivity. Qed.

Lemma first_generated :
  generateHistoricalData calmThenDip
    (BacktestParameters.symbols firstParameters)
    (BacktestParameters.startDate firstParameters)
    (BacktestParameters.endDate firstParameters) 0%nat
  = (firstData, 306%nat).
Proof. vm_compute. reflexivity. Qed.

Lemma second_generated :
  generateHistoricalData calmThenDip
    (BacktestParameters.symbols secondParameters)
    (BacktestParameters.startDate secondParameters)
    (BacktestParameters.endDate secondParameters) 306%nat
  = (secondData, 612%nat).
Proof. vm_compute. reflexivity. Qed.

Lemma first_closed :
  closeRemaining firstParameters firstData
    (positions (simulate firstParameters firstData)) = Returns [].
Proof. vm_compute. reflexivity. Qed.

Lemma second_closed :
  closeRemaining secondParameters secondData
    (positions (simulate secondParameters secondData)) = Returns secondClosed.
Proof. vm_compute. reflexivity. Qed.

Lemma first_trades : trades (simulate firstParameters firstData) ++ [] = [].
Proof. vm_compute. reflexivity. Qed.

Lemma second_trades :
  trades (simulate secondParameters secondData) ++ secondClosed = secondClosed.
Proof. vm_compute. reflexivity. Qed.

Definition secondTotalReturn : float :=
  Eval vm_compute in
    match secondCurveEnd with
    | Some point => EquityPoint.equity point - int 100000
    | None => int 0
    end.

Lemma second_curve_end :
  hd_error (rev (equityCurve (simulate secondParameters secondData))) = secondCurveEnd.
Proof. vm_compute. reflexivity. Qed.

(** The metrics of the second run. *)
Definition secondMetrics (M : JSMath float) : BacktestMetrics.t float :=
  calculateMetrics secondClosed (equityCurve (simulate secondParameters secondData))
    secondParameters.

Lemma second_curve_not_nil : equityCurve (simulate secondParameters secondData) <> [].
Proof.
  intro E. pose proof second_curve_end as Hend. rewrite E in Hend. discriminate.
Qed.

(** Its Sharpe ratio is not above 0, whatever [Math.pow] is: the mean daily
    return is below the daily risk-free rate. *)
Lemma second_sharpe_not_positive (pow : float -> float -> float) :
  (BacktestMetrics.sharpeRatio (secondMetrics (float_math pow)) >? int 0) = false.
Proof.
  unfold secondMetrics. unfold secondClosed at 1.
  rewrite calculateMetrics_sharpeRatio by exact second_curve_not_nil. cbv zeta.
  assert (He : (excessReturnOf
                  (dailyReturnsOf (equityCurve (simulate secondParameters secondData)))
                <? int 0) = true) by (vm_compute; reflexivity).
  assert (Hc : (@Math_sqrt float (float_math pow) (int 365) >? int 0) = true)
    by (vm_compute; reflexivity).
  revert He Hc.
  generalize (excessReturnOf
                (dailyReturnsOf (equityCurve (simulate secondParameters secondData)))).
  generalize (@Math_sqrt float (float_math pow) (int 365)).
  generalize (@calculateVolatility float _ (float_math pow)
                (dailyReturnsOf (equityCurve (simulate secondParameters secondData)))).
  intros v c e He Hc.
  destruct (v >? int 0) eqn:Ev; [|reflexivity].
  exact (float_negative_ratio He Hc Ev).
Qed.

Lemma second_totalReturn (M : JSMath float) :
  BacktestMetrics.totalReturn (secondMetrics M) = secondTotalReturn.
Proof.
  unfold secondMetrics. unfold secondClosed at 1.
  erewrite calculateMetrics_totalReturn by exact second_curve_end.
  vm_compute. reflexivity.
Qed.

Local Opaque generateHistoricalData simulate closeRemaining calculateMetrics
  firstData secondData secondClosed firstParameters secondParameters.

(** [optimizeStrategy] on this request: the first combination never trades and
    stays the best, its Sharpe ratio of 0 not being exceeded. *)
Lemma ranking_optimized (pow : float -> float -> float) :
  @optimizeStrategy float _ calmThenDip (float_math pow) 100 sampleStrategy
    rankingRanges (backtestParamsOf rankingBody) 0%nat
  = (Returns
       {| Optimization.bestStrategy :=
            testStrategyOf sampleStrategy [("lookback"%string, int 10)];
          Optimization.bestMetrics := Some (@getEmptyMetrics float _);
          Optimization.optimizationResults :=
            [{| OptimizationEntry.parameters := [("lookback"%string, int 10)];
                OptimizationEntry.metrics := @getEmptyMetrics float _ |};
             {| OptimizationEntry.parameters := [("lookback"%string, int 20)];
                OptimizationEntry.metrics := secondMetrics (float_math pow) |}] |},
     612%nat).
Proof.
  set (M := float_math pow).
  unfold optimizeStrategy.
  replace (generateParameterCombinations 100 rankingRanges)
    with (Returns [[("lookback"%string, int 10 : float)]; [("lookback"%string, int 20)]])
    by (vm_compute; reflexivity).
  rewrite (@optimizeLoop_step float _ M calmThenDip sampleStrategy
             (backtestParamsOf rankingBody) [("lookback"%string, int 10 : float)] _ _
             0%nat firstParameters firstData 306%nat [] eq_refl
             first_generated first_closed).
  rewrite first_trades, calculateMetrics_empty.
  rewrite (@optimizeLoop_step float _ M calmThenDip sampleStrategy
             (backtestParamsOf rankingBody) [("lookback"%string, int 20 : float)] _ _
             306%nat secondParameters secondData 612%nat secondClosed eq_refl
             second_generated second_closed).
  rewrite second_trades. fold (secondMetrics M).
  cbn [optimizeLoop]. unfold ret.
  unfold recorded at 2. cbn [isBetter Optimization.bestMetrics].
  unfold recorded. cbn [isBetter Optimization.bestMetrics Optimization.optimizationResults
                         Optimization.bestStrategy].
  change (BacktestMetrics.sharpeRatio getEmptyMetrics) with (int 0 : float).
  subst M. rewrite (second_sharpe_not_positive pow).
  reflexivity.
Qed.


End RankingCounterexample.

(** ** What the loop records (any number instance) *)

Section RankedResults.
Context {N : Type} `{JSNumber N} `{JSMath N}.
Local Open Scope js_scope.
Import BacktestingEngine OptimizeRoute.

Variable random : nat -> N.

(** The enumerated combinations, each backtested in turn: the entries in the
    order of the enumeration, [Math.random] being read on from draw [k]. *)
Fixpoint backtested (baseStrategy : IStrategy.t N) (backtestParams : BacktestConfig.t N)
    (parameterCombinations : list (list (string * N))) (k : nat)
  : list (OptimizationEntry.t N) :=
  match parameterCombinations with
  | [] => []
  | params :: rest =>
      let run :=
        runBacktest random
          (withStrategy backtestParams (testStrategyOf baseStrategy params)) k in
      match fst run with
      | Returns result =>
          {| OptimizationEntry.parameters := params;
             OptimizationEntry.metrics := BacktestResult.metrics result |}
          :: backtested baseStrategy backtestParams rest (snd run)
      | _ => []
      end
  end.

Lemma backtested_parameters baseStrategy backtestParams parameterCombinations :
  forall k,
    map (fun entry => OptimizationEntry.parameters entry)
      (backtested baseStrategy backtestParams parameterCombinations k)
    = parameterCombinations.
Proof.
  induction parameterCombinations as [|params rest IH]; intro k; [reflexivity|].
  cbn [backtested].
  destruct (runBacktest_returns random
              (withStrategy backtestParams (testStrategyOf baseStrategy params)) k)
    as (result & Hrun).
  rewrite Hrun. cbn [map OptimizationEntry.parameters]. rewrite IH. reflexivity.
Qed.

(** The loop returns; its results are those it started from followed by the
    backtested combinations, and whatever [recorded] preserves holds of what
    it returns. *)
Lemma optimizeLoop_recorded (Inv : Optimization.t N -> Prop) baseStrategy backtestParams :
  (forall acc params metrics,
      Inv acc -> Inv (recorded acc params (testStrategyOf baseStrategy params) metrics)) ->
  forall parameterCombinations acc k,
    Inv acc ->
    exists acc' k',
      optimizeLoop random baseStrategy backtestParams parameterCombinations acc k
      = (Returns acc', k')
      /\ Inv acc'
      /\ Optimization.optimizationResults acc'
         = (Optimization.optimizationResults acc
            ++ backtested baseStrategy backtestParams parameterCombinations k)%list.
Proof.
  intros Hstep.
  induction parameterCombinations as [|params rest IH]; intros acc k Hacc.
  - exists acc, k. cbn. unfold ret. rewrite app_nil_r. auto.
  - cbn [optimizeLoop backtested]. unfold bind.
    destruct (runBacktest_returns random
                (withStrategy backtestParams (testStrategyOf baseStrategy params)) k)
      as (result & Hrun).
    destruct (runBacktest random _ k) as [r k1] eqn:E. cbn [fst snd] in *. subst r.
    destruct (IH (recorded acc params (testStrategyOf baseStrategy params)
                    (BacktestResult.metrics result)) k1
                (Hstep _ _ _ Hacc))
      as (acc' & k' & Hloop & Hinv & Hres).
    exists acc', k'. split; [|split; [exact Hinv|]].
    + rewrite <- Hloop. unfold recorded.
      destruct (isBetter _ _); reflexivity.
    + rewrite Hres. unfold recorded, push.
      destruct (isBetter _ _); cbn [Optimization.optimizationResults];
        rewrite <- app_assoc; reflexivity.
Qed.

(** [xs.slice(0, 20)] *)
Lemma slice_0_20 {A : Type} (xs : list A) : slice xs 0 20 = firstn 20 xs.
Proof.
  unfold slice, slice_index. cbn [Z.ltb Z.compare skipn].
  rewrite (Z.min_l 0) by lia. cbn [Z.to_nat skipn]. rewrite Nat.sub_0_r.
  destruct (Z.min_spec 20 (Z.of_nat (List.length xs))) as [[Hlt E]|[Hle E]]; rewrite E.
  - reflexivity.
  - rewrite Nat2Z.id. rewrite firstn_all. symmetry. apply firstn_all2. lia.
Qed.

End RankedResults.

(** ** Order on exact numbers *)

Section ExactOrder.
Import Exact.
Local Open Scope js_scope.

(** [x - y > 0] is [y < x], infinities and [NaN] included. *)
Lemma sub_positive (x y : number) : (x - y >? int 0) = (y <? x).
Proof.
  destruct x as [x| | |], y as [y| | |]; try reflexivity.
  cbn. change (inject_Z 0) with 0%Q. f_equal. destruct (Qle_bool x y) eqn:E.
  - apply Qle_bool_iff in E. apply Qle_bool_iff. lra.
  - destruct (Qle_bool (x + - y) 0) eqn:E'; [|reflexivity].
    apply Qle_bool_iff in E'. assert (Hxy : (x <= y)%Q) by lra.
    apply Qle_bool_iff in Hxy. congruence.
Qed.

Lemma ltb_irrefl (x : number) : (x <? x) = false.
Proof.
  destruct x as [x| | |]; try reflexivity.
  apply ltb_Fin_false. apply Qle_refl.
Qed.

(** Nothing is above [y] that is not above some [x] below [y]. *)
Lemma ltb_not_above (x y z : number) :
  (x <? y) = true -> (x <? z) = false -> (y <? z) = false.
Proof.
  destruct x as [x| | |], y as [y| | |], z as [z| | |];
    try reflexivity; try discriminate.
  intros Hxy Hxz. apply ltb_Fin_true in Hxy. apply ltb_Fin_false in Hxz.
  apply ltb_Fin_false. lra.
Qed.

End ExactOrder.

(** ** The ranking and the best combination, on exact numbers *)

Section RankingRules.
Import Exact BacktestingEngine OptimizeRoute.
Local Open Scope js_scope.

(** No later entry has more of the objective than an earlier one. *)
Definition descending (objective : OptimizationMetric.t)
    (a b : OptimizationEntry.t number) : Prop :=
  (metricOf objective (OptimizationEntry.metrics a)
   <? metricOf objective (OptimizationEntry.metrics b)) = false.

Definition byObjective (objective : OptimizationMetric.t)
    (a b : OptimizationEntry.t number) : number :=
  metricOf objective (OptimizationEntry.metrics b)
  - metricOf objective (OptimizationEntry.metrics a).

Lemma sort_insert_descending objective x sorted :
  StronglySorted (descending objective) sorted ->
  StronglySorted (descending objective) (sort_insert (byObjective objective) x sorted).
Proof.
  induction 1 as [|y rest Hrest IH Hy].
  - cbn. constructor; constructor.
  - cbn [sort_insert]. unfold byObjective at 1. rewrite sub_positive.
    destruct (_ <? _) eqn:E.
    + constructor; [constructor; assumption|].
      constructor.
      * unfold descending. destruct (metricOf objective (OptimizationEntry.metrics x) <? _) eqn:E'; [|reflexivity].
        exfalso. revert E E'.
        generalize (metricOf objective (OptimizationEntry.metrics x)),
                   (metricOf objective (OptimizationEntry.metrics y)).
        intros [a| | |] [b| | |]; try discriminate.
        intros Hab Hba. apply ltb_Fin_true in Hab, Hba. lra.
      * rewrite Forall_forall in *. intros z Hz. unfold descending.
        apply (@ltb_not_above _ _ _ E). apply Hy. exact Hz.
    + constructor; [exact IH|].
      rewrite Forall_forall in *. intros z Hz.
      apply (Permutation_in _ (sort_insert_perm (byObjective objective) x rest)) in Hz.
      destruct Hz as [<-|Hz]; [exact E|apply Hy; exact Hz].
Qed.

Lemma sortResults_descending objective results :
  StronglySorted (descending objective) (sortResults objective results).
Proof.
  unfold sortResults, sort.
  change (fun a b : OptimizationEntry.t number => _) with (byObjective objective).
  assert (Hgen : forall sorted,
             StronglySorted (descending objective) sorted ->
             StronglySorted (descending objective)
               (fold_left (fun sorted x => sort_insert (byObjective objective) x sorted)
                  results sorted)).
  { induction results as [|x rest IH]; intros sorted Hs; [exact Hs|].
    cbn [fold_left]. apply IH. apply sort_insert_descending. exact Hs. }
  apply Hgen. constructor.
Qed.

(** The best so far is one of the results so far, and none of them has a
    Sharpe ratio above its own. *)
Definition bestBySharpe (baseStrategy : IStrategy.t number)
    (acc : Optimization.t number) : Prop :=
  match Optimization.bestMetrics acc with
  | None => Optimization.optimizationResults acc = []
  | Some best =>
      (exists entry,
          In entry (Optimization.optimizationResults acc)
          /\ OptimizationEntry.metrics entry = best
          /\ Optimization.bestStrategy acc
             = testStrategyOf baseStrategy (OptimizationEntry.parameters entry))
      /\ forall entry,
           In entry (Optimization.optimizationResults acc) ->
           (BacktestMetrics.sharpeRatio best
            <? BacktestMetrics.sharpeRatio (OptimizationEntry.metrics entry)) = false
  end.

Lemma recorded_bestBySharpe baseStrategy acc params metrics :
  bestBySharpe baseStrategy acc ->
  bestBySharpe baseStrategy
    (recorded acc params (testStrategyOf baseStrategy params) metrics).
Proof.
  unfold bestBySharpe, recorded.
  destruct (Optimization.bestMetrics acc) as [best|]; cbn [isBetter].
  - intros ((entry & Hin & Hm & Hs) & Hmax).
    destruct (_ >? _) eqn:E;
      cbn [Optimization.bestMetrics Optimization.optimizationResults
           Optimization.bestStrategy].
    + split.
      * eexists. split; [apply In_push; right; reflexivity|]. split; reflexivity.
      * intros e He. apply In_push in He. destruct He as [He| ->].
        -- apply (@ltb_not_above _ _ _ E). apply Hmax. exact He.
        -- apply ltb_irrefl.
    + split.
      * exists entry. split; [apply In_push; left; exact Hin|]. split; assumption.
      * intros e He. apply In_push in He. destruct He as [He| ->].
        -- apply Hmax. exact He.
        -- exact E.
  - intros Hnil.
    cbn [Optimization.bestMetrics Optimization.optimizationResults
         Optimization.bestStrategy].
    rewrite Hnil. split.
    + eexists. split; [left; reflexivity|]. split; reflexivity.
    + intros e [<-|[]]. apply ltb_irrefl.
Qed.


Definition exactStrategy : IStrategy.t number :=
  {| IStrategy.strategyId := "strategy-1";
     IStrategy.userId := "user-1";
     IStrategy.parameters := [] |}.

(** The request of the counterexample, on exact numbers. *)
Definition exactBody : OptimizeRequest.t number :=
  {| OptimizeRequest.strategyId := "strategy-1";
     OptimizeRequest.startDate := 0;
     OptimizeRequest.endDate := 60 * 86400000;
     OptimizeRequest.initialCapital := Fin 100000;
     OptimizeRequest.symbols := ["AAPL"%string];
     OptimizeRequest.commission := None;
     OptimizeRequest.slippage := None;
     OptimizeRequest.maxPositions := None;
     OptimizeRequest.parameterRanges :=
       [("lookback"%string,
         {| Range.min := Fin 10; Range.max := Fin 20; Range.step := Fin 10 |})];
     OptimizeRequest.optimizationMetric := Some OptimizationMetric.totalReturn |}.


End RankingRules.

(* ================================================================== *)
(** * Further properties of the engine *)
(* ================================================================== *)

(** ** What the daily loop keeps (any number instance) *)

Section LoopInvariants.
Context {N : Type} `{JSNumber N}.
Local Open Scope js_scope.
Import BacktestingEngine.

(** Whatever holds before the first day and is kept by every day holds after
    the last. *)
Lemma simulate_invariant (P : LoopState -> Prop) parameters
    (historicalData : list (BacktestData.t N)) :
  P {| currentCapital := BacktestParameters.initialCapital parameters;
       positions := []; trades := []; equityCurve := [] |} ->
  (forall st dateStr,
      P st ->
      P (dayStep parameters historicalData (groupDataByDate historicalData) st dateStr)) ->
  P (simulate parameters historicalData).
Proof.
  intros Hinit Hstep. unfold simulate.
  generalize (sort_keys (map fst (groupDataByDate historicalData))) as dates.
  intro dates. revert Hinit.
  generalize {| currentCapital := BacktestParameters.initialCapital parameters;
                positions := []; trades := []; equityCurve := [] |} as st.
  induction dates as [|k dates IH]; intros st Hst; cbn [fold_left]; [exact Hst|].
  apply IH. apply Hstep. exact Hst.
Qed.

(** A position as [executeEntry] opens them: long, with a stop-loss and a
    take-profit. *)
Definition opened (pos : BacktestPosition.t N) : Prop :=
  BacktestPosition.side pos = LONG
  /\ BacktestPosition.stopLoss pos
     = Some (BacktestPosition.entryPrice pos * lit 0.95)
  /\ BacktestPosition.takeProfit pos
     = Some (BacktestPosition.entryPrice pos * lit 1.15).

(** A trade as the daily pass records them. *)
Definition stopped (parameters : BacktestParameters.t N) (t : BacktestTrade.t N) : Prop :=
  BacktestTrade.side t = LONG
  /\ (BacktestTrade.reason t = STOP_LOSS \/ BacktestTrade.reason t = TAKE_PROFIT)
  /\ BacktestTrade.commission t = BacktestParameters.commission parameters * int 2.

Lemma executeEntry_opened signal (data : BacktestData.t N) availableCapital parameters pos :
  executeEntry signal data availableCapital parameters = Some pos -> opened pos.
Proof.
  unfold executeEntry.
  destruct (_ <? int 1000); [discriminate|].
  destruct (_ >? availableCapital); [discriminate|].
  intro E. inversion E. repeat split.
Qed.

Lemma signalStep_opened parameters historicalData date st (symbolData : BacktestData.t N) :
  Forall opened (snd st) ->
  Forall opened (snd (signalStep parameters historicalData date st symbolData)).
Proof.
  intro Hall. destruct st as [capital positions]. unfold signalStep.
  destruct (_ && _); [|exact Hall].
  destruct (executeEntry _ _ _ _) as [pos|] eqn:E; [|exact Hall].
  cbn [snd] in *. unfold push. apply Forall_app. split; [exact Hall|].
  constructor; [|constructor]. eapply executeEntry_opened. exact E.
Qed.

Lemma signalSteps_opened parameters historicalData date (dayData : list (BacktestData.t N)) :
  forall st,
    Forall opened (snd st) ->
    Forall opened (snd (fold_left (signalStep parameters historicalData date) dayData st)).
Proof.
  induction dayData as [|d dayData IH]; intros st Hall; cbn [fold_left]; [exact Hall|].
  apply IH. apply signalStep_opened. exact Hall.
Qed.

Lemma exitDecision_reason (position : BacktestPosition.t N) symbolData reason exitPrice :
  exitDecision position symbolData = Some (reason, exitPrice) ->
  reason = STOP_LOSS \/ reason = TAKE_PROFIT.
Proof.
  unfold exitDecision, takeProfitHit.
  destruct (BacktestPosition.stopLoss position) as [stopLoss|];
    [destruct (truthy stopLoss && _); [intro E; inversion E; auto|]|];
    (destruct (BacktestPosition.takeProfit position) as [takeProfit|]; [|discriminate]);
    (destruct (truthy takeProfit && _); [intro E; inversion E; auto|discriminate]).
Qed.

Lemma processPosition_stopped dayData parameters acc (position : BacktestPosition.t N) :
  BacktestPosition.side position = LONG ->
  Forall (stopped parameters) (closedTrades acc) ->
  Forall (stopped parameters)
    (closedTrades (processPosition dayData parameters acc position)).
Proof.
  intros Hside Hall. unfold processPosition.
  destruct (find_symbol _ _) as [symbolData|]; [|exact Hall].
  destruct (exitDecision _ _) as [[reason price]|] eqn:E; [|exact Hall].
  cbn [closedTrades]. unfold push. apply Forall_app. split; [exact Hall|].
  constructor; [|constructor].
  split; [exact Hside|]. split; [|reflexivity].
  eapply exitDecision_reason. exact E.
Qed.

(** Every position is closed or kept, once. *)
Lemma processExistingPositions_count (positions : list (BacktestPosition.t N))
    dayData parameters :
  (List.length (closedTrades (processExistingPositions positions dayData parameters))
   + List.length (remainingPositions (processExistingPositions positions dayData parameters))
   = List.length positions)%nat.
Proof.
  unfold processExistingPositions.
  assert (G : forall acc,
             (List.length (closedTrades
                             (fold_left (processPosition dayData parameters) positions acc))
              + List.length (remainingPositions
                               (fold_left (processPosition dayData parameters) positions acc))
              = List.length (closedTrades acc) + List.length (remainingPositions acc)
                + List.length positions)%nat).
  { induction positions as [|p positions IH]; intro acc; cbn [fold_left List.length]; [lia|].
    rewrite IH. unfold processPosition.
    destruct (find_symbol _ _) as [symbolData|];
      [destruct (exitDecision _ _) as [[reason price]|]|];
      cbn [closedTrades remainingPositions]; rewrite ?push_length; lia. }
  rewrite G. cbn. lia.
Qed.

Lemma processExistingPositions_stopped (positions : list (BacktestPosition.t N))
    dayData parameters :
  Forall opened positions ->
  Forall (stopped parameters)
    (closedTrades (processExistingPositions positions dayData parameters)).
Proof.
  unfold processExistingPositions.
  assert (G : forall acc,
             Forall opened positions ->
             Forall (stopped parameters) (closedTrades acc) ->
             Forall (stopped parameters)
               (closedTrades (fold_left (processPosition dayData parameters) positions acc))).
  { induction positions as [|p positions IH]; intros acc Hall Hacc; cbn [fold_left];
      [exact Hacc|].
    inversion Hall as [|? ? Hp Hrest]; subst.
    apply IH; [exact Hrest|]. apply processPosition_stopped; [apply Hp|exact Hacc]. }
  intro Hall. apply G; [exact Hall|constructor].
Qed.

(** The state the loop keeps: every open position was opened by
    [executeEntry] and every trade was closed by a stop-loss or a
    take-profit. *)
Definition wellFormed (parameters : BacktestParameters.t N) (st : LoopState) : Prop :=
  Forall opened (positions st) /\ Forall (stopped parameters) (trades st).

Lemma dayStep_wellFormed parameters (historicalData : list (BacktestData.t N))
    dataByDate st dateStr :
  wellFormed parameters st ->
  wellFormed parameters (dayStep parameters historicalData dataByDate st dateStr).
Proof.
  intros [Hpos Htrades]. unfold dayStep.
  set (dayData := lookup_date dataByDate dateStr).
  set (processed := processExistingPositions (positions st) dayData parameters).
  pose proof (@signalSteps_opened parameters historicalData (Date_of_key dateStr) dayData
                (currentCapital st + capitalFromClosedTrades processed,
                 remainingPositions processed)) as K.
  destruct (fold_left _ dayData _) as [capital positions'] eqn:E.
  cbn [snd] in K. split; cbn [positions trades].
  - apply K. apply Forall_forall. intros p Hp.
    apply processExistingPositions_remaining in Hp.
    revert p Hp. apply Forall_forall. exact Hpos.
  - apply Forall_app. split; [exact Htrades|].
    apply processExistingPositions_stopped. exact Hpos.
Qed.

Lemma simulate_wellFormed parameters (historicalData : list (BacktestData.t N)) :
  wellFormed parameters (simulate parameters historicalData).
Proof.
  apply simulate_invariant.
  - split; constructor.
  - intros st dateStr. apply dayStep_wellFormed.
Qed.

End LoopInvariants.

Section NeverShort.
Context {N : Type} `{JSNumber N} `{JSMath N}.
Local Open Scope js_scope.
Import BacktestingEngine.

(** Every completed trade of a run is a long trade that left by its
    stop-loss, by its take-profit or at the end of the period, and was
    charged the commission twice: the engine opens no short position, and
    no signal closes a position, SELL signals included. *)
Theorem trades_long_never_signal_exit (random : nat -> N)
    (parameters : BacktestParameters.t N) (k : nat) :
  exists result,
    fst (runBacktest random parameters k) = Returns result
    /\ Forall
         (fun t =>
            BacktestTrade.side t = LONG
            /\ BacktestTrade.reason t <> SIGNAL_EXIT
            /\ BacktestTrade.commission t
               = BacktestParameters.commission parameters * int 2)
         (BacktestResult.trades result).
Proof.
  rewrite runBacktest_unfold. cbn [fst].
  set (historicalData := fst (generateHistoricalData random _ _ _ k)).
  destruct (runBacktestOn_returns parameters historicalData) as (closed & Hf2 & E).
  rewrite E. eexists. split; [reflexivity|]. cbn [BacktestResult.trades].
  destruct (simulate_wellFormed parameters historicalData) as [Hpos Htrades].
  apply Forall_app. split.
  - revert Htrades. apply Forall_impl.
    intros t (Hside & Hreason & Hcommission).
    split; [exact Hside|]. split; [|exact Hcommission].
    destruct Hreason as [E'|E']; rewrite E'; discriminate.
  - clear E Htrades. induction Hf2 as [|pos trade rest closed' Hclose Hf2 IH];
      [constructor|].
    apply Forall_cons_iff in Hpos. destruct Hpos as [Hp Hrest].
    constructor; [|apply IH; exact Hrest].
    destruct Hclose as (finalData & _ & ->). cbn.
    split; [apply Hp|]. split; [discriminate|reflexivity].
Qed.

End NeverShort.

(** ** The limit on open positions, on exact numbers *)

Section PositionLimit.
Import Exact BacktestingEngine.
Local Open Scope js_scope.

Definition isEndOfPeriod (t : BacktestTrade.t number) : bool :=
  match BacktestTrade.reason t with END_OF_PERIOD => true | _ => false end.

Lemma len_below (A : Type) (l : list A) (m : Z) :
  (len l <? Fin (inject_Z m)) = true -> (S (List.length l) <= Z.to_nat m)%nat.
Proof.
  unfold len. intro Hlt. apply ltb_Fin_true in Hlt. rewrite <- Zlt_Qlt in Hlt. lia.
Qed.

Lemma signalStep_limit parameters historicalData date st symbolData (m : Z) :
  BacktestParameters.maxPositions parameters = Fin (inject_Z m) ->
  (List.length (snd st) <= Z.to_nat m)%nat ->
  (List.length (snd (signalStep parameters historicalData date st symbolData))
   <= Z.to_nat m)%nat.
Proof.
  intros Hm Hlen. destruct st as [capital open]. unfold signalStep. rewrite Hm.
  destruct (SignalType_eqb _ BUY); cbn [andb]; [|exact Hlen].
  destruct (len open <? Fin (inject_Z m)) eqn:E; [|exact Hlen].
  destruct (executeEntry _ _ _ _); [|exact Hlen].
  cbn [snd]. rewrite push_length. apply len_below. exact E.
Qed.

Lemma signalSteps_limit parameters historicalData date dayData (m : Z) :
  BacktestParameters.maxPositions parameters = Fin (inject_Z m) ->
  forall st,
    (List.length (snd st) <= Z.to_nat m)%nat ->
    (List.length (snd (fold_left (signalStep parameters historicalData date) dayData st))
     <= Z.to_nat m)%nat.
Proof.
  intro Hm. induction dayData as [|d dayData IH]; intros st Hlen; cbn [fold_left];
    [exact Hlen|].
  apply IH. apply signalStep_limit; assumption.
Qed.

Lemma dayStep_limit parameters historicalData dataByDate st dateStr (m : Z) :
  BacktestParameters.maxPositions parameters = Fin (inject_Z m) ->
  (List.length (positions st) <= Z.to_nat m)%nat ->
  (List.length (positions (dayStep parameters historicalData dataByDate st dateStr))
   <= Z.to_nat m)%nat.
Proof.
  intros Hm Hlen. unfold dayStep.
  set (dayData := lookup_date dataByDate dateStr).
  set (processed := processExistingPositions (positions st) dayData parameters).
  pose proof (@signalSteps_limit parameters historicalData (Date_of_key dateStr) dayData
                m Hm
                (currentCapital st + capitalFromClosedTrades processed,
                 remainingPositions processed)) as K.
  destruct (fold_left _ dayData _) as [capital positions'] eqn:E.
  cbn [snd positions] in *. apply K.
  pose proof (processExistingPositions_count (positions st) dayData parameters) as Hc.
  fold processed in Hc. lia.
Qed.

(** At most [maxPositions] positions are open after any number of days, for
    an integer [maxPositions]; so a run closes at most that many positions
    at the end of the period. *)
Theorem open_positions_within_maxPositions (M : JSMath number)
    (random : nat -> number) (strategy : IStrategy.t number) (startDate endDate : Z)
    (initialCapital : number) (symbols : list string) (commission slippage : number)
    (maxPositions : Z) (k : nat) :
  let parameters :=
    {| BacktestParameters.strategy := strategy;
       BacktestParameters.startDate := startDate;
       BacktestParameters.endDate := endDate;
       BacktestParameters.initialCapital := initialCapital;
       BacktestParameters.symbols := symbols;
       BacktestParameters.commission := commission;
       BacktestParameters.slippage := slippage;
       BacktestParameters.maxPositions := Fin (inject_Z maxPositions) |} in
  let historicalData :=
    fst (generateHistoricalData random symbols startDate endDate k) in
  (forall dates,
      (List.length
         (positions
            (fold_left
               (dayStep parameters historicalData (groupDataByDate historicalData))
               dates
               {| currentCapital := initialCapital; positions := [];
                  trades := []; equityCurve := [] |}))
       <= Z.to_nat maxPositions)%nat)
  /\ exists result,
       fst (runBacktest random parameters k) = Returns result
       /\ (List.length (filter isEndOfPeriod (BacktestResult.trades result))
           <= Z.to_nat maxPositions)%nat.
Proof.
  intros parameters historicalData.
  assert (Hdays : forall dates st,
             (List.length (positions st) <= Z.to_nat maxPositions)%nat ->
             (List.length
                (positions
                   (fold_left
                      (dayStep parameters historicalData (groupDataByDate historicalData))
                      dates st))
              <= Z.to_nat maxPositions)%nat).
  { induction dates as [|d dates IH]; intros st Hst; cbn [fold_left]; [exact Hst|].
    apply IH. apply dayStep_limit; [reflexivity|exact Hst]. }
  split; [intro dates; apply Hdays; cbn; lia|].
  rewrite runBacktest_unfold. cbn [fst].
  change (fst (generateHistoricalData random _ _ _ k)) with historicalData.
  destruct (runBacktestOn_returns parameters historicalData) as (closed & Hf2 & E).
  rewrite E. eexists. split; [reflexivity|]. cbn [BacktestResult.trades].
  rewrite filter_app, length_app.
  destruct (simulate_wellFormed parameters historicalData) as [_ Htrades].
  assert (Hloop : filter isEndOfPeriod (trades (simulate parameters historicalData)) = []).
  { revert Htrades. generalize (trades (simulate parameters historicalData)).
    induction 1 as [|t ts (_ & Hreason & _) _ IH]; [reflexivity|].
    cbn [filter]. unfold isEndOfPeriod at 1.
    destruct Hreason as [-> | ->]; exact IH. }
  rewrite Hloop. cbn [List.length Nat.add].
  etransitivity; [apply filter_length_le|].
  rewrite <- (Forall2_length Hf2).
  unfold simulate. apply Hdays. cbn. lia.
Qed.

End PositionLimit.

(** ** The size of a new position, on exact numbers *)

Section EntrySizing.
Import Exact BacktestingEngine.
Local Open Scope js_scope.
Local Opaque Qfloor.

Lemma Math_min_Fin (x y : Q) :
  exists m : Q, Math_min (Fin x) (Fin y) = Fin m /\ (m <= x /\ m <= y /\ (m == x \/ m == y))%Q.
Proof.
  unfold Math_min. cbn [js_isNaN exact_number isNaN orb].
  destruct (Fin y <? Fin x) eqn:E.
  - apply ltb_Fin_true in E. exists y. split; [reflexivity|]. split; [lra|]. split; [lra|].
    right. reflexivity.
  - apply ltb_Fin_false in E. exists x. split; [reflexivity|]. split; [lra|]. split; [lra|].
    left. reflexivity.
Qed.


Definition buySignal : TradingSignal.t number :=
  {| TradingSignal.type := BUY;
     TradingSignal.strength := Fin 1;
     TradingSignal.price := Fin 100;
     TradingSignal.timestamp := 0;
     TradingSignal.reasoning := "MA crossover bullish, RSI: 50.0" |}.


End EntrySizing.

(** ** The range of the RSI, on exact numbers *)

Section RSIRange.
Import Exact BacktestingEngine.
Local Open Scope js_scope.

(** A finite number that is not negative. *)
Definition finiteNonNegative (x : number) : Prop :=
  exists q : Q, x = Fin q /\ (0 <= q)%Q.

Definition finiteClose (d : BacktestData.t number) : Prop :=
  exists c : Q, BacktestData.close d = Fin c.

Lemma Math_max_0_Fin (x : Q) : finiteNonNegative (Math_max (int 0) (Fin x)).
Proof.
  unfold Math_max. cbn [js_isNaN exact_number isNaN orb].
  destruct (int 0 <? Fin x) eqn:E.
  - apply ltb_Fin_true in E. change (inject_Z 0) with 0%Q in E. exists x. split; [reflexivity|lra].
  - exists (inject_Z 0). split; [reflexivity|]. apply Qle_refl.
Qed.

Lemma consecutive_Forall {A B : Type} (P : A -> Prop) (R : B -> Prop) (f : A -> A -> B)
    (xs : list A) :
  (forall a b, P a -> P b -> R (f a b)) ->
  Forall P xs -> Forall R (consecutive f xs).
Proof.
  intros Hf. induction xs as [|a [|b rest] IH]; intro Hall; cbn [consecutive];
    try constructor.
  - apply Hf; [apply (Forall_inv Hall)|apply (Forall_inv (Forall_inv_tail Hall))].
  - apply IH. apply (Forall_inv_tail Hall).
Qed.

Lemma skipn_Forall {A : Type} (P : A -> Prop) (n : nat) (xs : list A) :
  Forall P xs -> Forall P (skipn n xs).
Proof.
  revert xs. induction n as [|n IH]; intros xs Hall; [exact Hall|].
  destruct xs as [|x xs]; [constructor|]. cbn [skipn]. apply IH.
  apply (Forall_inv_tail Hall).
Qed.

Lemma sum_all_nonNegative (xs : list number) :
  Forall finiteNonNegative xs -> finiteNonNegative (sum_all xs).
Proof.
  unfold sum_all, sum_by.
  assert (G : forall acc, finiteNonNegative acc -> Forall finiteNonNegative xs ->
                          finiteNonNegative (fold_left (fun sum x => sum + x) xs acc)).
  { induction xs as [|x xs IH]; intros acc Hacc Hall; cbn [fold_left]; [exact Hacc|].
    apply IH; [|apply (Forall_inv_tail Hall)].
    destruct Hacc as (a & -> & Ha). destruct (Forall_inv Hall) as (q & -> & Hq).
    exists (a + q)%Q. split; [reflexivity|lra]. }
  apply G. exists (inject_Z 0). split; [reflexivity|apply Qle_refl].
Qed.

(** The RSI of bars with finite closes is a finite number from 0 to 100,
    for a positive period: 50 with too few bars, 100 without a loss. *)
Theorem calculateRSI_range (data : list (BacktestData.t number)) (period : Z) :
  (0 < period)%Z ->
  Forall finiteClose data ->
  exists rsi : Q, calculateRSI data period = Fin rsi /\ (0 <= rsi <= 100)%Q.
Proof.
  intros Hperiod Hdata. unfold calculateRSI.
  destruct (len data <? int (period + 1)).
  { exists (inject_Z 50). split; [reflexivity|]. split; intro E; discriminate. }
  set (changes := consecutive _ data).
  assert (Hchanges : Forall (fun c => exists q, c = Fin q) changes).
  { apply (consecutive_Forall (P := finiteClose)); [|exact Hdata].
    intros a b (x & Ha) (y & Hb). rewrite Ha, Hb. eexists. reflexivity. }
  assert (Hgains : finiteNonNegative
                     (sum_all (slice_from (map (fun change => Math_max (int 0) change) changes)
                                 (- period)))).
  { apply sum_all_nonNegative. apply skipn_Forall. apply Forall_map.
    revert Hchanges. apply Forall_impl. intros c (q & ->). apply Math_max_0_Fin. }
  assert (Hlosses : finiteNonNegative
                      (sum_all (slice_from
                                  (map (fun change => Math_max (int 0) (- change)) changes)
                                  (- period)))).
  { apply sum_all_nonNegative. apply skipn_Forall. apply Forall_map.
    revert Hchanges. apply Forall_impl. intros c (q & ->). apply Math_max_0_Fin. }
  destruct Hgains as (g & -> & Hg). destruct Hlosses as (l & -> & Hl).
  assert (Hp : (0 < inject_Z period)%Q) by (rewrite <- (Zlt_Qlt 0); exact Hperiod).
  change (Fin g / int period) with (div (Fin g) (Fin (inject_Z period))).
  change (Fin l / int period) with (div (Fin l) (Fin (inject_Z period))).
  rewrite !div_Fin by lra.
  assert (Hg' : (0 <= g / inject_Z period)%Q) by (apply Qle_shift_div_l; lra).
  assert (Hl' : (0 <= l / inject_Z period)%Q) by (apply Qle_shift_div_l; lra).
  revert Hg' Hl'. generalize (g / inject_Z period)%Q, (l / inject_Z period)%Q.
  intros avgGain avgLoss Hgain Hloss.
  destruct (Fin avgLoss === int 0) eqn:E.
  { exists (inject_Z 100). split; [reflexivity|]. split; intro E'; discriminate. }
  assert (Hne : ~ (avgLoss == 0)%Q).
  { intro E'. apply eqb_Fin_true in E'. change (eqb (Fin avgLoss) (Fin 0) = false) in E.
    congruence. }
  change (Fin avgGain / Fin avgLoss) with (div (Fin avgGain) (Fin avgLoss)).
  rewrite div_Fin by exact Hne.
  assert (Hrs : (0 <= avgGain / avgLoss)%Q) by (apply Qle_shift_div_l; lra).
  revert Hrs. generalize (avgGain / avgLoss)%Q. intros rs Hrs.
  change (int 1 + Fin rs) with (Fin (inject_Z 1 + rs)).
  change (int 100 / Fin (inject_Z 1 + rs))
    with (div (Fin (inject_Z 100)) (Fin (inject_Z 1 + rs))).
  change (inject_Z 1) with 1%Q. change (inject_Z 100) with 100%Q.
  rewrite div_Fin by lra.
  eexists. split; [reflexivity|].
  assert (H1 : (0 < 100 / (1 + rs))%Q) by (apply Qlt_shift_div_l; lra).
  assert (H2 : (100 / (1 + rs) <= 100)%Q) by (apply Qle_shift_div_r; lra).
  change (int 100 : number) with (Fin 100).
  cbn. change (inject_Z 100) with 100%Q. set (x := (100 / (1 + rs))%Q) in *. lra.
Qed.

(** Sixteen bars that close at 100 and 101 in turn. *)
Definition zigzagBars : list (BacktestData.t number) :=
  map (fun j => exactBar 99 102 (100 + inject_Z (Z.of_nat (Nat.modulo j 2)))) (seq 0 16).

Lemma calculateRSI_range_witness :
  (0 < 14)%Z /\ Forall finiteClose zigzagBars
  /\ exists rsi : Q, calculateRSI zigzagBars 14 = Fin rsi /\ (0 <= rsi <= 100)%Q.
Proof.
  assert (Hperiod : (0 < 14)%Z) by reflexivity.
  assert (Hdata : Forall finiteClose zigzagBars).
  { apply Forall_forall. intros d Hd. apply in_map_iff in Hd.
    destruct Hd as (j & <- & _). eexists. reflexivity. }
  split; [exact Hperiod|]. split; [exact Hdata|].
  exact (calculateRSI_range Hperiod Hdata).
Defined.

End RSIRange.

(** ** One equity point per day (any number instance) *)

Section DailyCurve.
Context {N : Type} `{JSNumber N} `{JSMath N}.
Local Open Scope js_scope.
Import BacktestingEngine.

Variable random : nat -> N.

(** The timestamps of the bars of one symbol: [n] days from [startDate]. *)
Definition stamps (startDate : Z) (n : nat) : list Z :=
  map (fun j => (startDate + Z.of_nat j * 86400000)%Z) (seq 0 n).

Definition timestamps (data : list (BacktestData.t N)) : list Z :=
  map (fun d => BacktestData.timestamp d) data.

Lemma generateBar_timestamp symbol startDate i currentPrice k :
  BacktestData.timestamp (fst (fst (generateBar random symbol startDate i currentPrice k)))
  = (startDate + i * 86400000)%Z.
Proof.
  unfold generateBar, bind, Math_random, ret. cbn [fst BacktestData.timestamp]. lia.
Qed.

Lemma generateBars_timestamps symbol startDate n :
  forall i currentPrice data k,
    timestamps (fst (generateBars random symbol startDate i n currentPrice data k))
    = (timestamps data
       ++ map (fun j => (startDate + (i + Z.of_nat j) * 86400000)%Z) (seq 0 n))%list.
Proof.
  induction n as [|n IH]; intros i currentPrice data k.
  - cbn. rewrite app_nil_r. reflexivity.
  - cbn [generateBars]. unfold bind at 1.
    pose proof (generateBar_timestamp symbol startDate i currentPrice k) as Hts.
    destruct (generateBar random symbol startDate i currentPrice k) as [b k'].
    cbn [fst snd] in *. rewrite IH. unfold timestamps, push.
    rewrite map_app, <- app_assoc. f_equal. cbn [map seq app]. rewrite Hts.
    f_equal; [f_equal; lia|].
    rewrite <- seq_shift, map_map. apply map_ext. intro j. lia.
Qed.

Lemma generateSymbols_timestamps symbols startDate days :
  forall data k,
    timestamps (fst (generateSymbols random symbols startDate days data k))
    = (timestamps data
       ++ List.concat (map (fun _ => stamps startDate (Z.to_nat (days + 1))) symbols))%list.
Proof.
  induction symbols as [|symbol symbols IH]; intros data k.
  - cbn. rewrite app_nil_r. reflexivity.
  - cbn [generateSymbols]. unfold bind at 1, Math_random. unfold bind.
    pose proof (generateBars_timestamps symbol startDate (Z.to_nat (days + 1)) 0
                  (int 100 + random k * int 200) data (S k)) as Hbars.
    destruct (generateBars random symbol startDate 0 (Z.to_nat (days + 1))
                (int 100 + random k * int 200) data (S k)) as [data' k'].
    cbn [fst] in Hbars. rewrite IH, Hbars, <- app_assoc. reflexivity.
Qed.

(** [acc[dateKey]] gets a new key after the others unless it is there. *)
Definition addKey (keys : list Z) (key : Z) : list Z :=
  if existsb (fun k => (k =? key)%Z) keys then keys else (keys ++ [key])%list.

Lemma group_push_keys key (item : BacktestData.t N) acc :
  map fst (group_push key item acc) = addKey (map fst acc) key.
Proof.
  unfold addKey. induction acc as [|[k0 items] acc IH]; [reflexivity|].
  cbn [group_push map fst existsb]. destruct (k0 =? key)%Z; cbn [orb map fst]; [reflexivity|].
  rewrite IH. destruct (existsb _ _); reflexivity.
Qed.

Lemma groupDataByDate_keys (data : list (BacktestData.t N)) :
  map fst (groupDataByDate data)
  = fold_left addKey (map dateKey (timestamps data)) [].
Proof.
  unfold groupDataByDate.
  change (@nil Z) with (map fst (@nil (Z * list (BacktestData.t N)))).
  generalize (@nil (Z * list (BacktestData.t N))) as acc.
  induction data as [|d data IH]; intro acc; [reflexivity|].
  cbn [fold_left map timestamps]. rewrite IH, group_push_keys. reflexivity.
Qed.

Lemma addKey_present keys key : In key keys -> addKey keys key = keys.
Proof.
  intro Hin. unfold addKey.
  destruct (existsb _ _) eqn:E; [reflexivity|].
  assert (Ht : existsb (fun k => (k =? key)%Z) keys = true).
  { apply existsb_exists. exists key. split; [exact Hin|apply Z.eqb_refl]. }
  congruence.
Qed.

Lemma addKey_absent keys key : ~ In key keys -> addKey keys key = (keys ++ [key])%list.
Proof.
  intro Hin. unfold addKey.
  destruct (existsb _ _) eqn:E; [|reflexivity].
  apply existsb_exists in E. destruct E as (k & Hk & E). apply Z.eqb_eq in E. subst k.
  contradiction.
Qed.

Lemma addKeys_present (more keys : list Z) :
  (forall key, In key more -> In key keys) -> fold_left addKey more keys = keys.
Proof.
  induction more as [|key more IH]; intro Hall; [reflexivity|].
  cbn [fold_left]. rewrite addKey_present by (apply Hall; left; reflexivity).
  apply IH. intros k Hk. apply Hall. right. exact Hk.
Qed.

Lemma addKeys_fresh (more : list Z) :
  forall keys, NoDup (keys ++ more) -> fold_left addKey more keys = (keys ++ more)%list.
Proof.
  induction more as [|key more IH]; intros keys Hnd; [rewrite app_nil_r; reflexivity|].
  cbn [fold_left]. rewrite addKey_absent.
  - rewrite IH; rewrite <- app_assoc; [reflexivity|exact Hnd].
  - apply NoDup_remove_2 in Hnd. intro Hin. apply Hnd. apply in_or_app. left. exact Hin.
Qed.

(** A day's bar falls on the day after the one before. *)
Lemma dateKey_stamps startDate n :
  map dateKey (stamps startDate n)
  = map (fun j => (dateKey startDate + Z.of_nat j)%Z) (seq 0 n).
Proof.
  unfold stamps. rewrite map_map. apply map_ext. intro j. unfold dateKey.
  change (1000 * 60 * 60 * 24)%Z with 86400000%Z. apply Z.div_add. discriminate.
Qed.

Lemma days_increasing (first : Z) (n : nat) :
  forall start : nat,
    StronglySorted Z.lt (map (fun j => (first + Z.of_nat j)%Z) (seq start n)).
Proof.
  induction n as [|n IH]; intro start; cbn [seq map]; constructor; [apply IH|].
  apply Forall_forall. intros k Hk. apply in_map_iff in Hk.
  destruct Hk as (j & <- & Hj). apply in_seq in Hj. lia.
Qed.

Lemma increasing_NoDup (keys : list Z) : StronglySorted Z.lt keys -> NoDup keys.
Proof.
  induction 1 as [|k keys Hs IH Hk]; constructor; [|exact IH].
  intro Hin. rewrite Forall_forall in Hk. specialize (Hk k Hin). lia.
Qed.

(** The keys of the generated data: the days of the first symbol, in order;
    the other symbols bring the same days. *)
Lemma generated_keys symbols startDate n :
  fold_left addKey
    (map dateKey (List.concat (map (fun _ : string => stamps startDate n) symbols))) []
  = match symbols with
    | [] => []
    | _ :: _ => map (fun j => (dateKey startDate + Z.of_nat j)%Z) (seq 0 n)
    end.
Proof.
  destruct symbols as [|symbol symbols]; [reflexivity|].
  cbn [map List.concat]. rewrite map_app, fold_left_app, dateKey_stamps.
  rewrite (@addKeys_fresh
             (map (fun j => (dateKey startDate + Z.of_nat j)%Z) (seq 0 n)) [])
    by (cbn [app]; apply increasing_NoDup, days_increasing).
  cbn [app]. apply addKeys_present.
  intros key Hkey. rewrite <- dateKey_stamps.
  induction symbols as [|s symbols IH]; [destruct Hkey|].
  cbn [map List.concat] in Hkey. rewrite map_app in Hkey. apply in_app_or in Hkey.
  destruct Hkey as [Hkey|Hkey]; [exact Hkey|apply IH; exact Hkey].
Qed.

Lemma insert_key_last key keys :
  Forall (fun k => (k < key)%Z) keys -> insert_key key keys = (keys ++ [key])%list.
Proof.
  induction 1 as [|k keys Hk Hall IH]; [reflexivity|].
  cbn [insert_key app]. destruct (key <=? k)%Z eqn:E; [apply Z.leb_le in E; lia|].
  rewrite IH. reflexivity.
Qed.

Lemma sort_keys_increasing keys : StronglySorted Z.lt keys -> sort_keys keys = keys.
Proof.
  intro Hs. unfold sort_keys.
  assert (G : forall more sorted,
             StronglySorted Z.lt (sorted ++ more) ->
             fold_left (fun sorted k => insert_key k sorted) more sorted
             = (sorted ++ more)%list).
  { induction more as [|k more IH]; intros sorted Hsm; [rewrite app_nil_r; reflexivity|].
    cbn [fold_left]. rewrite insert_key_last.
    - rewrite IH; rewrite <- app_assoc; [reflexivity|exact Hsm].
    - clear IH. induction sorted as [|x sorted IHs]; [constructor|].
      cbn [app] in Hsm. inversion Hsm as [|? ? Hrest Hx]; subst.
      constructor; [|apply IHs; exact Hrest].
      rewrite Forall_forall in Hx. apply Hx. apply in_or_app. right. left. reflexivity. }
  apply (G keys []). exact Hs.
Qed.

(** Each day of the loop dates one more point of the curve. *)
Lemma dayStep_date parameters historicalData dataByDate st dateStr :
  map (fun pt => EquityPoint.date pt)
    (equityCurve (dayStep parameters historicalData dataByDate st dateStr))
  = (map (fun pt => EquityPoint.date pt) (equityCurve st) ++ [Date_of_key dateStr])%list.
Proof.
  unfold dayStep. destruct (fold_left _ _ _) as [capital positions'].
  cbn [equityCurve]. unfold push. rewrite map_app. reflexivity.
Qed.

Lemma days_dates parameters historicalData dataByDate dates :
  forall st,
    map (fun pt => EquityPoint.date pt)
      (equityCurve (fold_left (dayStep parameters historicalData dataByDate) dates st))
    = (map (fun pt => EquityPoint.date pt) (equityCurve st)
       ++ map Date_of_key dates)%list.
Proof.
  induction dates as [|d dates IH]; intro st; cbn [fold_left map];
    [rewrite app_nil_r; reflexivity|].
  rewrite IH, dayStep_date, <- app_assoc. reflexivity.
Qed.

(** A run returns one equity point per day, from the day of the start date
    to [days] days later, each dated at midnight UTC, [days] being the days
    from the start date to the end date rounded up; it returns no point when
    there is no symbol or the end date is a day or more before the start
    date. *)
Theorem equity_curve_daily (parameters : BacktestParameters.t N) (k : nat) :
  exists result,
    fst (runBacktest random parameters k) = Returns result
    /\ map (fun pt => EquityPoint.date pt) (BacktestResult.equityCurve result)
       = match BacktestParameters.symbols parameters with
         | [] => []
         | _ :: _ =>
             map (fun j =>
                    Date_of_key
                      (dateKey (BacktestParameters.startDate parameters) + Z.of_nat j)%Z)
               (seq 0 (barsPerSymbol (BacktestParameters.startDate parameters)
                         (BacktestParameters.endDate parameters)))
         end.
Proof.
  destruct (runBacktest_equityCurve random parameters k) as (result & Hrun & Hcurve).
  exists result. split; [exact Hrun|]. rewrite Hcurve.
  unfold simulate. rewrite days_dates. cbn [equityCurve map app].
  rewrite groupDataByDate_keys. unfold generateHistoricalData.
  rewrite generateSymbols_timestamps. cbn [timestamps map app].
  fold (barsPerSymbol (BacktestParameters.startDate parameters)
          (BacktestParameters.endDate parameters)).
  rewrite generated_keys.
  destruct (BacktestParameters.symbols parameters); [reflexivity|].
  rewrite sort_keys_increasing by apply days_increasing.
  rewrite map_map. reflexivity.
Qed.

End DailyCurve.

(** ** The trade statistics of the report *)

Section TradeStatistics.
Context {N : Type} `{JSNumber N} `{JSMath N}.
Local Open Scope js_scope.
Import BacktestingEngine.

(** The loss side of the report, from the trades alone. *)
Lemma calculateMetrics_losses t trades equityCurve parameters :
  equityCurve <> [] ->
  let metrics := calculateMetrics (t :: trades) equityCurve parameters in
  let losingTrades := filter (fun t => BacktestTrade.profit t <? int 0) (t :: trades) in
  BacktestMetrics.losingTrades metrics = len losingTrades
  /\ BacktestMetrics.averageLoss metrics
     = (if len losingTrades >? int 0
        then Math_abs (sum_by (fun t => BacktestTrade.profit t) losingTrades
                       / len losingTrades)
        else int 0)
  /\ BacktestMetrics.profitFactor metrics
     = (if BacktestMetrics.averageLoss metrics >? int 0
        then BacktestMetrics.averageWin metrics / BacktestMetrics.averageLoss metrics
        else int 0).
Proof.
  intro Hne. unfold calculateMetrics.
  destruct (rev equityCurve) eqn:E; [apply rev_not_nil in Hne; contradiction|].
  repeat split.
Qed.

End TradeStatistics.

Section ProfitFactor.
Import Binary64 BacktestingEngine.
Local Open Scope js_scope.

Lemma filter_none {A : Type} (f : A -> bool) (xs : list A) :
  Forall (fun x => f x = false) xs -> filter f xs = [].
Proof.
  induction 1 as [|x xs Hx Hall IH]; [reflexivity|]. cbn [filter]. rewrite Hx. exact IH.
Qed.

(** On binary64, for every [Math.sqrt] and [Math.pow]: the report of a run
    without a losing trade counts no losing trade, has an average loss of 0
    and a profit factor of 0, however much the winning trades made. *)
Theorem profit_factor_zero_without_loss (M : JSMath float)
    (trades : list (BacktestTrade.t float)) (equityCurve : list (EquityPoint.t float))
    (parameters : BacktestParameters.t float) :
  trades <> [] -> equityCurve <> [] ->
  Forall (fun t => (BacktestTrade.profit t <? int 0) = false) trades ->
  let metrics := calculateMetrics trades equityCurve parameters in
  BacktestMetrics.losingTrades metrics = int 0
  /\ BacktestMetrics.averageLoss metrics = int 0
  /\ BacktestMetrics.profitFactor metrics = int 0.
Proof.
  intros Htrades Hcurve Hnone.
  destruct trades as [|t trades]; [contradiction|].
  destruct (calculateMetrics_losses t trades parameters Hcurve) as (Hcount & Havg & Hpf).
  cbv zeta in *.
  rewrite (filter_none _ Hnone) in Hcount, Havg.
  assert (Hzero : BacktestMetrics.averageLoss
                    (calculateMetrics (t :: trades) equityCurve parameters) = int 0).
  { rewrite Havg. reflexivity. }
  split; [exact Hcount|]. split; [exact Hzero|].
  rewrite Hpf, Hzero. reflexivity.
Qed.

(** One winning trade. *)
Lemma profit_factor_zero_without_loss_witness :
  [sampleTrade] <> [] /\ [flatPoint 0; flatPoint 86400000] <> []
  /\ Forall (fun t => (BacktestTrade.profit t <? int 0) = false) [sampleTrade]
  /\ (BacktestTrade.profit sampleTrade >? int 0) = true
  /\ forall M : JSMath float,
       BacktestMetrics.profitFactor
         (calculateMetrics [sampleTrade] [flatPoint 0; flatPoint 86400000]
            sampleParameters)
       = int 0.
Proof.
  assert (Ht : [sampleTrade] <> []) by discriminate.
  assert (Hc : [flatPoint 0; flatPoint 86400000] <> []) by discriminate.
  assert (Hn : Forall (fun t => (BacktestTrade.profit t <? int 0) = false) [sampleTrade]).
  { constructor; [vm_compute; reflexivity|constructor]. }
  split; [exact Ht|]. split; [exact Hc|]. split; [exact Hn|].
  split; [vm_compute; reflexivity|].
  intro M.
  exact (proj2 (proj2 (@profit_factor_zero_without_loss M [sampleTrade]
                         [flatPoint 0; flatPoint 86400000] sampleParameters Ht Hc Hn))).
Defined.

End ProfitFactor.

(* ================================================================== *)
(** * Further properties of the optimizer *)
(* ================================================================== *)

(** ** The size of the grid, on exact numbers *)

Section GridSize.
Import Exact BacktestingEngine OptimizeRoute.
Local Open Scope js_scope.

Lemma Qfloor_unique (x : Q) (z : Z) :
  (inject_Z z <= x)%Q -> (x < inject_Z (z + 1))%Q -> Qfloor x = z.
Proof.
  intros Hlo Hhi.
  pose proof (Qfloor_le x) as Hf. pose proof (Qlt_floor x) as Hc.
  assert (H1 : (inject_Z (Qfloor x) < inject_Z (z + 1))%Q) by lra.
  assert (H2 : (inject_Z z < inject_Z (Qfloor x + 1))%Q) by lra.
  rewrite <- Zlt_Qlt in H1, H2. lia.
Qed.

Lemma Qfloor_pred (x : Q) : Qfloor (x - 1) = (Qfloor x - 1)%Z.
Proof.
  pose proof (Qfloor_le x) as Hf. pose proof (Qlt_floor x) as Hc.
  apply Qfloor_unique.
  - unfold Z.sub. rewrite inject_Z_plus. change (inject_Z (- (1))) with (- (1))%Q. lra.
  - replace (Qfloor x - 1 + 1)%Z with (Qfloor x) by lia.
    rewrite inject_Z_plus in Hc. change (inject_Z 1) with 1%Q in Hc. lra.
Qed.

(** The values the loop of one parameter visits from [lo] on, by steps of
    [st], up to [hi]. *)
Definition visits (lo hi st : Q) : nat := Z.to_nat (Qfloor ((hi - lo) / st) + 1).

Lemma visits_none lo hi st : (0 < st)%Q -> (hi < lo)%Q -> visits lo hi st = 0%nat.
Proof.
  intros Hst Hlt. unfold visits.
  assert (Hneg : ((hi - lo) / st < 0)%Q) by (apply Qlt_shift_div_r; lra).
  pose proof (Qfloor_le ((hi - lo) / st)) as Hf.
  assert (H1 : (inject_Z (Qfloor ((hi - lo) / st)) < inject_Z 0)%Q)
    by (change (inject_Z 0) with 0%Q; lra).
  rewrite <- Zlt_Qlt in H1. lia.
Qed.

Lemma visits_next lo hi st :
  (0 < st)%Q -> (lo <= hi)%Q -> visits lo hi st = S (visits (lo + st) hi st).
Proof.
  intros Hst Hle. unfold visits.
  assert (E : ((hi - (lo + st)) / st == (hi - lo) / st - 1)%Q) by (field; lra).
  rewrite (Qfloor_comp _ _ E), Qfloor_pred.
  assert (Hnn : (0 <= (hi - lo) / st)%Q) by (apply Qle_shift_div_l; lra).
  apply Qfloor_resp_le in Hnn. change (Qfloor 0) with 0%Z in Hnn. lia.
Qed.

(** A range of finite bounds and positive step. *)
Definition finiteRange (range : Range.t number) : Prop :=
  exists lo hi st : Q,
    Range.min range = Fin lo /\ Range.max range = Fin hi /\ Range.step range = Fin st
    /\ (0 < st)%Q.

Definition visitsOf (range : Range.t number) : nat :=
  match Range.min range, Range.max range, Range.step range with
  | Fin lo, Fin hi, Fin st => visits lo hi st
  | _, _, _ => 0
  end.

(** The number of combinations of a grid. *)
Definition gridSize (ranges : list (string * Range.t number)) : nat :=
  fold_right (fun kv size => (visitsOf (snd kv) * size)%nat) 1%nat ranges.

Lemma generateCombinations_size (fuel : nat) (ranges : list (string * Range.t number)) :
  Forall (fun kv => finiteRange (snd kv)) ranges ->
  Forall (fun kv => (visitsOf (snd kv) <= fuel)%nat) ranges ->
  forall current combinations,
  exists current' new,
    generateCombinations fuel ranges (current, combinations)
    = Returns (current', (combinations ++ new)%list)
    /\ List.length new = gridSize ranges.
Proof.
  induction ranges as [|[paramName range] rest IH]; intros Hfin Hfuel current combinations.
  - exists current, [current]. split; reflexivity.
  - apply Forall_cons_iff in Hfin. destruct Hfin as [Hrange Hfin].
    apply Forall_cons_iff in Hfuel. destruct Hfuel as [Hvisits Hfuel].
    specialize (IH Hfin Hfuel).
    destruct Hrange as (lo & hi & st & Hlo & Hhi & Hst & Hpos).
    cbn [snd] in *. unfold visitsOf in Hvisits. rewrite Hlo, Hhi, Hst in Hvisits.
    cbn [generateCombinations gridSize fold_right snd].
    unfold visitsOf at 1. rewrite Hlo, Hhi, Hst.
    set (size := fold_right (fun kv size => (visitsOf (snd kv) * size)%nat) 1%nat rest).
    fold (gridSize rest) in size.
    generalize dependent combinations. generalize dependent current.
    revert Hvisits. generalize lo as v. generalize fuel at 1 3 as n.
    intros n v. remember (visits v hi st) as j eqn:Ej. revert n v Ej.
    induction j as [|j IHj]; intros n v Ej Hn current combinations.
    + assert (Hgt : (hi < v)%Q).
      { destruct (Qlt_le_dec hi v) as [Hlt|Hle]; [exact Hlt|].
        rewrite (visits_next Hpos Hle) in Ej. discriminate. }
      exists current, []. rewrite app_nil_r. split; [|reflexivity].
      destruct n; cbn; (destruct (Qle_bool v hi) eqn:E;
        [apply Qle_bool_iff in E; lra|reflexivity]).
    + assert (Hle : (v <= hi)%Q).
      { destruct (Qlt_le_dec hi v) as [Hlt|Hle]; [|exact Hle].
        rewrite (visits_none Hpos Hlt) in Ej. discriminate. }
      rewrite (visits_next Hpos Hle) in Ej. injection Ej as Ej.
      destruct n as [|n]; [lia|].
      destruct (IH (assign current paramName (Fin v)) combinations)
        as (current1 & new1 & Hinner & Hlen1).
      destruct (IHj n (v + st)%Q Ej ltac:(lia) current1 (combinations ++ new1)%list)
        as (current2 & new2 & Hloop & Hlen2).
      exists current2, (new1 ++ new2)%list.
      split.
      * cbn. assert (E : Qle_bool v hi = true) by (apply Qle_bool_iff; exact Hle).
        rewrite E. cbn in Hinner. rewrite Hinner.
        rewrite app_assoc. exact Hloop.
      * rewrite length_app, Hlen1, Hlen2. cbn [Nat.mul]. reflexivity.
Qed.

(** A range whose bounds are in order. *)
Definition ordered (range : Range.t number) : Prop :=
  (Range.min range <=? Range.max range) = true.

Lemma totalCombinations_size (ranges : list (string * Range.t number)) :
  Forall (fun kv => finiteRange (snd kv)) ranges ->
  Forall (fun kv => ordered (snd kv)) ranges ->
  exists total : Q,
    totalCombinations ranges = Fin total
    /\ (total == inject_Z (Z.of_nat (gridSize ranges)))%Q.
Proof.
  intros Hfin Hord. unfold totalCombinations.
  assert (G : forall acc : Q,
             exists total : Q,
               fold_left
                 (fun total kv =>
                    let range := snd kv in
                    let steps :=
                      Math_floor ((Range.max range - Range.min range) / Range.step range)
                      + int 1 in
                    total * steps)
                 ranges (Fin acc)
               = Fin total
               /\ (total == acc * inject_Z (Z.of_nat (gridSize ranges)))%Q).
  { induction ranges as [|[paramName range] rest IH]; intro acc.
    - exists acc. split; [reflexivity|]. cbn. ring.
    - apply Forall_cons_iff in Hfin. destruct Hfin as [Hrange Hfin].
      apply Forall_cons_iff in Hord. destruct Hord as [Hle Hord].
      destruct Hrange as (lo & hi & st & Hlo & Hhi & Hst & Hpos).
      cbn [snd] in *. unfold ordered in Hle. rewrite Hlo, Hhi in Hle.
      apply leb_Fin_true in Hle.
      cbn [fold_left snd]. rewrite Hlo, Hhi, Hst.
      change (Fin hi - Fin lo) with (Fin (hi - lo)).
      change (Fin (hi - lo) / Fin st) with (div (Fin (hi - lo)) (Fin st)).
      rewrite div_Fin by lra.
      change (Fin acc * (Math_floor (Fin ((hi - lo) / st)) + int 1))
        with (Fin (acc * (inject_Z (Qfloor ((hi - lo) / st)) + inject_Z 1))).
      destruct (IH Hfin Hord (acc * (inject_Z (Qfloor ((hi - lo) / st)) + inject_Z 1))%Q)
        as (total & Hfold & Htotal).
      exists total. split; [exact Hfold|]. rewrite Htotal.
      cbn [gridSize fold_right snd]. fold (gridSize rest).
      unfold visitsOf. rewrite Hlo, Hhi, Hst. unfold visits.
      assert (Hnn : (0 <= (hi - lo) / st)%Q) by (apply Qle_shift_div_l; lra).
      apply Qfloor_resp_le in Hnn. change (Qfloor 0) with 0%Z in Hnn.
      rewrite Nat2Z.inj_mul, Z2Nat.id by lia.
      rewrite inject_Z_mult, <- inject_Z_plus. ring. }
  destruct (G (inject_Z 1)) as (total & Hfold & Htotal).
  exists total. split; [exact Hfold|]. rewrite Htotal. change (inject_Z 1) with 1%Q. ring.
Qed.


(** A range whose [min] is above its [max]. *)
Definition inverted (range : Range.t number) : Prop :=
  (Range.max range <? Range.min range) = true.

Lemma gridSize_inverted (ranges : list (string * Range.t number)) :
  Forall (fun kv => finiteRange (snd kv)) ranges ->
  Exists (fun kv => inverted (snd kv)) ranges ->
  gridSize ranges = 0%nat.
Proof.
  intros Hfin Hinv. induction Hinv as [[paramName range] rest Hrange|kv rest Hrest IH];
    apply Forall_cons_iff in Hfin; destruct Hfin as [Hhead Hfin];
    cbn [gridSize fold_right snd] in *.
  - destruct Hhead as (lo & hi & st & Hlo & Hhi & Hst & Hpos).
    unfold inverted in Hrange. rewrite Hlo, Hhi in Hrange. apply ltb_Fin_true in Hrange.
    unfold visitsOf. rewrite Hlo, Hhi, Hst. rewrite (visits_none Hpos Hrange). reflexivity.
  - fold (gridSize rest). rewrite (IH Hfin). lia.
Qed.


(** The grid of thresholds 0 to 0.7 by 0.1 and periods 1 to 14, without
    rounding: 8 times 14 combinations. *)
Definition exactGrid : list (string * Range.t number) :=
  [("threshold"%string,
    {| Range.min := Fin 0; Range.max := Fin 0.7; Range.step := Fin 0.1 |});
   ("period"%string,
    {| Range.min := Fin 1; Range.max := Fin 14; Range.step := Fin 1 |})].

Lemma exactGrid_finite : Forall (fun kv => finiteRange (snd kv)) exactGrid.
Proof.
  repeat constructor; cbn [snd]; do 3 eexists;
    (split; [reflexivity|]); (split; [reflexivity|]); (split; [reflexivity|]);
    reflexivity.
Qed.


Definition invertedBody : OptimizeRequest.t number :=
  {| OptimizeRequest.strategyId := "strategy-1";
     OptimizeRequest.startDate := 0;
     OptimizeRequest.endDate := 60 * 86400000;
     OptimizeRequest.initialCapital := Fin 100000;
     OptimizeRequest.symbols := ["AAPL"%string];
     OptimizeRequest.commission := None;
     OptimizeRequest.slippage := None;
     OptimizeRequest.maxPositions := None;
     OptimizeRequest.parameterRanges :=
       [("lookback"%string,
         {| Range.min := Fin 20; Range.max := Fin 10; Range.step := Fin 10 |})];
     OptimizeRequest.optimizationMetric := None |}.


End GridSize.

(** ** The history a signal is computed from (any number instance) *)

Section SignalHistory.
Context {N : Type} `{JSNumber N}.
Local Open Scope js_scope.
Import BacktestingEngine.

(** The bars grouped under a key are the bars of that day. *)
Definition keyed (acc : list (Z * list (BacktestData.t N))) : Prop :=
  forall k items d,
    In (k, items) acc -> In d items -> dateKey (BacktestData.timestamp d) = k.

Lemma group_push_keyed (item : BacktestData.t N) acc :
  keyed acc -> keyed (group_push (dateKey (BacktestData.timestamp item)) item acc).
Proof.
  intros Hacc k items d Hin Hd.
  pose proof Hin as Hcase. eapply group_push_In in Hcase; [|exact Hd].
  destruct Hcase as [->|(items' & Hin' & Hd')].
  - induction acc as [|[k0 items0] acc IH]; cbn [group_push] in Hin.
    + destruct Hin as [E|[]]. inversion E. reflexivity.
    + destruct (k0 =? dateKey (BacktestData.timestamp item))%Z eqn:Ek.
      * apply Z.eqb_eq in Ek. destruct Hin as [E|Hin].
        -- inversion E; subst. reflexivity.
        -- eapply Hacc; [right; exact Hin|exact Hd].
      * destruct Hin as [E|Hin].
        -- inversion E; subst. eapply Hacc; [left; reflexivity|exact Hd].
        -- apply IH; [|exact Hin]. intros k1 items1 d1 H1 Hd1.
           eapply Hacc; [right; exact H1|exact Hd1].
  - eapply Hacc; eassumption.
Qed.

Lemma groupDataByDate_keyed (data : list (BacktestData.t N)) : keyed (groupDataByDate data).
Proof.
  unfold groupDataByDate.
  assert (G : forall acc, keyed acc ->
                          keyed (fold_left
                                   (fun acc item =>
                                      group_push (dateKey (BacktestData.timestamp item))
                                        item acc) data acc)).
  { induction data as [|item data IH]; intros acc Hacc; [exact Hacc|].
    cbn [fold_left]. apply IH. apply group_push_keyed. exact Hacc. }
  apply G. intros k items d [].
Qed.

Lemma lookup_date_key (data : list (BacktestData.t N)) key d :
  In d (lookup_date (groupDataByDate data) key) ->
  dateKey (BacktestData.timestamp d) = key.
Proof.
  unfold lookup_date.
  destruct (find _ _) as [[k items]|] eqn:E; cbn [snd]; [|intros []].
  apply find_some in E. destruct E as [Hin Hk]. cbn [fst] in Hk. apply Z.eqb_eq in Hk.
  subst k. intro Hd. eapply groupDataByDate_keyed; eassumption.
Qed.

(** [historicalData.filter(d => d.symbol === symbolData.symbol && d.timestamp <= date)],
    the bars [runBacktest] hands to [generateTradingSignal]. *)
Definition historyOf (historicalData : list (BacktestData.t N))
    (symbolData : BacktestData.t N) (date : Z) : list (BacktestData.t N) :=
  filter (fun d =>
            String.eqb (BacktestData.symbol d) (BacktestData.symbol symbolData)
            && (BacktestData.timestamp d <=? date)%Z)
    historicalData.

Lemma filter_twice {A : Type} (f : A -> bool) (l : list A) :
  filter f (filter f l) = filter f l.
Proof.
  induction l as [|x l IH]; cbn [filter]; [reflexivity|].
  destruct (f x) eqn:E; cbn [filter]; [rewrite E, IH; reflexivity|exact IH].
Qed.

(** The step that handles a bar of day [dateStr] depends on the historical
    data through the bars of the bar's symbol dated at or before
    [new Date(dateStr)], the midnight UTC that begins the day.  The bar
    itself is among them exactly when it is dated at midnight; bars of any
    later day never are. *)
Theorem signal_history_holds_own_bar_iff_midnight
    (parameters : BacktestParameters.t N)
    (historicalData : list (BacktestData.t N)) (dateStr : Z)
    (symbolData : BacktestData.t N) (st : N * list (BacktestPosition.t N)) :
  In symbolData (lookup_date (groupDataByDate historicalData) dateStr) ->
  let date := Date_of_key dateStr in
  let history := historyOf historicalData symbolData date in
  signalStep parameters historicalData date st symbolData
  = signalStep parameters history date st symbolData
  /\ (In symbolData history <-> (BacktestData.timestamp symbolData mod 86400000 = 0)%Z)
  /\ forall d, In d history -> (dateKey (BacktestData.timestamp d) <= dateStr)%Z.
Proof.
  intros Hday date history.
  pose proof Hday as Hin. apply lookup_date_In in Hin.
  pose proof Hday as Hkey. apply lookup_date_key in Hkey.
  split.
  { unfold signalStep, history, historyOf. rewrite filter_twice. reflexivity. }
  unfold history, historyOf, date, Date_of_key, dateKey in *.
  change (1000 * 60 * 60 * 24)%Z with 86400000%Z in *.
  split.
  - rewrite filter_In, String.eqb_refl. cbn [andb]. rewrite Z.leb_le.
    pose proof (Z.div_mod (BacktestData.timestamp symbolData) 86400000 ltac:(lia)) as Hdm.
    pose proof (Z.mod_pos_bound (BacktestData.timestamp symbolData) 86400000 ltac:(lia))
      as Hb.
    split; [intros [_ Hle]; lia|intro Hz; split; [exact Hin|lia]].
  - intros d Hd. apply filter_In in Hd. destruct Hd as [_ Hd].
    apply andb_true_iff in Hd. destruct Hd as [_ Hle]. apply Z.leb_le in Hle.
    apply Z.div_le_upper_bound; lia.
Qed.

End SignalHistory.

Section SignalHistorySample.
Import Binary64 BacktestingEngine.

(** A bar dated at noon of day 0 is grouped under day 0, and the history
    its signal is computed from does not hold it. *)
Lemma signal_history_holds_own_bar_iff_midnight_witness :
  In (sampleBar 43200000 (int 100))
    (lookup_date (groupDataByDate [sampleBar 43200000 (int 100)]) 0)
  /\ ~ In (sampleBar 43200000 (int 100))
         (historyOf [sampleBar 43200000 (int 100)] (sampleBar 43200000 (int 100))
            (Date_of_key 0)).
Proof.
  assert (Hday : In (sampleBar 43200000 (int 100))
                   (lookup_date (groupDataByDate [sampleBar 43200000 (int 100)]) 0))
    by (left; reflexivity).
  split; [exact Hday|].
  intro Hin.
  apply (proj1 (proj1 (proj2 (signal_history_holds_own_bar_iff_midnight
                                sampleParameters
                                [sampleBar 43200000 (int 100)] 0
                                (sampleBar 43200000 (int 100)) (int 0, []) Hday))))
    in Hin.
  discriminate Hin.
Defined.

End SignalHistorySample.

(** ** Cash and recorded profit of an exit, on exact numbers *)

Section ExitAccounting.
Import Exact BacktestingEngine.
Local Open Scope js_scope.

(** A stop-loss or take-profit exit of a position of [shares] shares entered
    at [entry], for finite amounts.  The cash credited is the shares at the
    exit level less one commission; the profit recorded in the trade is
    taken at the exit level lowered by the slippage, less two commissions.
    So the cash credited, less what the position cost when [executeEntry]
    opened it, exceeds the recorded profit by the exit slippage,
    [shares * level * slippage / 100]: only the trade record bears it. *)
Theorem exit_slippage_only_in_trade_record (strategy : IStrategy.t number)
    (startDate endDate : Z) (symbols : list string) (initialCapital maxPositions : number)
    (commission slippage shares entry level : Q)
    (position : BacktestPosition.t number) (symbolData : BacktestData.t number)
    (dayData : list (BacktestData.t number)) (reason : ExitReason) :
  let parameters :=
    {| BacktestParameters.strategy := strategy;
       BacktestParameters.startDate := startDate;
       BacktestParameters.endDate := endDate;
       BacktestParameters.initialCapital := initialCapital;
       BacktestParameters.symbols := symbols;
       BacktestParameters.commission := Fin commission;
       BacktestParameters.slippage := Fin slippage;
       BacktestParameters.maxPositions := maxPositions |} in
  BacktestPosition.quantity position = Fin shares ->
  BacktestPosition.entryPrice position = Fin entry ->
  find_symbol dayData (BacktestPosition.symbol position) = Some symbolData ->
  exitDecision position symbolData = Some (reason, Fin level) ->
  let processed := processExistingPositions [position] dayData parameters in
  exists trade (cash profit : Q),
    closedTrades processed = [trade]
    /\ remainingPositions processed = []
    /\ BacktestTrade.reason trade = reason
    /\ capitalFromClosedTrades processed = Fin cash
    /\ BacktestTrade.profit trade = Fin profit
    /\ (cash == shares * level - commission)%Q
    /\ (profit == (level * (1 - slippage / 100) - entry) * shares - commission * 2)%Q
    /\ (cash - (shares * entry + commission) - profit
        == shares * level * slippage / 100)%Q.
Proof.
  intros parameters Hq He Hfind Hexit processed.
  unfold processed, processExistingPositions. cbn [fold_left].
  unfold processPosition. rewrite Hfind, Hexit.
  cbn [closedTrades remainingPositions capitalFromClosedTrades].
  unfold closePosition. cbn [BacktestTrade.quantity BacktestTrade.profit BacktestTrade.reason
                              BacktestParameters.commission BacktestParameters.slippage
                              parameters].
  rewrite Hq, He.
  eexists. eexists. eexists.
  split; [reflexivity|]. split; [reflexivity|]. split; [reflexivity|].
  split; [reflexivity|]. split; [reflexivity|].
  change (inject_Z 0) with 0%Q. change (inject_Z 1) with 1%Q.
  change (inject_Z 2) with 2%Q. change (inject_Z 100) with 100%Q.
  repeat split; field.
Qed.


(** The position of 49 shares entered at 200, stopped at 190 with a
    commission of 5 and a slippage of 0.1%: 9305 is credited, the recorded
    profit is lower than the cash gained by 9.31. *)
Lemma exit_slippage_only_in_trade_record_witness :
  exists trade (cash profit : Q),
    closedTrades
      (processExistingPositions [exactPosition] [exactBar 189 231 210] exactParameters)
    = [trade]
    /\ capitalFromClosedTrades
         (processExistingPositions [exactPosition] [exactBar 189 231 210] exactParameters)
       = Fin cash
    /\ BacktestTrade.profit trade = Fin profit
    /\ (cash == 9305)%Q
    /\ (cash - (49 * 200 + 5) - profit == 9.31)%Q.
Proof.
  destruct (@exit_slippage_only_in_trade_record
              (BacktestParameters.strategy exactParameters) 0 2592000000
              ["AAPL"%string] (Fin 100000) (Fin 10) 5 0.1 49 200 190
              exactPosition (exactBar 189 231 210) [exactBar 189 231 210] STOP_LOSS
              eq_refl eq_refl eq_refl eq_refl)
    as (trade & cash & profit & Htrades & _ & _ & Hcash & Hprofit & Ec & _ & Ediff).
  exists trade, cash, profit.
  split; [exact Htrades|]. split; [exact Hcash|]. split; [exact Hprofit|].
  split; [rewrite Ec; reflexivity|rewrite Ediff; reflexivity].
Defined.

End ExitAccounting.

(* ================================================================== *)
(** * Stop-loss recommendations *)
(* ================================================================== *)

(** ** Sorting by an integer key (any number instance) *)

Section SortByKey.
Context {N : Type} `{JSNumber N} {A : Type}.
Local Open Scope js_scope.

Variable key : A -> Z.
Variable cmp : A -> A -> N.

(** The comparator puts the larger key first. *)
Hypothesis cmp_key : forall x y, (cmp y x >? int 0) = (key y <? key x)%Z.

Definition keyDescending (a b : A) : Prop := (key b <= key a)%Z.

Lemma sort_insert_keyDescending x sorted :
  StronglySorted keyDescending sorted ->
  StronglySorted keyDescending (sort_insert cmp x sorted).
Proof.
  induction 1 as [|y rest Hrest IH Hy]; cbn [sort_insert].
  - constructor; constructor.
  - rewrite cmp_key. destruct (key y <? key x)%Z eqn:E.
    + apply Z.ltb_lt in E. constructor; [constructor; assumption|].
      constructor; [unfold keyDescending; lia|].
      rewrite Forall_forall in *. intros z Hz. specialize (Hy z Hz).
      unfold keyDescending in *. lia.
    + apply Z.ltb_ge in E. constructor; [exact IH|].
      rewrite Forall_forall in *. intros z Hz.
      apply (Permutation_in _ (sort_insert_perm cmp x rest)) in Hz.
      destruct Hz as [<-|Hz]; [exact E|apply Hy; exact Hz].
Qed.

Lemma sort_keyDescending xs : StronglySorted keyDescending (sort cmp xs).
Proof.
  unfold sort.
  assert (G : forall sorted,
             StronglySorted keyDescending sorted ->
             StronglySorted keyDescending
               (fold_left (fun sorted x => sort_insert cmp x sorted) xs sorted)).
  { induction xs as [|x rest IH]; intros sorted Hs; [exact Hs|].
    cbn [fold_left]. apply IH. apply sort_insert_keyDescending. exact Hs. }
  apply G. constructor.
Qed.

End SortByKey.

(** ** The order and the coverage of the recommendations, on binary64 *)

Section StopLossOrder.
Import Binary64 StopLoss.
Local Open Scope js_scope.

Lemma urgencyOrder_cmp (a b : Urgency.t) :
  ((int (urgencyOrder b) - int (urgencyOrder a) : float) >? int 0)
  = (urgencyOrder a <? urgencyOrder b)%Z.
Proof. destruct a, b; vm_compute; reflexivity. Qed.

(** The recommendations are those of the open positions of positive
    quantity, one for each and no other, from the most urgent to the least:
    CRITICAL, HIGH, MEDIUM, LOW. *)
Theorem stop_loss_recommendations_by_urgency (positions : list (IPosition.t float))
    (currentPrices marketVolatility : list (string * float)) :
  let recommendations :=
    calculateStopLossRecommendations positions currentPrices marketVolatility in
  Permutation recommendations
    (map (recommend currentPrices marketVolatility) (filter isOpen positions))
  /\ StronglySorted
       (fun a b =>
          (urgencyOrder (StopLossRecommendation.urgency b)
           <= urgencyOrder (StopLossRecommendation.urgency a))%Z)
       recommendations.
Proof.
  split; unfold calculateStopLossRecommendations.
  - apply sort_perm.
  - apply (@sort_keyDescending float _ _
             (fun r => urgencyOrder (StopLossRecommendation.urgency r))).
    intros x y. apply urgencyOrder_cmp.
Qed.

End StopLossOrder.

(** ** The distance of the suggested stop, on exact numbers *)

Section StopLossDistance.
Import Exact StopLoss.
Local Open Scope js_scope.

Lemma Math_max_Fin (x y : Q) : exists m : Q, Math_max (Fin x) (Fin y) = Fin m.
Proof.
  unfold Math_max. cbn [js_isNaN exact_number isNaN orb].
  destruct (Fin x <? Fin y); eexists; reflexivity.
Qed.

Lemma strategyFor_finite (position : IPosition.t number) (cost price volatility : Q) :
  IPosition.avgCost position = Fin cost -> ~ (cost == 0)%Q ->
  exists stop : Q,
    fst (fst (strategyFor position (Fin price) (Fin volatility))) = Fin stop.
Proof.
  intros Hcost Hne. unfold strategyFor. rewrite Hcost.
  change (Fin price - Fin cost) with (Fin (price - cost)).
  change (Fin (price - cost) / Fin cost) with (div (Fin (price - cost)) (Fin cost)).
  rewrite div_Fin by exact Hne.
  destruct (_ >? int 20); cbn [fst].
  { destruct (Math_max_Fin (inject_Z 5 / inject_Z 100) (volatility * (inject_Z 5 / inject_Z 10)))
      as (m & Hm).
    change (lit 0.05) with (Fin (inject_Z 5 / inject_Z 100)).
    change (Fin volatility * lit 0.5) with (Fin (volatility * (inject_Z 5 / inject_Z 10))).
    rewrite Hm. eexists. reflexivity. }
  destruct (_ >? int 0); cbn [fst]; [eexists; reflexivity|].
  destruct (_ >? - int 5); cbn [fst].
  { destruct (Math_min_Fin (inject_Z 8 / inject_Z 100) volatility) as (m & Hm & _).
    change (lit 0.08) with (Fin (inject_Z 8 / inject_Z 100)).
    rewrite Hm. eexists. reflexivity. }
  destruct (_ >? - int 15); cbn [fst]; eexists; reflexivity.
Qed.



Definition exactHolding : IPosition.t number :=
  {| IPosition.symbol := "AAPL";
     IPosition.quantity := Fin 10;
     IPosition.avgCost := Fin 100;
     IPosition.currentPrice := Fin 130;
     IPosition.marketValue := Fin 1300;
     IPosition.status := Some OPEN;
     IPosition.unrealizedPnLPercent := None |}.


End StopLossDistance.

(* ================================================================== *)
(** * Order validation *)
(* ================================================================== *)

(** ** What makes an order invalid (any number instance) *)

Section OrderValidity.
Context {N : Type} `{JSNumber N}.
Local Open Scope js_scope.
Import OrderRisk.

(** The order alone is above the position-size limit. *)
Definition oversized (quantity price portfolioValue : N) : bool :=
  ((quantity * price) / portfolioValue) * int 100 >? maxPositionSize.

(** A buy order takes the open position in its symbol above the limit. *)
Definition overConcentrated (side : option OrderSide.t) (symbol : string)
    (quantity price : N) (positions : list (IPosition.t N)) (portfolioValue : N) : bool :=
  match existingPositionOf positions symbol with
  | Some existingPosition =>
      isBuy side
      && (((marketValueOf existingPosition + quantity * price) / portfolioValue) * int 100
          >? maxPositionSize)
  | None => false
  end.

Lemma validateComplete_isValid side type symbol quantity price positions portfolioValue user :
  OrderValidation.isValid
    (validateComplete side type symbol quantity price positions portfolioValue user)
  = negb (oversized quantity price portfolioValue)
    && negb (overConcentrated side symbol quantity price positions portfolioValue).
Proof.
  unfold validateComplete, oversized, overConcentrated. cbv zeta.
  destruct (existingPositionOf positions symbol) as [existing|];
    [destruct (isBuy side)|];
    repeat match goal with
           | |- context [if ?c then _ else _] =>
               match type of c with bool => destruct c end
           end;
    reflexivity.
Qed.

End OrderValidity.

(** ** The limit in amounts, on exact numbers *)

Section OrderLimit.
Import Exact OrderRisk.
Local Open Scope js_scope.
Local Open Scope string_scope.

Lemma percent_above_limit (value portfolio : Q) :
  (0 < portfolio)%Q ->
  ((Fin value / Fin portfolio) * int 100 >? (maxPositionSize : number))
  = negb (Qle_bool value (portfolio * (20 # 100))).
Proof.
  intro Hp.
  change (Fin value / Fin portfolio) with (div (Fin value) (Fin portfolio)).
  rewrite div_Fin by lra.
  change (maxPositionSize : number) with (Fin (inject_Z 200 / inject_Z 10)).
  change (Fin (value / portfolio) * int 100) with (Fin (value / portfolio * inject_Z 100)).
  change (inject_Z 200 / inject_Z 10)%Q with (200 # 10)%Q.
  change (inject_Z 100) with 100%Q.
  cbn [js_ltb exact_number ltb]. f_equal.
  assert (Hiff : (value / portfolio * 100 <= 200 # 10)%Q
                 <-> (value <= portfolio * (20 # 100))%Q).
  { split; intro Hle.
    - assert (Hd : (value / portfolio <= 20 # 100)%Q) by lra.
      apply (Qmult_le_compat_r _ _ portfolio) in Hd; [|lra].
      assert (E : (value / portfolio * portfolio == value)%Q) by (field; lra).
      lra.
    - assert (Hd : (value / portfolio <= 20 # 100)%Q)
        by (apply Qle_shift_div_r; lra).
      lra. }
  destruct (Qle_bool value (portfolio * (20 # 100))) eqn:E.
  - apply Qle_bool_iff. apply Hiff. apply Qle_bool_iff. exact E.
  - destruct (Qle_bool (value / portfolio * 100) (200 # 10)) eqn:E'; [|reflexivity].
    apply Qle_bool_iff in E'. apply Hiff in E'. apply Qle_bool_iff in E'. congruence.
Qed.




End OrderLimit.

(* ================================================================== *)
(** * The maximum drawdown of a trade list, on exact numbers *)
(* ================================================================== *)

Section TradeDrawdown.
Import Exact PortfolioRisk.
Local Open Scope js_scope.

(** Once the maximum is [Infinity] it stays. *)
Lemma drawdownStep_infinite (st : @Drawdown number) trade :
  maxDrawdown st = PosInf -> maxDrawdown (drawdownStep st trade) = PosInf.
Proof.
  intro Hmax. unfold drawdownStep. cbn [maxDrawdown]. rewrite Hmax.
  match goal with |- context [?x >? PosInf] => destruct x end; reflexivity.
Qed.

Lemma drawdown_infinite trades :
  forall st : @Drawdown number,
    maxDrawdown st = PosInf -> maxDrawdown (fold_left drawdownStep trades st) = PosInf.
Proof.
  induction trades as [|t trades IH]; intros st Hmax; [exact Hmax|].
  cbn [fold_left]. apply IH. apply drawdownStep_infinite. exact Hmax.
Qed.

(** The state while no trade has lost: the peak is the running total and
    no drawdown was recorded. *)
Definition atPeak (st : @Drawdown number) : Prop :=
  exists total top : Q,
    runningTotal st = Fin total /\ peak st = Fin top
    /\ (top == total)%Q /\ (0 <= total)%Q
    /\ maxDrawdown st = int 0.

(** A trade with no loss: a finite profit that is not negative, or none. *)
Definition noLoss (trade : ITrade.t number) : Prop :=
  match ITrade.profit trade with
  | Some (Fin p) => (0 <= p)%Q
  | Some _ => False
  | None => True
  end.

Lemma profitOf_noLoss trade :
  noLoss trade -> exists p : Q, profitOf trade = Fin p /\ (0 <= p)%Q.
Proof.
  unfold noLoss, profitOf. destruct (ITrade.profit trade) as [[p| | |]|]; try contradiction.
  - intro Hp. destruct (truthy (Fin p)).
    + exists p. split; [reflexivity|exact Hp].
    + exists (inject_Z 0). split; [reflexivity|apply Qle_refl].
  - intros _. exists (inject_Z 0). split; [reflexivity|apply Qle_refl].
Qed.

Lemma drawdownStep_atPeak st trade :
  atPeak st -> noLoss trade -> atPeak (drawdownStep st trade).
Proof.
  intros (total & top & Htotal & Htop & Heq & Hnn & Hmax) Htrade.
  destruct (profitOf_noLoss trade Htrade) as (p & Hp & Hpnn).
  unfold drawdownStep. rewrite Htotal, Htop, Hmax, Hp.
  change (Fin total + Fin p) with (Fin (total + p)).
  assert (Hpeak : exists top' : Q,
             (if Fin (total + p) >? Fin top then Fin (total + p) else Fin top) = Fin top'
             /\ (top' == total + p)%Q).
  { destruct (Fin (total + p) >? Fin top) eqn:E.
    - exists (total + p)%Q. split; reflexivity.
    - apply ltb_Fin_false in E. exists top. split; [reflexivity|lra]. }
  destruct Hpeak as (top' & -> & Htop').
  exists (total + p)%Q, top'. cbn [runningTotal peak maxDrawdown].
  split; [reflexivity|]. split; [reflexivity|]. split; [exact Htop'|]. split; [lra|].
  change (Fin top' - Fin (total + p)) with (Fin (top' - (total + p))).
  change (Fin (top' - (total + p)) / Fin top')
    with (div (Fin (top' - (total + p))) (Fin top')).
  destruct (Qeq_bool top' 0) eqn:Ez.
  - assert (Hnan : div (Fin (top' - (total + p))) (Fin top') = NaN).
    { cbn [div]. rewrite Ez.
      assert (Hz : (top' - (total + p) == 0)%Q) by lra.
      rewrite Hz. reflexivity. }
    rewrite Hnan. reflexivity.
  - assert (Hne : ~ (top' == 0)%Q) by (intro E; apply Qeq_bool_iff in E; congruence).
    rewrite div_Fin by exact Hne.
    change (Fin ((top' - (total + p)) / top') * int 100)
      with (Fin ((top' - (total + p)) / top' * inject_Z 100)).
    destruct (Fin ((top' - (total + p)) / top' * inject_Z 100) >? int 0) eqn:E;
      [|reflexivity].
    apply ltb_Fin_true in E. change (inject_Z 0) with 0%Q in E.
    change (inject_Z 100) with 100%Q in E.
    assert (Hz : ((top' - (total + p)) / top' == 0)%Q).
    { assert (Hd : (top' - (total + p) == 0)%Q) by lra. rewrite Hd. field. exact Hne. }
    rewrite Hz in E. lra.
Qed.

(** [calculateMaxDrawdown] measures the drawdown against the highest running
    profit, which starts at 0.  While no trade has lost, the maximum
    drawdown is 0.  If the first trade loses, the drawdown is that loss
    divided by a peak of 0: the maximum drawdown is [Infinity], whatever the
    trades that follow. *)
Theorem max_drawdown_of_trades :
  (forall trades, Forall noLoss trades -> calculateMaxDrawdown trades = int 0)
  /\ (forall first rest (loss : Q),
         ITrade.profit first = Some (Fin loss) -> (loss < 0)%Q ->
         calculateMaxDrawdown (first :: rest) = js_Infinity).
Proof.
  split.
  - intros trades Hall. unfold calculateMaxDrawdown.
    assert (G : forall st, atPeak st -> atPeak (fold_left drawdownStep trades st)).
    { induction Hall as [|t trades Ht Hall IH]; intros st Hst; [exact Hst|].
      cbn [fold_left]. apply IH. apply drawdownStep_atPeak; assumption. }
    destruct (G {| maxDrawdown := int 0; peak := int 0; runningTotal := int 0 |})
      as (total & top & _ & _ & _ & _ & Hmax).
    + exists (inject_Z 0), (inject_Z 0). cbn [runningTotal peak maxDrawdown].
      repeat split; try reflexivity. apply Qle_refl.
    + exact Hmax.
  - intros first rest loss Hprofit Hloss. unfold calculateMaxDrawdown. cbn [fold_left].
    apply drawdown_infinite. unfold drawdownStep, profitOf. rewrite Hprofit.
    cbn [maxDrawdown peak runningTotal].
    assert (Ht : truthy (Fin loss) = true).
    { unfold truthy. change (Fin loss === int 0) with (Qeq_bool loss (inject_Z 0)).
      destruct (Qeq_bool loss (inject_Z 0)) eqn:E; [|reflexivity].
      apply Qeq_bool_iff in E. change (inject_Z 0) with 0%Q in E. lra. }
    rewrite Ht. change (int 0 + Fin loss) with (Fin (inject_Z 0 + loss)).
    assert (Hpeak : (Fin (inject_Z 0 + loss) >? (int 0 : number)) = false).
    { apply ltb_Fin_false. change (inject_Z 0) with 0%Q. lra. }
    rewrite Hpeak.
    change (int 0 - Fin (inject_Z 0 + loss)) with (Fin (inject_Z 0 - (inject_Z 0 + loss))).
    change (Fin (inject_Z 0 - (inject_Z 0 + loss)) / int 0)
      with (div (Fin (inject_Z 0 - (inject_Z 0 + loss))) (Fin (inject_Z 0))).
    cbn [div]. change (Qeq_bool (inject_Z 0) 0) with true. cbn iota.
    assert (Hgt : (inject_Z 0 - (inject_Z 0 + loss) ?= 0)%Q = Gt).
    { apply Qgt_alt. change (inject_Z 0) with 0%Q. lra. }
    rewrite Hgt. reflexivity.
Qed.


(** A first trade that loses 50, then one that gains 500: [Infinity]. *)
Lemma max_drawdown_of_trades_witness :
  calculateMaxDrawdown
    [ {| ITrade.executedAt := 0; ITrade.profit := Some (Fin (-50)) |};
      {| ITrade.executedAt := 86400000; ITrade.profit := Some (Fin 500) |} ]
  = (js_Infinity : number).
Proof.
  apply (proj2 max_drawdown_of_trades
           {| ITrade.executedAt := 0; ITrade.profit := Some (Fin (-50)) |}
           [ {| ITrade.executedAt := 86400000; ITrade.profit := Some (Fin 500) |} ]
           (-50)%Q eq_refl).
  reflexivity.
Defined.

End TradeDrawdown.

(* ================================================================== *)
(** * Winning and losing streaks *)
(* ================================================================== *)

(** ** Runs in a list of outcomes *)

Section Runs.

(** [k] consecutive outcomes [b] somewhere in [l]. *)
Definition isRun (b : bool) (k : nat) (l : list bool) : Prop :=
  exists before after, l = (before ++ repeat b k ++ after)%list.

(** [k] is the length of the longest run of [b] in [l]. *)
Definition longestRun (b : bool) (k : nat) (l : list bool) : Prop :=
  isRun b k l /\ forall k', isRun b k' l -> (k' <= k)%nat.

(** The last [k] outcomes of [l] are [b], and not the one before. *)
Definition endsWith (b : bool) (k : nat) (l : list bool) : Prop :=
  exists before,
    l = (before ++ repeat b k)%list
    /\ forall front, before <> (front ++ [b])%list.

Lemma last_or_nil {A : Type} (l : list A) : l = [] \/ exists l' a, l = (l' ++ [a])%list.
Proof. induction l using rev_ind; [left; reflexivity|right; eauto]. Qed.

Lemma repeat_snoc (b : bool) (k : nat) : (repeat b k ++ [b])%list = repeat b (S k).
Proof.
  induction k as [|k IH]; [reflexivity|]. cbn [repeat app]. rewrite IH. reflexivity.
Qed.

Lemma isRun_le b k k' l : (k' <= k)%nat -> isRun b k l -> isRun b k' l.
Proof.
  intros Hle (before & after & ->).
  exists before, (repeat b (k - k') ++ after)%list.
  rewrite (app_assoc (repeat b k')), <- repeat_app. do 3 f_equal. lia.
Qed.

(** A run that ends [l ++ [x]] is a run of [x]; any other is a run in [l]. *)
Lemma isRun_snoc b k l x :
  isRun b k (l ++ [x])%list ->
  isRun b k l
  \/ (x = b /\ exists j before, k = S j /\ l = (before ++ repeat b j)%list).
Proof.
  intros (before & after & E).
  destruct (last_or_nil after) as [->|(after' & y & ->)].
  - rewrite app_nil_r in E. destruct k as [|k].
    + left. exists l, []. cbn [repeat app]. rewrite app_nil_r. reflexivity.
    + rewrite <- repeat_snoc, app_assoc in E. apply app_inj_tail in E.
      destruct E as [E ->]. right. split; [reflexivity|]. exists k, before.
      split; [reflexivity|exact E].
  - rewrite !app_assoc in E. apply app_inj_tail in E. destruct E as [E _].
    left. exists before, after'. rewrite E, app_assoc. reflexivity.
Qed.

Lemma isRun_grow b k l x : isRun b k l -> isRun b k (l ++ [x])%list.
Proof.
  intros (before & after & ->). exists before, (after ++ [x])%list.
  rewrite <- !app_assoc. reflexivity.
Qed.

(** No run at the end of [l] is longer than the one [endsWith] names. *)
Lemma endsWith_longest b k l j before :
  endsWith b k l -> l = (before ++ repeat b j)%list -> (j <= k)%nat.
Proof.
  intros (front & -> & Hfront) E.
  destruct (Nat.le_gt_cases j k) as [Hle|Hgt]; [exact Hle|exfalso].
  replace j with ((j - k) + k)%nat in E by lia.
  rewrite repeat_app, app_assoc in E. apply app_inv_tail in E.
  destruct (j - k)%nat as [|d] eqn:Ed; [lia|].
  rewrite <- repeat_snoc, app_assoc in E. exact (Hfront _ E).
Qed.

Lemma endsWith_same b k l : endsWith b k l -> endsWith b (S k) (l ++ [b])%list.
Proof.
  intros (front & -> & Hfront). exists front.
  rewrite <- app_assoc, repeat_snoc. split; [reflexivity|exact Hfront].
Qed.

Lemma endsWith_other b l x : x <> b -> endsWith b 0 (l ++ [x])%list.
Proof.
  intro Hx. exists (l ++ [x])%list. cbn [repeat]. rewrite app_nil_r.
  split; [reflexivity|]. intros front E. apply app_inj_tail in E. destruct E as [_ E].
  contradiction.
Qed.

Lemma longestRun_same b best k l :
  longestRun b best l -> endsWith b k l ->
  longestRun b (Nat.max best (S k)) (l ++ [b])%list.
Proof.
  intros [Hrun Hmax] Hend. split.
  - destruct (Nat.max_spec best (S k)) as [[Hlt ->]|[Hle ->]].
    + destruct (@endsWith_same _ _ _ Hend) as (front & E & _).
      exists front, []. rewrite app_nil_r. exact E.
    + apply isRun_grow. exact Hrun.
  - intros k' Hk'. apply isRun_snoc in Hk'.
    destruct Hk' as [Hk'|(_ & j & before & -> & E)].
    + specialize (Hmax k' Hk'). lia.
    + pose proof (@endsWith_longest _ _ _ _ _ Hend E). lia.
Qed.

Lemma longestRun_other b best l x :
  x <> b -> longestRun b best l -> longestRun b best (l ++ [x])%list.
Proof.
  intros Hx [Hrun Hmax]. split; [apply isRun_grow; exact Hrun|].
  intros k' Hk'. apply isRun_snoc in Hk'.
  destruct Hk' as [Hk'|(E & _)]; [apply Hmax; exact Hk'|contradiction].
Qed.

End Runs.

(** ** The counters of [calculatePerformanceStats], on exact numbers *)

Section Streaks.
Import Exact BacktestingEngine BacktestReports.
Local Open Scope js_scope.

(** The outcomes of the trades that won or lost, in order: [true] for a
    profit above 0, [false] for one below; a trade with neither leaves no
    outcome. *)
Definition outcomesOf (trades : list (BacktestTrade.t number)) : list bool :=
  flat_map
    (fun t =>
       if BacktestTrade.profit t >? int 0 then [true]
       else if BacktestTrade.profit t <? int 0 then [false]
       else [])
    trades.

(** The number [x] is the count [n]. *)
Definition counts (n : nat) (x : number) : Prop :=
  exists q : Q, x = Fin q /\ (q == inject_Z (Z.of_nat n))%Q.

Lemma counts_zero : counts 0 (int 0).
Proof. exists (inject_Z 0). split; reflexivity. Qed.

Lemma counts_succ n x : counts n x -> counts (S n) (x + int 1).
Proof.
  intros (q & -> & Hq). exists (q + inject_Z 1)%Q. split; [reflexivity|].
  replace (Z.of_nat (S n)) with (Z.of_nat n + 1)%Z by lia.
  rewrite inject_Z_plus, Hq. reflexivity.
Qed.

Lemma counts_max a b x y : counts a x -> counts b y -> counts (Nat.max a b) (Math_max x y).
Proof.
  intros (p & -> & Hp) (q & -> & Hq). unfold Math_max.
  cbn [js_isNaN exact_number isNaN orb].
  destruct (Fin p <? Fin q) eqn:E.
  - apply ltb_Fin_true in E. rewrite Hp, Hq, <- Zlt_Qlt in E.
    exists q. split; [reflexivity|]. replace (Nat.max a b) with b by lia. exact Hq.
  - apply ltb_Fin_false in E. rewrite Hp, Hq, <- Zle_Qle in E.
    exists p. split; [reflexivity|]. replace (Nat.max a b) with a by lia. exact Hp.
Qed.

(** The counters after the outcomes [seen]. *)
Definition tracks (seen : list bool) (st : @Streaks number) : Prop :=
  exists wins losses winning losing : nat,
    counts wins (maxConsecutiveWins st) /\ counts losses (maxConsecutiveLosses st)
    /\ counts winning (currentWinStreak st) /\ counts losing (currentLossStreak st)
    /\ longestRun true wins seen /\ longestRun false losses seen
    /\ endsWith true winning seen /\ endsWith false losing seen.

Lemma streakStep_tracks seen st trade :
  tracks seen st -> tracks (seen ++ outcomesOf [trade])%list (streakStep st trade).
Proof.
  intros (wins & losses & winning & losing & Hw & Hl & Hcw & Hcl & Hrw & Hrl & Hew & Hel).
  unfold outcomesOf, streakStep. cbn [flat_map]. rewrite app_nil_r.
  destruct (BacktestTrade.profit trade >? int 0).
  - exists (Nat.max wins (S winning)), losses, (S winning), 0%nat.
    cbn [maxConsecutiveWins maxConsecutiveLosses currentWinStreak currentLossStreak].
    split; [apply counts_max; [exact Hw|apply counts_succ; exact Hcw]|].
    split; [exact Hl|]. split; [apply counts_succ; exact Hcw|].
    split; [exact counts_zero|].
    split; [apply longestRun_same; assumption|].
    split; [apply longestRun_other; [discriminate|exact Hrl]|].
    split; [apply endsWith_same; exact Hew|apply endsWith_other; discriminate].
  - destruct (BacktestTrade.profit trade <? int 0).
    + exists wins, (Nat.max losses (S losing)), 0%nat, (S losing).
      cbn [maxConsecutiveWins maxConsecutiveLosses currentWinStreak currentLossStreak].
      split; [exact Hw|].
      split; [apply counts_max; [exact Hl|apply counts_succ; exact Hcl]|].
      split; [exact counts_zero|]. split; [apply counts_succ; exact Hcl|].
      split; [apply longestRun_other; [discriminate|exact Hrw]|].
      split; [apply longestRun_same; assumption|].
      split; [apply endsWith_other; discriminate|apply endsWith_same; exact Hel].
    + rewrite app_nil_r. exists wins, losses, winning, losing.
      repeat (split; [assumption|]). assumption.
Qed.

Lemma outcomesOf_cons t trades :
  outcomesOf (t :: trades) = (outcomesOf [t] ++ outcomesOf trades)%list.
Proof. unfold outcomesOf. cbn [flat_map]. rewrite app_nil_r. reflexivity. Qed.

(** [maxConsecutiveWins] is the length of the longest run of winning trades
    and [maxConsecutiveLosses] that of the longest run of losing trades,
    among the trades that won or lost: a trade whose profit is 0 (or [NaN])
    neither extends a streak nor ends it. *)
Theorem streaks_are_longest_runs (trades : list (BacktestTrade.t number))
    (monthlyReturns : list (MonthlyReturn.t number)) :
  let stats := calculatePerformanceStats trades monthlyReturns in
  exists wins losses : nat,
    counts wins (PerformanceStats.maxConsecutiveWins stats)
    /\ counts losses (PerformanceStats.maxConsecutiveLosses stats)
    /\ longestRun true wins (outcomesOf trades)
    /\ longestRun false losses (outcomesOf trades).
Proof.
  unfold calculatePerformanceStats.
  cbn [PerformanceStats.maxConsecutiveWins PerformanceStats.maxConsecutiveLosses].
  assert (G : forall (ts : list (BacktestTrade.t number)) seen st,
             tracks seen st ->
             tracks (seen ++ outcomesOf ts)%list (fold_left streakStep ts st)).
  { induction ts as [|t ts IH]; intros seen st Hst.
    - cbn. rewrite app_nil_r. exact Hst.
    - cbn [fold_left]. rewrite outcomesOf_cons, app_assoc. apply IH.
      apply streakStep_tracks. exact Hst. }
  destruct (G trades []
              {| maxConsecutiveWins := int 0; maxConsecutiveLosses := int 0;
                 currentWinStreak := int 0; currentLossStreak := int 0 |})
    as (wins & losses & _ & _ & Hw & Hl & _ & _ & Hrw & Hrl & _).
  - exists 0%nat, 0%nat, 0%nat, 0%nat.
    cbn [maxConsecutiveWins maxConsecutiveLosses currentWinStreak currentLossStreak].
    assert (Hrun : forall b, longestRun b 0 []).
    { intro b. split; [exists [], []; reflexivity|].
      intros k' (before & after & E). destruct before; [|discriminate].
      destruct k'; [lia|discriminate]. }
    assert (Hend : forall b, endsWith b 0 []).
    { intro b. exists []. split; [reflexivity|]. intros front E.
      destruct front; discriminate. }
    repeat (split; [exact counts_zero|]).
    split; [apply Hrun|]. split; [apply Hrun|]. split; apply Hend.
  - exists wins, losses. cbn [app] in *. repeat (split; [assumption|]). assumption.
Qed.

End Streaks.

(* ================================================================== *)
(** * Monthly returns (any number instance) *)
(* ================================================================== *)

Section MonthlyReturns.
Context {N : Type} `{JSNumber N}.
Local Open Scope js_scope.
Import BacktestReports.

Variable monthKey : Z -> string.

Definition monthOf (point : EquityPoint.t N) : string :=
  monthKey (EquityPoint.date point).

Definition inMonth (month : string) (point : EquityPoint.t N) : bool :=
  String.eqb (monthOf point) month.

(** The first and the last point of a month on the curve. *)
Definition firstOf (month : string) (equityCurve : list (EquityPoint.t N))
  : option (EquityPoint.t N) :=
  find (inMonth month) equityCurve.

Definition lastOf (month : string) (equityCurve : list (EquityPoint.t N))
  : option (EquityPoint.t N) :=
  find (inMonth month) (rev equityCurve).

(** The keys of a list, each once, in the order they first appear. *)
Definition firstSeen (keys : list string) : list string :=
  fold_left
    (fun seen key => if existsb (String.eqb key) seen then seen else (seen ++ [key])%list)
    keys [].

Lemma existsb_eqb_In key (keys : list string) :
  existsb (String.eqb key) keys = true <-> In key keys.
Proof.
  rewrite existsb_exists. split.
  - intros (k & Hin & E). apply String.eqb_eq in E. subst k. exact Hin.
  - intro Hin. exists key. split; [exact Hin|apply String.eqb_refl].
Qed.

Lemma recordMonth_keys key equity (monthlyData : list (string * (N * N))) :
  map fst (recordMonth key equity monthlyData)
  = if existsb (String.eqb key) (map fst monthlyData)
    then map fst monthlyData
    else (map fst monthlyData ++ [key])%list.
Proof.
  induction monthlyData as [|[k0 [s0 e0]] rest IH]; cbn [recordMonth map fst existsb app].
  - reflexivity.
  - rewrite (String.eqb_sym key k0).
    destruct (String.eqb k0 key); cbn [orb map fst]; [reflexivity|].
    rewrite IH. destruct (existsb _ _); reflexivity.
Qed.

Lemma monthlyDataOf_keys (equityCurve : list (EquityPoint.t N)) :
  map fst (monthlyDataOf monthKey equityCurve) = firstSeen (map monthOf equityCurve).
Proof.
  unfold monthlyDataOf, firstSeen.
  assert (G : forall (acc : list (string * (N * N))),
             map fst
               (fold_left
                  (fun monthlyData point =>
                     recordMonth (monthKey (EquityPoint.date point))
                       (EquityPoint.equity point) monthlyData)
                  equityCurve acc)
             = fold_left
                 (fun seen key =>
                    if existsb (String.eqb key) seen then seen else (seen ++ [key])%list)
                 (map monthOf equityCurve) (map fst acc)).
  { induction equityCurve as [|point rest IH]; intro acc; [reflexivity|].
    cbn [fold_left map]. rewrite IH, recordMonth_keys. reflexivity. }
  apply (G []).
Qed.

Lemma recordMonth_NoDup key equity (monthlyData : list (string * (N * N))) :
  NoDup (map fst monthlyData) -> NoDup (map fst (recordMonth key equity monthlyData)).
Proof.
  intro Hnd. rewrite recordMonth_keys.
  destruct (existsb _ _) eqn:E; [exact Hnd|].
  apply NoDup_app; [exact Hnd|constructor; [intros []|constructor]|].
  intros k Hin [<-|[]].
  apply existsb_eqb_In in Hin. congruence.
Qed.

(** An entry after [recordMonth]: an entry of another month as it was, or
    the entry of the month, ending at the new equity and starting where it
    did, or at the new equity when the month is new. *)
Lemma recordMonth_In key equity (monthlyData : list (string * (N * N))) k s e :
  NoDup (map fst monthlyData) ->
  In (k, (s, e)) (recordMonth key equity monthlyData) ->
  (k <> key /\ In (k, (s, e)) monthlyData)
  \/ (k = key /\ e = equity
      /\ ((exists e0, In (key, (s, e0)) monthlyData)
          \/ (~ In key (map fst monthlyData) /\ s = equity))).
Proof.
  induction monthlyData as [|[k0 [s0 e0]] rest IH]; cbn [recordMonth In map fst];
    intros Hnd Hin.
  - destruct Hin as [E|[]]. inversion E; subst. right.
    split; [reflexivity|]. split; [reflexivity|]. right. split; [tauto|reflexivity].
  - apply NoDup_cons_iff in Hnd. destruct Hnd as [Hfresh Hnd].
    destruct (String.eqb k0 key) eqn:Ek.
    + apply String.eqb_eq in Ek. subst k0. destruct Hin as [E|Hin].
      * inversion E; subst. right. split; [reflexivity|]. split; [reflexivity|].
        left. exists e0. left. reflexivity.
      * left. split; [|right; exact Hin].
        intros ->. apply Hfresh. apply (in_map fst) in Hin. exact Hin.
    + apply String.eqb_neq in Ek. destruct Hin as [E|Hin].
      * inversion E; subst. left. split; [exact Ek|left; reflexivity].
      * destruct (IH Hnd Hin) as [[Hne Hold]|(-> & -> & Hcase)].
        -- left. split; [exact Hne|right; exact Hold].
        -- right. split; [reflexivity|]. split; [reflexivity|].
           destruct Hcase as [(e1 & Hold)|[Hnew ->]].
           ++ left. exists e1. right. exact Hold.
           ++ right. split; [|reflexivity]. intros [E|Hk]; [congruence|tauto].
Qed.

Lemma find_app {A : Type} (f : A -> bool) (l l' : list A) :
  find f (l ++ l') = match find f l with Some x => Some x | None => find f l' end.
Proof.
  induction l as [|x l IH]; cbn [app find]; [reflexivity|].
  destruct (f x); [reflexivity|exact IH].
Qed.

Lemma find_absent {A : Type} (f : A -> bool) (l : list A) :
  (forall x, In x l -> f x = false) -> find f l = None.
Proof.
  induction l as [|x l IH]; intro Hall; cbn [find]; [reflexivity|].
  rewrite (Hall x (or_introl eq_refl)). apply IH. intros y Hy. apply Hall. right. exact Hy.
Qed.

(** What [monthlyData] holds after the points of a curve. *)
Definition spans (equityCurve : list (EquityPoint.t N))
    (monthlyData : list (string * (N * N))) : Prop :=
  NoDup (map fst monthlyData)
  /\ (forall point, In point equityCurve -> In (monthOf point) (map fst monthlyData))
  /\ forall k s e,
       In (k, (s, e)) monthlyData ->
       exists first last,
         firstOf k equityCurve = Some first /\ lastOf k equityCurve = Some last
         /\ s = EquityPoint.equity first /\ e = EquityPoint.equity last.

Lemma recordMonth_spans equityCurve monthlyData point :
  spans equityCurve monthlyData ->
  spans (equityCurve ++ [point])
    (recordMonth (monthOf point) (EquityPoint.equity point) monthlyData).
Proof.
  intros (Hnd & Hkeys & Hspan). split; [|split].
  - apply recordMonth_NoDup. exact Hnd.
  - intros p Hp. rewrite recordMonth_keys.
    apply in_app_or in Hp. destruct Hp as [Hp|[<-|[]]].
    + destruct (existsb _ _); [|apply in_or_app; left]; apply Hkeys; exact Hp.
    + destruct (existsb _ _) eqn:E.
      * apply existsb_eqb_In. exact E.
      * apply in_or_app. right. left. reflexivity.
  - intros k s e Hin. unfold firstOf, lastOf. rewrite find_app, rev_unit. cbn [find].
    pose proof Hin as Hrec. apply recordMonth_In in Hrec; [|exact Hnd].
    destruct Hrec as [[Hne Hold]|(-> & -> & Hcase)].
    + destruct (Hspan _ _ _ Hold) as (first & last & Hf & Hl & -> & ->).
      unfold firstOf in Hf. unfold lastOf in Hl. rewrite Hf.
      assert (E : inMonth k point = false).
      { unfold inMonth. apply String.eqb_neq. congruence. }
      rewrite E. exists first, last. repeat split; assumption.
    + assert (E : inMonth (monthOf point) point = true) by apply String.eqb_refl.
      rewrite E. destruct Hcase as [(e0 & Hold)|[Hnew ->]].
      * destruct (Hspan _ _ _ Hold) as (first & last & Hf & _ & -> & _).
        unfold firstOf in Hf. rewrite Hf. exists first, point. repeat split.
      * assert (Hnone : find (inMonth (monthOf point)) equityCurve = None).
        { apply find_absent. intros p Hp. unfold inMonth. apply String.eqb_neq.
          intro Ep. apply Hnew. rewrite <- Ep. apply Hkeys. exact Hp. }
        rewrite Hnone. exists point, point. repeat split.
Qed.

Lemma monthlyDataOf_spans equityCurve : spans equityCurve (monthlyDataOf monthKey equityCurve).
Proof.
  unfold monthlyDataOf.
  induction equityCurve as [|point rest IH] using rev_ind.
  - split; [constructor|]. split; [intros p []|intros k s e []].
  - rewrite fold_left_app. cbn [fold_left]. apply recordMonth_spans. exact IH.
Qed.

(** The monthly returns hold one entry for each month that has a point on
    the curve, in the order the months first appear.  The return of a month
    is the equity of its last point less the equity of its first point, so
    what was gained or lost between the last point of the month before and
    the first point of this one belongs to no month; the percentage is
    taken on the equity of the first point, and is 0 when that is not
    positive. *)
Theorem monthly_return_from_first_to_last_point (equityCurve : list (EquityPoint.t N)) :
  let monthlyReturns := calculateMonthlyReturns monthKey equityCurve in
  map (fun m => MonthlyReturn.month m) monthlyReturns
  = firstSeen (map monthOf equityCurve)
  /\ forall m, In m monthlyReturns ->
       exists first last,
         firstOf (MonthlyReturn.month m) equityCurve = Some first
         /\ lastOf (MonthlyReturn.month m) equityCurve = Some last
         /\ MonthlyReturn.return_ m = EquityPoint.equity last - EquityPoint.equity first
         /\ MonthlyReturn.returnPercent m
            = if EquityPoint.equity first >? int 0
              then (MonthlyReturn.return_ m / EquityPoint.equity first) * int 100
              else int 0.
Proof.
  cbv zeta. unfold calculateMonthlyReturns. split.
  - rewrite <- monthlyDataOf_keys, map_map. apply map_ext.
    intros [month [start end_]]. reflexivity.
  - intros m Hm. apply in_map_iff in Hm. destruct Hm as ([month [start end_]] & <- & Hin).
    destruct (monthlyDataOf_spans equityCurve) as (_ & _ & Hspan).
    destruct (Hspan _ _ _ Hin) as (first & last & Hf & Hl & -> & ->).
    exists first, last.
    cbn [MonthlyReturn.month MonthlyReturn.return_ MonthlyReturn.returnPercent].
    repeat split; assumption.
Qed.

End MonthlyReturns.

(* ================================================================== *)
(** * The best and the worst month, on exact numbers *)
(* ================================================================== *)

Section MonthExtremes.
Import Exact BacktestReports.
Local Open Scope js_scope.

Definition finiteReturn (m : MonthlyReturn.t number) : Prop :=
  exists r : Q, MonthlyReturn.returnPercent m = Fin r.

Lemma max_fold (percentages : list number) :
  Forall (fun x => exists r : Q, x = Fin r) percentages ->
  forall a : Q,
  exists best : Q,
    fold_left Math_max percentages (Fin a) = Fin best
    /\ (a <= best)%Q
    /\ (forall r, In (Fin r) percentages -> (r <= best)%Q)
    /\ (best = a \/ In (Fin best) percentages).
Proof.
  induction 1 as [|x rest (r & ->) Hrest IH]; intro a; cbn [fold_left].
  - exists a. split; [reflexivity|]. split; [apply Qle_refl|].
    split; [intros r []|left; reflexivity].
  - unfold Math_max at 2. cbn [js_isNaN exact_number isNaN orb].
    destruct (Fin a <? Fin r) eqn:E.
    + apply ltb_Fin_true in E. destruct (IH r) as (best & Hbest & Hle & Hall & Hcase).
      exists best. split; [exact Hbest|]. split; [lra|]. split.
      * intros r' [E'|Hin]; [inversion E'; subst; exact Hle|apply Hall; exact Hin].
      * right. destruct Hcase as [->|Hin]; [left; reflexivity|right; exact Hin].
    + apply ltb_Fin_false in E. destruct (IH a) as (best & Hbest & Hle & Hall & Hcase).
      exists best. split; [exact Hbest|]. split; [exact Hle|]. split.
      * intros r' [E'|Hin]; [inversion E'; subst; lra|apply Hall; exact Hin].
      * destruct Hcase as [->|Hin]; [left; reflexivity|right; right; exact Hin].
Qed.

Lemma min_fold (percentages : list number) :
  Forall (fun x => exists r : Q, x = Fin r) percentages ->
  forall a : Q,
  exists worst : Q,
    fold_left Math_min percentages (Fin a) = Fin worst
    /\ (worst <= a)%Q
    /\ (forall r, In (Fin r) percentages -> (worst <= r)%Q)
    /\ (worst = a \/ In (Fin worst) percentages).
Proof.
  induction 1 as [|x rest (r & ->) Hrest IH]; intro a; cbn [fold_left].
  - exists a. split; [reflexivity|]. split; [apply Qle_refl|].
    split; [intros r []|left; reflexivity].
  - unfold Math_min at 2. cbn [js_isNaN exact_number isNaN orb].
    destruct (Fin r <? Fin a) eqn:E.
    + apply ltb_Fin_true in E. destruct (IH r) as (worst & Hworst & Hle & Hall & Hcase).
      exists worst. split; [exact Hworst|]. split; [lra|]. split.
      * intros r' [E'|Hin]; [inversion E'; subst; exact Hle|apply Hall; exact Hin].
      * right. destruct Hcase as [->|Hin]; [left; reflexivity|right; exact Hin].
    + apply ltb_Fin_false in E. destruct (IH a) as (worst & Hworst & Hle & Hall & Hcase).
      exists worst. split; [exact Hworst|]. split; [exact Hle|]. split.
      * intros r' [E'|Hin]; [inversion E'; subst; lra|apply Hall; exact Hin].
      * destruct Hcase as [->|Hin]; [left; reflexivity|right; right; exact Hin].
Qed.

(** For months of finite return: the best month is the highest monthly
    return percentage, or 0 when no month gained; the worst month is the
    lowest one, or 0 when no month lost.  So a backtest whose every month
    lost reports a best month of 0. *)
Theorem best_and_worst_month_include_zero (trades : list (BacktestTrade.t number))
    (monthlyReturns : list (MonthlyReturn.t number)) :
  Forall finiteReturn monthlyReturns ->
  let stats := calculatePerformanceStats trades monthlyReturns in
  exists best worst : Q,
    PerformanceStats.bestMonth stats = Fin best
    /\ PerformanceStats.worstMonth stats = Fin worst
    /\ (worst <= 0 <= best)%Q
    /\ (forall m r, In m monthlyReturns -> MonthlyReturn.returnPercent m = Fin r ->
                    (worst <= r <= best)%Q)
    /\ (best = 0%Q
        \/ exists m, In m monthlyReturns /\ MonthlyReturn.returnPercent m = Fin best)
    /\ (worst = 0%Q
        \/ exists m, In m monthlyReturns /\ MonthlyReturn.returnPercent m = Fin worst).
Proof.
  intros Hfinite stats.
  assert (Hall : Forall (fun x => exists r : Q, x = Fin r)
                   (map (fun m => MonthlyReturn.returnPercent m) monthlyReturns)).
  { apply Forall_forall. intros x Hx. apply in_map_iff in Hx.
    destruct Hx as (m & <- & Hm). rewrite Forall_forall in Hfinite.
    exact (Hfinite m Hm). }
  destruct (max_fold Hall 0) as (best & Hbest & Hb0 & Hbmax & Hbcase).
  destruct (min_fold Hall 0) as (worst & Hworst & Hw0 & Hwmin & Hwcase).
  exists best, worst.
  split; [exact Hbest|]. split; [exact Hworst|]. split; [split; assumption|].
  split; [|split].
  - intros m r Hm Hr. split.
    + apply Hwmin. rewrite <- Hr. apply in_map_iff. exists m. split; [reflexivity|exact Hm].
    + apply Hbmax. rewrite <- Hr. apply in_map_iff. exists m. split; [reflexivity|exact Hm].
  - destruct Hbcase as [->|Hin]; [left; reflexivity|right].
    apply in_map_iff in Hin. destruct Hin as (m & Hr & Hm). exists m. split; assumption.
  - destruct Hwcase as [->|Hin]; [left; reflexivity|right].
    apply in_map_iff in Hin. destruct Hin as (m & Hr & Hm). exists m. split; assumption.
Qed.

(** Two months that lost 4% and 1.5%: the worst month is -4, the best
    month 0. *)
Lemma best_and_worst_month_include_zero_witness :
  PerformanceStats.bestMonth
    (calculatePerformanceStats []
       [ {| MonthlyReturn.month := "2024-01"; MonthlyReturn.return_ := Fin (-4000);
            MonthlyReturn.returnPercent := Fin (-4) |};
         {| MonthlyReturn.month := "2024-02"; MonthlyReturn.return_ := Fin (-1440);
            MonthlyReturn.returnPercent := Fin (-1.5) |} ])
  = Fin 0.
Proof.
  destruct (@best_and_worst_month_include_zero []
              [ {| MonthlyReturn.month := "2024-01"; MonthlyReturn.return_ := Fin (-4000);
                   MonthlyReturn.returnPercent := Fin (-4) |};
                {| MonthlyReturn.month := "2024-02"; MonthlyReturn.return_ := Fin (-1440);
                   MonthlyReturn.returnPercent := Fin (-1.5) |} ])
    as (best & worst & Hbest & _).
  - constructor; [eexists; reflexivity|].
    constructor; [eexists; reflexivity|constructor].
  - rewrite Hbest. vm_compute in Hbest. exact (eq_sym Hbest).
Defined.

End MonthExtremes.

(* ================================================================== *)
(** * The strength of a signal, on exact numbers *)
(* ================================================================== *)

Section SignalStrength.
Import Exact BacktestingEngine.
Local Open Scope js_scope.

Definition positiveClose (d : BacktestData.t number) : Prop :=
  exists c : Q, BacktestData.close d = Fin c /\ (0 < c)%Q.

Lemma sum_close_positive (data : list (BacktestData.t number)) :
  Forall positiveClose data ->
  exists s : Q, sum_close data = Fin s /\ (0 <= s)%Q /\ (data <> [] -> (0 < s)%Q).
Proof.
  unfold sum_close, sum_by. intro Hall.
  assert (G : forall a : Q, (0 <= a)%Q ->
              exists s : Q,
                fold_left (fun sum d => sum + BacktestData.close d) data (Fin a) = Fin s
                /\ (a <= s)%Q /\ (data <> [] -> (a < s)%Q)).
  { induction Hall as [|d rest (c & Hc & Hpos) Hrest IH]; intros a Ha; cbn [fold_left].
    - exists a. split; [reflexivity|]. split; [apply Qle_refl|congruence].
    - rewrite Hc. change (Fin a + Fin c) with (Fin (a + c)).
      destruct (IH (a + c)%Q ltac:(lra)) as (s & Hs & Hle & _).
      exists s. split; [exact Hs|]. split; [lra|intros _; lra]. }
  destruct (G (inject_Z 0) (Qle_refl _)) as (s & Hs & Hle & Hlt).
  exists s. split; [exact Hs|]. change (inject_Z 0) with 0%Q in *. split; assumption.
Qed.

Lemma firstn_Forall {A : Type} (P : A -> Prop) (n : nat) (xs : list A) :
  Forall P xs -> Forall P (firstn n xs).
Proof.
  revert xs. induction n as [|n IH]; intros xs Hall; [constructor|].
  destruct xs as [|x xs]; [constructor|]. cbn [firstn].
  constructor; [apply (Forall_inv Hall)|apply IH; apply (Forall_inv_tail Hall)].
Qed.

(** The last 20 bars of a history of 20 bars or more. *)
Lemma recent_not_nil {A : Type} (historicalData : list A) :
  (len historicalData <? (int 20 : number)) = false ->
  slice_from historicalData (- (20)) <> [].
Proof.
  unfold len. intro Hlen. apply ltb_Fin_false in Hlen. rewrite <- Zle_Qle in Hlen.
  unfold slice_from, slice_index. cbn zeta.
  change (- (20) <? 0)%Z with true. cbn iota.
  intro E. apply (f_equal (@List.length A)) in E. rewrite length_skipn in E.
  cbn [List.length] in E. lia.
Qed.

(** For bars of finite, positive close, the strength of a signal is a
    finite number from 0 to 1: 0 for HOLD, above 0 for BUY and SELL. *)
Theorem signal_strength_between_0_and_1 (currentData : BacktestData.t number)
    (strategy : IStrategy.t number) (historicalData : list (BacktestData.t number)) :
  Forall positiveClose historicalData ->
  let signal := generateTradingSignal currentData strategy historicalData in
  exists strength : Q,
    TradingSignal.strength signal = Fin strength
    /\ (0 <= strength <= 1)%Q
    /\ (TradingSignal.type signal = HOLD -> strength = 0%Q)
    /\ (TradingSignal.type signal <> HOLD -> (0 < strength)%Q).
Proof.
  intros Hall signal. unfold signal, generateTradingSignal.
  destruct (len historicalData <? int 20) eqn:Elen.
  { exists 0%Q. cbn [TradingSignal.strength TradingSignal.type].
    split; [reflexivity|]. split; [split; intro E; discriminate|].
    split; [reflexivity|congruence]. }
  cbv zeta.
  pose proof (recent_not_nil historicalData Elen) as Hne.
  assert (Hrecent : Forall positiveClose (slice_from historicalData (- (20))))
    by (apply skipn_Forall; exact Hall).
  revert Hne Hrecent. generalize (slice_from historicalData (- (20))).
  intros recentData Hne Hrecent.
  destruct (sum_close_positive Hrecent) as (total & Htotal & _ & Hpos).
  specialize (Hpos Hne).
  assert (Hshort : Forall positiveClose (slice_from recentData (- (10))))
    by (apply skipn_Forall; exact Hrecent).
  destruct (sum_close_positive Hshort) as (short & Hshortsum & _ & _).
  rewrite Htotal, Hshortsum.
  change (Fin short / int 10) with (div (Fin short) (Fin (inject_Z 10))).
  change (Fin total / int 20) with (div (Fin total) (Fin (inject_Z 20))).
  rewrite !div_Fin by (intro E; discriminate).
  change (inject_Z 10) with 10%Q. change (inject_Z 20) with 20%Q.
  assert (Hlong : (0 < total / 20)%Q) by (apply Qlt_shift_div_l; lra).
  revert Hlong. generalize (total / 20)%Q, (short / 10)%Q. intros longMA shortMA Hlong.
  generalize (sum_close (slice recentData (- (10) - 1) (-1)) / int 10).
  generalize (match slice_from recentData (-1) with
              | [] => Fin longMA
              | _ :: _ => sum_close (slice recentData 0 (-1)) / int (20 - 1)
              end).
  generalize (calculateRSI recentData 14).
  intros rsi prevLongMA prevShortMA.
  assert (Hne' : ~ (longMA == 0)%Q) by lra.
  destruct ((Fin shortMA >? Fin longMA) && (prevShortMA <=? prevLongMA) && (rsi <? int 70))
    eqn:Ebuy.
  { apply andb_true_iff in Ebuy. destruct Ebuy as [Ebuy Ersi].
    apply andb_true_iff in Ebuy. destruct Ebuy as [Ema _].
    apply ltb_Fin_true in Ema.
    cbn [TradingSignal.strength TradingSignal.type].
    change (Fin shortMA - Fin longMA) with (Fin (shortMA - longMA)).
    change (Fin (shortMA - longMA) / Fin longMA)
      with (div (Fin (shortMA - longMA)) (Fin longMA)).
    rewrite div_Fin by exact Hne'.
    assert (Hgap : (0 < (shortMA - longMA) / longMA)%Q) by (apply Qlt_shift_div_l; lra).
    revert Hgap. generalize ((shortMA - longMA) / longMA)%Q. intros gap Hgap.
    destruct rsi as [r| | |]; try discriminate Ersi.
    - apply ltb_Fin_true in Ersi. change (inject_Z 70) with 70%Q in Ersi.
      change (int 70 - Fin r) with (Fin (inject_Z 70 - r)).
      change (Fin (inject_Z 70 - r) / int 100)
        with (div (Fin (inject_Z 70 - r)) (Fin (inject_Z 100))).
      rewrite div_Fin by (intro E; discriminate).
      change (inject_Z 70) with 70%Q. change (inject_Z 100) with 100%Q.
      assert (Hroom : (0 < (70 - r) / 100)%Q) by (apply Qlt_shift_div_l; lra).
      change (Fin gap + Fin ((70 - r) / 100)) with (Fin (gap + (70 - r) / 100)).
      destruct (Math_min_Fin (inject_Z 1) (gap + (70 - r) / 100))
        as (m & Hm & Hle1 & Hle2 & Hcase).
      change (int 1 : number) with (Fin (inject_Z 1)). rewrite Hm.
      change (inject_Z 1) with 1%Q in *.
      exists m. split; [reflexivity|].
      assert (Hm0 : (0 < m)%Q) by (destruct Hcase as [E|E]; rewrite E; lra).
      split; [split; lra|]. split; [discriminate|intros _; exact Hm0].
    - exists 1%Q. split; [reflexivity|]. split; [split; intro E; discriminate|].
      split; [discriminate|intros _; reflexivity]. }
  destruct ((Fin shortMA <? Fin longMA) && (prevShortMA >=? prevLongMA) && (rsi >? int 30))
    eqn:Esell.
  { apply andb_true_iff in Esell. destruct Esell as [Esell Ersi].
    apply andb_true_iff in Esell. destruct Esell as [Ema _].
    apply ltb_Fin_true in Ema.
    cbn [TradingSignal.strength TradingSignal.type].
    change (Fin longMA - Fin shortMA) with (Fin (longMA - shortMA)).
    change (Fin (longMA - shortMA) / Fin longMA)
      with (div (Fin (longMA - shortMA)) (Fin longMA)).
    rewrite div_Fin by exact Hne'.
    assert (Hgap : (0 < (longMA - shortMA) / longMA)%Q) by (apply Qlt_shift_div_l; lra).
    revert Hgap. generalize ((longMA - shortMA) / longMA)%Q. intros gap Hgap.
    destruct rsi as [r| | |]; try discriminate Ersi.
    - apply ltb_Fin_true in Ersi. change (inject_Z 30) with 30%Q in Ersi.
      change (Fin r - int 30) with (Fin (r - inject_Z 30)).
      change (Fin (r - inject_Z 30) / int 100)
        with (div (Fin (r - inject_Z 30)) (Fin (inject_Z 100))).
      rewrite div_Fin by (intro E; discriminate).
      change (inject_Z 30) with 30%Q. change (inject_Z 100) with 100%Q.
      assert (Hroom : (0 < (r - 30) / 100)%Q) by (apply Qlt_shift_div_l; lra).
      change (Fin gap + Fin ((r - 30) / 100)) with (Fin (gap + (r - 30) / 100)).
      destruct (Math_min_Fin (inject_Z 1) (gap + (r - 30) / 100))
        as (m & Hm & Hle1 & Hle2 & Hcase).
      change (int 1 : number) with (Fin (inject_Z 1)). rewrite Hm.
      change (inject_Z 1) with 1%Q in *.
      exists m. split; [reflexivity|].
      assert (Hm0 : (0 < m)%Q) by (destruct Hcase as [E|E]; rewrite E; lra).
      split; [split; lra|]. split; [discriminate|intros _; exact Hm0].
    - exists 1%Q. split; [reflexivity|]. split; [split; intro E; discriminate|].
      split; [discriminate|intros _; reflexivity]. }
  exists 0%Q. cbn [TradingSignal.strength TradingSignal.type].
  split; [reflexivity|]. split; [split; intro E; discriminate|].
  split; [reflexivity|congruence].
Qed.

(** Eighteen closes of 100, then 96 and 105: the short average crosses
    above the long one with an RSI below 70. *)
Definition crossoverBars : list (BacktestData.t number) :=
  map (fun close => exactBar close close close) (repeat 100%Q 18 ++ [96%Q; 105%Q]).

Lemma signal_strength_between_0_and_1_witness :
  TradingSignal.type
    (generateTradingSignal (exactBar 105 105 105) exactStrategy crossoverBars) = BUY
  /\ exists strength : Q,
       TradingSignal.strength
         (generateTradingSignal (exactBar 105 105 105) exactStrategy crossoverBars)
       = Fin strength
       /\ (0 < strength <= 1)%Q.
Proof.
  assert (Hall : Forall positiveClose crossoverBars).
  { apply Forall_forall. intros d Hd. apply in_map_iff in Hd.
    destruct Hd as (close & <- & Hin). exists close. split; [reflexivity|].
    apply in_app_or in Hin. destruct Hin as [Hin|[<-|[<-|[]]]]; [|reflexivity|reflexivity].
    apply repeat_spec in Hin. subst close. reflexivity. }
  assert (Hbuy : TradingSignal.type
                   (generateTradingSignal (exactBar 105 105 105) exactStrategy crossoverBars)
                 = BUY) by (vm_compute; reflexivity).
  split; [exact Hbuy|].
  destruct (@signal_strength_between_0_and_1 (exactBar 105 105 105) exactStrategy
              crossoverBars Hall)
    as (strength & Hstrength & [_ Hle] & _ & Hpos).
  exists strength. split; [exact Hstrength|]. split; [|exact Hle].
  apply Hpos. rewrite Hbuy. discriminate.
Defined.

End SignalStrength.
